(** * mpc-lib-go: round engine and key managers, a shallow embedding

    The rounds of CMP key generation (3 and 4), FROST key generation (2),
    FROST signing (2) and CMP signing (5), the Paillier key manager and the
    ECDSA key encoding are embedded as Rocq functions.  What these files
    only import (curve arithmetic, Paillier, the key managers' backends,
    the message manager) is an interface in Go and a type class here, so
    every statement below holds for all implementations.

    Layout: Part I holds the models, one module per Go source file; Part II
    the concrete instances used to run the models; Part III the theorems. *)

From Stdlib Require Import ZArith Lia Permutation.
From stdpp Require Import base option list gmap strings.

Open Scope Z_scope.

(** * Part I. Models *)

(** ** Go conventions shared by every package *)

(** A Go [error] value.  The sentinels of [lib/round] and of the ECDSA key
    file are constructors; [errors.New]/[fmt.Errorf] carry their text;
    [Wrapped] is [fmt.Errorf("prefix: %w", err)]. *)
Inductive error : Type :=
| ErrInvalidContent
| ErrNotEnoughMessages
| ErrNilFields
| ErrInvalidKey
| ErrorsNew (text : string)
| Wrapped (prefix : string) (inner : error).

(** A Go function returning [(T, error)] whose callers test [err != nil]
    first. *)
Inductive result (A : Type) : Type :=
| Ok (a : A)
| Err (e : error).
Arguments Ok {A} a.
Arguments Err {A} e.

#[export] Instance result_ret : MRet result := fun _ a => Ok a.
#[export] Instance result_bind : MBind result :=
  fun _ _ f r => match r with Ok a => f a | Err e => Err e end.

(** A Go call that may also panic at run time (index out of range, method
    call on a nil interface). *)
Inductive run (A : Type) : Type :=
| Return (a : A)
| Raise (e : error)
| Panic (why : string).
Arguments Return {A} a.
Arguments Raise {A} e.
Arguments Panic {A} why.

#[export] Instance run_ret : MRet run := fun _ a => Return a.
#[export] Instance run_bind : MBind run :=
  fun _ _ f r =>
    match r with Return a => f a | Raise e => Raise e | Panic w => Panic w end.

Definition lift_result {A} (r : result A) : run A :=
  match r with Ok a => Return a | Err e => Raise e end.

Definition returned {A} (r : run A) : option A :=
  match r with Return a => Some a | _ => None end.

(** Calls that both update a store and may fail: the store is threaded, the
    error short-circuits ([if err != nil { return err }]). *)
Definition Eff (S A : Type) : Type := S -> S * result A.

#[export] Instance eff_ret {S} : MRet (Eff S) := fun _ a s => (s, Ok a).
#[export] Instance eff_bind {S} : MBind (Eff S) :=
  fun _ _ f m s =>
    match m s with
    | (s', Ok a) => f a s'
    | (s', Err e) => (s', Err e)
    end.

(** [return err] *)
Definition fail {S A} (e : error) : Eff S A := fun s => (s, Err e).

(** A call returning only [error]. *)
Definition call {S} (f : S -> S * option error) : Eff S unit :=
  fun s => match f s with
           | (s', None) => (s', Ok tt)
           | (s', Some e) => (s', Err e)
           end.

(** A call returning [(T, error)] that reads the store. *)
Definition query {S A} (f : S -> result A) : Eff S A := fun s => (s, f s).

(** A store update that cannot fail. *)
Definition modify {S} (f : S -> S) : Eff S unit := fun s => (f s, Ok tt).

(** A pure check: [if err := v.Validate(); err != nil { return err }]. *)
Definition check {S} (e : option error) : Eff S unit :=
  match e with None => mret tt | Some e => fail e end.

(** [if !cond { return errors.New(..) }] *)
Definition require {S} (cond : bool) (e : error) : Eff S unit :=
  if cond then mret tt else fail e.

(** The Go view of a method returning [error]: final store and the error. *)
Definition outcome {S} (m : Eff S unit) (s : S) : S * option error :=
  match m s with
  | (s', Ok _) => (s', None)
  | (s', Err e) => (s', Some e)
  end.

(** A byte is a [Z] in [0, 256); [uint8 n] is Go's conversion of an [int]. *)
Definition uint8 (n : Z) : Z := n mod 256.

(** [len(x)] as a Go [int]. *)
Definition len {A} (l : list A) : Z := Z.of_nat (length l).

(** [data[i]]: panics outside [0, len(data)). *)
Definition index (data : list Z) (i : Z) : run Z :=
  if (0 <=? i) && (i <? len data)
  then match data !! Z.to_nat i with
       | Some b => Return b
       | None => Panic "index out of range"
       end
  else Panic "index out of range".

(** [data[lo:hi]]: panics unless [0 <= lo <= hi <= len(data)]. *)
Definition slice (data : list Z) (lo hi : Z) : run (list Z) :=
  if (0 <=? lo) && (lo <=? hi) && (hi <=? len data)
  then Return (take (Z.to_nat (hi - lo)) (drop (Z.to_nat lo) data))
  else Panic "slice bounds out of range".

(** [data[lo:]] *)
Definition slice_from (data : list Z) (lo : Z) : run (list Z) :=
  slice data lo (len data).

(** [[]byte(s)] for a string constant. *)
Definition bytes_of_string (s : string) : list Z :=
  (fun c => Z.of_nat (Ascii.nat_of_ascii c)) <$> String.list_ascii_of_string s.

(** [encoding/hex.EncodeToString]: two lower-case digits per byte. *)
Definition hex_digit (d : Z) : Ascii.ascii :=
  Ascii.ascii_of_nat
    (Z.to_nat (if d <? 10 then 48 + d else 87 + d)).

Fixpoint hex_EncodeToString (src : list Z) : string :=
  match src with
  | [] => EmptyString
  | b :: rest =>
      String (hex_digit (b / 16))
        (String (hex_digit (b mod 16)) (hex_EncodeToString rest))
  end.

(** A party identifier ([party.ID], a Go string). *)
Abbreviation party := string.

(** ** lib/round: what the rounds use of the message envelope and of the
       session helper *)
Module round.

(** [round.Message]: the sender and the content.  [content] is the type of
    the values the [round.Content] interface can hold in the round at
    hand. *)
Record Message (content : Type) : Type := mkMessage {
  From : party;
  Content : content;
}.
Arguments mkMessage {content} From Content.
Arguments From {content} m.
Arguments Content {content} m.

(** [Helper.OtherPartyIDs]: the party set without the local party. *)
Definition OtherPartyIDs (self : party) (ps : list party) : list party :=
  filter (fun p => p ≠ self) ps.

End round.

(** ** pkg/common/keystore/keystore.go: the keystore interface and the
       Paillier key manager *)
Module keystore.

(** [type Keystore interface]: an implementation is a store state [KS] with
    the three methods. *)
Class Keystore (KS : Type) : Type := {
  Import : KS -> string -> list Z -> KS * option error;
  Get : KS -> string -> result (list Z);
  Delete : KS -> string -> KS * option error;
}.

End keystore.

Module paillier.
Import keystore.

(** [pailliercore.SecretKey], [pailliercore.PublicKey] and [pool.Pool] are
    imported types. *)
Class Core : Type := {
  SecretKey : Type;
  PublicKey : Type;
  Pool : Type;
}.

Section Manager.
Context `{Core} {KS : Type} `{!Keystore KS}.

(** [type PaillierKey struct { secretKey *SecretKey; publicKey *PublicKey }];
    a nil pointer is [None]. *)
Record PaillierKey : Type := mkPaillierKey {
  secretKey : option SecretKey;
  publicKey : option PublicKey;
}.

(** [PaillierKey{}] *)
Definition zero_PaillierKey : PaillierKey := mkPaillierKey None None.

Record PaillierKeyManager : Type := mkPaillierKeyManager {
  pl : option Pool;
  store : KS;
}.

(** [NewPaillierKeyManager]: the pool argument is dropped. *)
Definition NewPaillierKeyManager (s : KS) (p : option Pool) : PaillierKeyManager :=
  mkPaillierKeyManager None s.

(** The package's [fromBytes], the decoder of stored keys. *)
Variable fromBytes : list Z -> result PaillierKey.

(** [func (mgr *PaillierKeyManager) GetKey(ski []byte) (PaillierKey, error)] *)
Definition GetKey (mgr : PaillierKeyManager) (ski : list Z)
  : PaillierKey * option error :=
  let keyID := hex_EncodeToString ski in
  match Get (store mgr) keyID with
  | Err _ => (zero_PaillierKey, None)
  | Ok decoded =>
      match fromBytes decoded with
      | Err _ => (zero_PaillierKey, None)
      | Ok key => (key, None)
      end
  end.

End Manager.

(** The methods of [PaillierKey] and of the core keys that the manager
    calls.  A method is given its receiver as it stands in the key, nil
    included, and may panic on it; [Seed] is the randomness a call draws. *)
Class KeyOps `{Core} : Type := {
  Ciphertext : Type;
  Seed : Type;
  (** [pailliercore.KeyGen(pl)] *)
  KeyGen : option Pool -> Seed -> PublicKey * SecretKey;
  (** [key.Bytes()] *)
  Key_Bytes : PaillierKey -> result (list Z);
  (** [key.SKI()] *)
  Key_SKI : PaillierKey -> list Z;
  (** [key.publicKey.Enc(m)] *)
  Enc : option PublicKey -> Z -> Seed -> run (Ciphertext * Z);
  (** [key.publicKey.EncWithNonce(m, nonce)] *)
  pk_EncWithNonce : option PublicKey -> Z -> Z -> run Ciphertext;
  (** [key.secretKey.Dec(ct)] *)
  Dec : option SecretKey -> Ciphertext -> run Z;
  (** [key.secretKey.DecWithRandomness(ct)] *)
  DecWithRandomness : option SecretKey -> Ciphertext -> run (Z * Z);
  (** [key.secretKey.ValidateCiphertexts(cts...)] *)
  sk_ValidateCiphertexts : option SecretKey -> list Ciphertext -> run bool;
}.

Section Operations.
Context `{KeyOps} {KS : Type} `{!Keystore KS}.
Variable fromBytes : list Z -> result PaillierKey.

Definition with_store (mgr : PaillierKeyManager (KS := KS)) (s : KS)
  : PaillierKeyManager :=
  mkPaillierKeyManager (pl mgr) s.

(** [func (mgr *PaillierKeyManager) GenerateKey() (PaillierKey, error)] *)
Definition GenerateKey (mgr : PaillierKeyManager) (seed : Seed)
  : PaillierKeyManager * (PaillierKey * option error) :=
  (* generate a new Paillier key pair *)
  let '(pk, sk) := KeyGen (pl mgr) seed in
  let key := mkPaillierKey (Some sk) (Some pk) in
  match Key_Bytes key with
  | Err e => (mgr, (zero_PaillierKey, Some e))
  | Ok encoded =>
      let ski := Key_SKI key in
      let keyID := hex_EncodeToString ski in
      match Import (store mgr) keyID encoded with
      | (s, Some e) => (with_store mgr s, (zero_PaillierKey, Some e))
      | (s, None) => (with_store mgr s, (key, None))
      end
  end.

(** [func (mgr *PaillierKeyManager) ImportKey(key PaillierKey) (error)] *)
Definition ImportKey (mgr : PaillierKeyManager) (key : PaillierKey)
  : PaillierKeyManager * option error :=
  match Key_Bytes key with
  | Err e => (mgr, Some e)
  | Ok kb =>
      let ski := Key_SKI key in
      let keyID := hex_EncodeToString ski in
      let '(s, e) := Import (store mgr) keyID kb in
      (with_store mgr s, e)
  end.

(** [func (mgr *PaillierKeyManager) Encode(ski, m)], returning a ciphertext
    and a nonce: on a lookup error both results are nil. *)
Definition Encode (mgr : PaillierKeyManager) (ski : list Z) (m : Z) (seed : Seed)
  : run (option (Ciphertext * Z)) :=
  match GetKey fromBytes mgr ski with
  | (_, Some _) => Return None
  | (key, None) => c ← Enc (publicKey key) m seed; Return (Some c)
  end.

(** [func (mgr *PaillierKeyManager) EncWithNonce(ski, m, nonce)] *)
Definition EncWithNonce (mgr : PaillierKeyManager) (ski : list Z) (m nonce : Z)
  : run (option Ciphertext) :=
  match GetKey fromBytes mgr ski with
  | (_, Some _) => Return None
  | (key, None) => c ← pk_EncWithNonce (publicKey key) m nonce; Return (Some c)
  end.

(** [func (mgr *PaillierKeyManager) Decode(ski, ct)], returning an integer
    and an error *)
Definition Decode (mgr : PaillierKeyManager) (ski : list Z) (ct : Ciphertext)
  : run Z :=
  match GetKey fromBytes mgr ski with
  | (_, Some e) => Raise e
  | (key, None) => Dec (secretKey key) ct
  end.

(** [func (mgr *PaillierKeyManager) DecodeWithNonce(ski, ct)] *)
Definition DecodeWithNonce (mgr : PaillierKeyManager) (ski : list Z) (ct : Ciphertext)
  : run (Z * Z) :=
  match GetKey fromBytes mgr ski with
  | (_, Some e) => Raise e
  | (key, None) => DecWithRandomness (secretKey key) ct
  end.

(** [func (mgr *PaillierKeyManager) ValidateCiphertexts(ski, cts...) (bool, error)] *)
Definition ValidateCiphertexts (mgr : PaillierKeyManager) (ski : list Z)
    (cts : list Ciphertext) : run (bool * option error) :=
  match GetKey fromBytes mgr ski with
  | (_, Some e) => Return (false, Some e)
  | (key, None) => b ← sk_ValidateCiphertexts (secretKey key) cts; Return (b, None)
  end.

End Operations.
End paillier.

(** ** core/math/curve: the curve interface (Section 6 of the specification)

    [curve.Curve], [curve.Scalar] and [curve.Point] are Go interfaces; a
    curve is an implementation of all three. *)
Module curve.

Class Curve : Type := {
  Scalar : Type;
  Point : Type;
  (** [Group().Order()] *)
  Order : Z;
  (** [Group().NewScalar()]: the zero scalar *)
  NewScalar : Scalar;
  (** [Group().NewPoint()]: the identity point *)
  NewPoint : Point;
  (** [Scalar.SetNat] *)
  SetNat : Z -> Scalar;
  (** [curve.MakeInt] *)
  MakeInt : Scalar -> Z;
  (** [Scalar.Add] *)
  Add : Scalar -> Scalar -> Scalar;
  (** [Scalar.IsZero] *)
  IsZero : Scalar -> bool;
  (** [Scalar.ActOnBase] *)
  ActOnBase : Scalar -> Point;
  (** [Point.Equal] *)
  Equal : Point -> Point -> bool;
  (** [Point.IsIdentity] *)
  IsIdentity : Point -> bool;
  (** [party.ID.Scalar(group)]: the party-scalar *)
  PartyScalar : party -> Scalar;
}.

End curve.

(** ** protocols/cmp/keygen/round4.go *)
Module cmp_keygen_round4.
Import curve.

(** The key managers round 4 talks to: [PaillierKM] is the state behind
    [paillier_km], [VssKM] the state behind [vss_km]. *)
Class Managers `{Curve} : Type := {
  PaillierKM : Type;
  VssKM : Type;
  Ciphertext : Type;
  Proof : Type;
  PaillierKey : Type;
  VssKey : Type;
  Session : Type;
  (** [r.paillier_km.GetKey(keyID, partyID)] *)
  paillier_GetKey : PaillierKM -> string -> party -> result PaillierKey;
  (** [paillierKey.Decode(ct)]: decryption with the secret key *)
  Decode : PaillierKey -> Ciphertext -> result Z;
  (** [r.vss_km.GetKey(keyID, partyID)] *)
  vss_GetKey : VssKM -> string -> party -> result VssKey;
  (** [vssKey.EvaluateByExponents(x)] *)
  EvaluateByExponents : VssKey -> Scalar -> result Point;
  (** [vssKey.ImportShare(index, share)] *)
  ImportShare : VssKey -> Scalar -> Scalar -> VssKM -> VssKM * option error;
}.

Section Round4.
Context `{Managers}.

(** [type message4 struct { Share *paillier.Ciphertext; Fac *zkfac.Proof }] *)
Record message4 : Type := mkMessage4 {
  Share : Ciphertext;
  Fac : Proof;
}.

(** What [msg.Content] can hold when it is asserted to a [message4]
    pointer: a possibly nil [*message4], or a value of another type. *)
Inductive content : Type :=
| ContentMessage4 (body : option message4)
| ContentOther.

Record round4 : Type := mkRound4 {
  KeyID : string;
  SelfID : party;
  PartyIDs : list party;
  paillier_km : PaillierKM;
  vss_km : VssKM;
  MessageBroadcasted : gmap party bool;
  MessagesForwarded : gmap party bool;
}.

(** [r.N()] *)
Definition N (r : round4) : Z := len (PartyIDs r).

Definition with_vss_km (r : round4) (k : VssKM) : round4 :=
  mkRound4 (KeyID r) (SelfID r) (PartyIDs r) (paillier_km r) k
    (MessageBroadcasted r) (MessagesForwarded r).

Definition mark_forwarded (from : party) (r : round4) : round4 :=
  mkRound4 (KeyID r) (SelfID r) (PartyIDs r) (paillier_km r) (vss_km r)
    (MessageBroadcasted r) (<[from := true]> (MessagesForwarded r)).

(** A call on [vss_km] lifted to the round. *)
Definition on_vss_km {A} (f : VssKM -> VssKM * A) (r : round4) : round4 * A :=
  let '(k, a) := f (vss_km r) in (with_vss_km r k, a).

(** The reduced share: [r.Group().NewScalar().SetNat(DecryptedShare.Mod(Order))] *)
Definition reduce (DecryptedShare : Z) : Scalar :=
  SetNat (DecryptedShare mod Order).

(** [DecryptedShare.Eq(curve.MakeInt(Share)) == 1] *)
Definition in_range (DecryptedShare : Z) : bool :=
  DecryptedShare =? MakeInt (reduce DecryptedShare).

(** The body of [StoreMessage] once [from] and [body] are bound. *)
Definition storeShare (from : party) (body : message4) : Eff round4 unit :=
  (* decrypt share *)
  paillierKey ← query (fun r => paillier_GetKey (paillier_km r) (KeyID r) (SelfID r));
  DecryptedShare ← query (fun _ => Decode paillierKey (Share body));
  let Share := reduce DecryptedShare in
  require (in_range DecryptedShare)
    (ErrorsNew "decrypted share is not in correct range");;
  (* verify share with VSS *)
  vssKey ← query (fun r => vss_GetKey (vss_km r) (KeyID r) from);
  self ← query (fun r => Ok (PartyScalar (SelfID r)));
  ExpectedPublicShare ← query (fun _ => EvaluateByExponents vssKey self);
  let PublicShare := ActOnBase Share in
  require (Equal PublicShare ExpectedPublicShare)
    (ErrorsNew "failed to validate VSS share");;
  call (on_vss_km (ImportShare vssKey self Share));;
  (* mark the message as received *)
  modify (mark_forwarded from).

(** [func (r *round4) StoreMessage(msg round.Message) error].  The
    single-value type assertion panics on another content type; a nil body
    is dereferenced at [body.Share], after the Paillier key was fetched. *)
Definition StoreMessage (r : round4) (msg : round.Message content)
  : run (round4 * option error) :=
  match round.Content msg with
  | ContentMessage4 (Some body) => Return (outcome (storeShare (round.From msg) body) r)
  | ContentMessage4 None =>
      match paillier_GetKey (paillier_km r) (KeyID r) (SelfID r) with
      | Err e => Return (r, Some e)
      | Ok _ => Panic "nil pointer dereference"
      end
  | ContentOther => Panic "interface conversion"
  end.

(** [func (r *round4) CanFinalize() bool] *)
Definition CanFinalize (r : round4) : bool :=
  (Z.of_nat (size (MessageBroadcasted r)) =? N r - 1)
  && (Z.of_nat (size (MessagesForwarded r)) =? N r - 1).

(** What [Finalize] does past its guard (share sum, public polynomial, the
    new config, the Schnorr proof and the broadcast): it involves only
    collaborators and is reached only when the guard lets it. *)
Variable finalize_shares : round4 -> option Session * option error.

(** [func (r *round4) Finalize(out chan<- *round.Message) (round.Session, error)] *)
Definition Finalize (r : round4) : option Session * option error :=
  if negb (Z.of_nat (size (MessageBroadcasted r)) =? N r - 1)
     || negb (Z.of_nat (size (MessagesForwarded r)) =? N r - 1)
  then (None, Some ErrNotEnoughMessages)
  else finalize_shares r.

End Round4.

(** What the broadcast and verification paths of round 4 call besides the
    managers above.  [r.pedersen_km] and the session hash are only read in
    round 4, so their answers do not depend on the round's progress. *)
Class Verifiers `{Managers} : Type := {
  Hash : Type;
  ModProof : Type;
  PrmProof : Type;
  PedersenKey : Type;
  (** [r.pedersen_km.GetKey(keyID, partyID)] *)
  pedersen_GetKey : string -> party -> result PedersenKey;
  (** [r.HashForID(id)] *)
  HashForID : party -> Hash;
  (** [paillier.VerifyZKMod(proof, hash, pool)] *)
  VerifyZKMod : PaillierKey -> ModProof -> Hash -> bool;
  (** [ped.VerifyProof(hash, pool, proof)] *)
  VerifyProof : PedersenKey -> Hash -> PrmProof -> bool;
  (** [paillierKey.ValidateCiphertexts(ct)] *)
  ValidateCiphertexts : PaillierKey -> Ciphertext -> bool;
  (** [paillierKey.VerifyZKFAC(proof, zkfac.Public{N: paillierj.PublicKey().ParamN(),
      Aux: ped.PublicKeyRaw()}, hash)] *)
  VerifyZKFAC : PaillierKey -> Proof -> PaillierKey -> PedersenKey -> Hash -> bool;
}.

Section Round4Verification.
Context `{Verifiers}.

(** [type broadcast4 struct { Mod *zkmod.Proof; Prm *zkprm.Proof }] *)
Record broadcast4 : Type := mkBroadcast4 {
  Mod : ModProof;
  Prm : PrmProof;
}.

Inductive broadcast_content : Type :=
| ContentBroadcast4 (body : option broadcast4)
| ContentOtherBroadcast.

Definition mark_broadcasted (from : party) (r : round4) : round4 :=
  mkRound4 (KeyID r) (SelfID r) (PartyIDs r) (paillier_km r) (vss_km r)
    (<[from := true]> (MessageBroadcasted r)) (MessagesForwarded r).

(** [func (r *round4) StoreBroadcastMessage(msg round.Message) error] *)
Definition StoreBroadcastMessage (r : round4) (msg : round.Message broadcast_content)
  : round4 * option error :=
  let from := round.From msg in
  match round.Content msg with
  | ContentBroadcast4 (Some body) =>
      (* verify zkmod *)
      match pedersen_GetKey (KeyID r) from with
      | Err e => (r, Some e)
      | Ok ped =>
          match paillier_GetKey (paillier_km r) (KeyID r) from with
          | Err e => (r, Some e)
          | Ok paillier =>
              if negb (VerifyZKMod paillier (Mod body) (HashForID from))
              then (r, Some (ErrorsNew "failed to validate mod proof"))
              (* verify zkprm *)
              else if negb (VerifyProof ped (HashForID from) (Prm body))
              then (r, Some (ErrorsNew "failed to validate prm proof"))
              (* mark the message as received *)
              else (mark_broadcasted from r, None)
          end
      end
  | _ => (r, Some ErrInvalidContent)
  end.

(** [func (r *round4) VerifyMessage(msg round.Message) error] *)
Definition VerifyMessage (r : round4) (msg : round.Message content) : option error :=
  let from := round.From msg in
  match round.Content msg with
  | ContentMessage4 (Some body) =>
      match paillier_GetKey (paillier_km r) (KeyID r) (SelfID r) with
      | Err e => Some e
      | Ok paillierKey =>
          if negb (ValidateCiphertexts paillierKey (Share body))
          then Some (ErrorsNew "invalid ciphertext")
          else
            match pedersen_GetKey (KeyID r) (SelfID r) with
            | Err e => Some e
            | Ok ped =>
                (* verify zkfac *)
                match paillier_GetKey (paillier_km r) (KeyID r) from with
                | Err e => Some e
                | Ok paillierj =>
                    if negb (VerifyZKFAC paillierKey (Fac body) paillierj ped
                               (HashForID from))
                    then Some (ErrorsNew "failed to validate fac proof")
                    else None
                end
            end
      end
  | _ => Some ErrInvalidContent
  end.

End Round4Verification.
End cmp_keygen_round4.

(** ** lib/types: RID and chain-key values *)
Module types.

(** [params.SecBytes] *)
Definition SecBytes : Z := 32.

(** [type RID []byte] *)
Definition RID : Type := list Z.

(** Modelled from the spec: [types.EmptyRID] of the imported [lib/types].
    RID and ChainKey are fixed-length 32-byte values; the empty one is all
    zero. *)
Definition EmptyRID : RID := replicate (Z.to_nat SecBytes) 0.

(** Modelled from the spec: [types.RID.XOR] of the imported [lib/types], the
    in-place bytewise XOR behind [RID = ⊕ⱼ RIDⱼ].  It walks the [SecBytes]
    positions of both slices, so a shorter operand is an index out of
    range. *)
Definition XOR (rid other : RID) : run RID :=
  if (SecBytes <=? len rid) && (SecBytes <=? len other)
  then Return (zip_with Z.lxor (take (Z.to_nat SecBytes) rid)
                               (take (Z.to_nat SecBytes) other)
               ++ drop (Z.to_nat SecBytes) rid)
  else Panic "index out of range".

(** Modelled from the spec: [types.RID.Validate] of the imported
    [lib/types] rejects all-zero and wrong-length values. *)
Definition Validate (rid : RID) : option error :=
  if negb (len rid =? SecBytes) then Some (ErrorsNew "incorrect length")
  else if forallb (Z.eqb 0) rid then Some (ErrorsNew "rid is 0")
  else None.

End types.

(** ** protocols/cmp/keygen/round3.go *)
Module cmp_keygen_round3.
Import curve types.

(** The managers round 3 talks to; [St] is the state behind [rid_km],
    [chainKey_km], [paillier_km], [pedersen_km], [ecdsa_km], [elgamal_km]
    and [commit_mgr].  None of their methods is given the session
    threshold. *)
Class Managers `{Curve} : Type := {
  St : Type;
  Hash : Type;
  hash_Commitment : Type;
  hash_Decommitment : Type;
  RIDKey : Type;
  paillier_Key : Type;
  pedersen_Key : Type;
  elgamal_Key : Type;
  ECDSAKey : Type;
  VssKey : Type;
  Exponent : Type;
  (** [polynomial.Exponent.Degree] *)
  Degree : Exponent -> Z;
  (** [hash.Decommitment.Validate] *)
  Decommitment_Validate : hash_Decommitment -> option error;
  rid_ImportKey : string -> party -> types.RID -> St -> St * result RIDKey;
  chainKey_ImportKey : string -> party -> types.RID -> St -> St * result RIDKey;
  rid_GetKey : St -> string -> party -> result RIDKey;
  chainKey_GetKey : St -> string -> party -> result RIDKey;
  (** [RIDKey.Raw] *)
  Raw : RIDKey -> types.RID;
  paillier_ImportKey : string -> party -> list Z -> St -> St * result paillier_Key;
  pedersen_ImportKey : string -> party -> list Z -> St -> St * result pedersen_Key;
  ecdsa_ImportKey : string -> party -> list Z -> St -> St * result ECDSAKey;
  elgamal_ImportKey : string -> party -> list Z -> St -> St * result elgamal_Key;
  (** [fromKey.ImportVSSSecrets(bytes)] *)
  ImportVSSSecrets : ECDSAKey -> list Z -> St -> St * option error;
  (** [fromKey.ImportSchnorrCommitment(point)] *)
  ImportSchnorrCommitment : ECDSAKey -> Point -> St -> St * option error;
  (** [fromKey.VSS()] *)
  VSS : ECDSAKey -> St -> result VssKey;
  (** [vssKeyFrom.Exponents()] *)
  Exponents : VssKey -> St -> result Exponent;
  (** [r.commit_mgr.Get(id, from)] yields the stored digest *)
  commit_Get : St -> string -> party -> result hash_Commitment;
  (** [r.commit_mgr.Import(id, from, cmt)] with the decommitment filled in *)
  commit_Import :
    string -> party -> hash_Commitment * hash_Decommitment -> St -> St * option error;
  (** [r.Hash().Clone().Decommit(c, d, rid, chainKey, exponents, elgamal
      public, pedersen N, S, T, schnorr commitment)] *)
  Decommit :
    Hash -> hash_Commitment -> hash_Decommitment -> RIDKey -> RIDKey -> Exponent ->
    elgamal_Key -> pedersen_Key -> Point -> bool;
}.

Section Round3.
Context `{Managers}.

(** [type broadcast3 struct] *)
Record broadcast3 : Type := mkBroadcast3 {
  RID : types.RID;
  C : types.RID;
  EcdsaKey : list Z;
  VSSPolynomial : list Z;
  SchnorrCommitments : Point;
  ElgamalKey : list Z;
  PaillierKey : list Z;
  PedersenKey : list Z;
  Decommitment : hash_Decommitment;
}.

Inductive content : Type :=
| ContentBroadcast3 (body : option broadcast3)
| ContentOther.

Record round3 : Type := mkRound3 {
  ID : string;
  SelfID : party;
  PartyIDs : list party;
  Threshold : Z;
  hash : Hash;
  PreviousChainKey : option types.RID;
  st : St;
  MessageBroadcasted : gmap party bool;
}.

Definition N (r : round3) : Z := len (PartyIDs r).

Definition with_st (r : round3) (s : St) : round3 :=
  mkRound3 (ID r) (SelfID r) (PartyIDs r) (Threshold r) (hash r)
    (PreviousChainKey r) s (MessageBroadcasted r).

Definition with_Threshold (t : Z) (r : round3) : round3 :=
  mkRound3 (ID r) (SelfID r) (PartyIDs r) t (hash r)
    (PreviousChainKey r) (st r) (MessageBroadcasted r).

Definition with_PartyIDs (ps : list party) (r : round3) : round3 :=
  mkRound3 (ID r) (SelfID r) ps (Threshold r) (hash r)
    (PreviousChainKey r) (st r) (MessageBroadcasted r).

Definition mark_broadcasted (from : party) (r : round3) : round3 :=
  mkRound3 (ID r) (SelfID r) (PartyIDs r) (Threshold r) (hash r)
    (PreviousChainKey r) (st r) (<[from := true]> (MessageBroadcasted r)).

(** A manager call lifted to the round. *)
Definition on_st {A} (f : St -> St * A) (r : round3) : round3 * A :=
  let '(s, a) := f (st r) in (with_st r s, a).

Definition wrap (prefix : string) (e : option error) : option error :=
  Wrapped prefix <$> e.

(** The body of [StoreBroadcastMessage] once [from] and [body] are bound.
    The degree and constant-coefficient checks of the doc comment are
    commented out in the source (lines 84 to 108) and so are absent here. *)
Definition storeBroadcast (from : party) (body : broadcast3) : Eff round3 unit :=
  id ← query (fun r => Ok (ID r));
  check (wrap "rid" (Validate (RID body)));;
  check (wrap "chainkey" (Validate (C body)));;
  check (Decommitment_Validate (Decommitment body));;
  ridFrom ← on_st (rid_ImportKey id from (RID body));
  chainKeyFrom ← on_st (chainKey_ImportKey id from (C body));
  _ ← on_st (paillier_ImportKey id from (PaillierKey body));
  pedersenFrom ← on_st (pedersen_ImportKey id from (PedersenKey body));
  fromKey ← on_st (ecdsa_ImportKey id from (EcdsaKey body));
  call (on_st (ImportVSSSecrets fromKey (VSSPolynomial body)));;
  call (on_st (ImportSchnorrCommitment fromKey (SchnorrCommitments body)));;
  vssKeyFrom ← query (fun r => VSS fromKey (st r));
  exponentsFrom ← query (fun r => Exponents vssKeyFrom (st r));
  elgamalFrom ← on_st (elgamal_ImportKey id from (ElgamalKey body));
  (* verify decommit *)
  cmt ← query (fun r => commit_Get (st r) id from);
  call (on_st (commit_Import id from (cmt, Decommitment body)));;
  h ← query (fun r => Ok (hash r));
  require
    (Decommit h cmt (Decommitment body) ridFrom chainKeyFrom exponentsFrom
       elgamalFrom pedersenFrom (SchnorrCommitments body))
    (ErrorsNew "failed to decommit");;
  (* mark the message as received *)
  modify (mark_broadcasted from).

(** [func (r *round3) StoreBroadcastMessage(msg round.Message) error] *)
Definition StoreBroadcastMessage (r : round3) (msg : round.Message content)
  : round3 * option error :=
  match round.Content msg with
  | ContentBroadcast3 (Some body) => outcome (storeBroadcast (round.From msg) body) r
  | _ => (r, Some ErrInvalidContent)
  end.

(** The loop shared by the two folds of [Finalize]:
    [for _, j := range r.PartyIDs() { k, err := GetKey(r.ID, j); ...;
    acc.XOR(k.Raw()) }]. *)
Fixpoint xor_keys (get : party -> result RIDKey) (acc : types.RID) (ps : list party)
  : run types.RID :=
  match ps with
  | [] => Return acc
  | j :: rest =>
      k ← lift_result (get j);
      acc' ← XOR acc (Raw k);
      xor_keys get acc' rest
  end.

(** [Finalize], lines 221 to 232: [c = ⊕ⱼ cⱼ], unless a previous chain key
    is carried over. *)
Definition Finalize_chainKey (r : round3) : run types.RID :=
  match PreviousChainKey r with
  | Some chainKey => Return chainKey
  | None => xor_keys (chainKey_GetKey (st r) (ID r)) EmptyRID (PartyIDs r)
  end.

(** [Finalize], lines 234 to 242: [RID = ⊕ⱼ RIDⱼ]. *)
Definition Finalize_rid (r : round3) : run types.RID :=
  xor_keys (rid_GetKey (st r) (ID r)) EmptyRID (PartyIDs r).

End Round3.
End cmp_keygen_round3.

(** ** pkg/keyopts: the options key, a string map *)
Module keyopts.

Abbreviation Options := (gmap string string).

(** [opts := keyopts.Options{}; opts.Set("id", id, "partyid", p)] *)
Definition session_party (id : string) (p : party) : Options :=
  <["partyid" := p]> (<["id" := id]> ∅).

End keyopts.

(** ** protocols/frost/keygen/round2.go: the primary round and the draft
       that follows it in the same file *)
Module frost_keygen_round2.
Import curve keyopts.

(** The managers round 2 talks to; [St] is the state behind [commit_mgr],
    [ec_km], [vss_mgr] and [bcstmgr]. *)
Class Managers `{Curve} : Type := {
  St : Type;
  Hash : Type;
  HashCommitment : Type;
  Exponent : Type;
  ECDSAKey : Type;
  Session : Type;
  (** [hash.Commitment.Validate] *)
  Commitment_Validate : HashCommitment -> option error;
  (** [r.commit_mgr.Import(r.commit_mgr.NewCommitment(c, nil), opts)] *)
  commit_Import : HashCommitment -> Options -> St -> St * option error;
  (** [polynomial.Exponent.Constant] *)
  Constant : Exponent -> Point;
  (** [r.ec_km.ImportKey(r.ec_km.NewKey(nil, pk, group), opts)] *)
  ec_ImportKey : Point -> Options -> St -> St * result ECDSAKey;
  ImportSchnorrCommitment : ECDSAKey -> Point -> St -> St * option error;
  VerifySchnorrProof : ECDSAKey -> Hash -> Scalar -> St -> result bool;
  (** [r.Helper.HashForID(from)] *)
  HashForID : Hash -> party -> Hash;
  (** [r.vss_mgr.ImportSecrets(sw_vss.NewVssKey(nil, poly), opts)] *)
  vss_ImportSecrets : Exponent -> Options -> St -> St * option error;
  (** [r.bcstmgr.Import(r.bcstmgr.NewMessage(id, round, from, true))] *)
  bcst_Import : string -> Z -> string -> bool -> St -> St * option error;
  (** [r.bcstmgr.HasAll(id, round, parties)] *)
  bcst_HasAll : St -> string -> Z -> list string -> result bool;
}.

Section Round2.
Context `{Managers}.

Record broadcast2 : Type := mkBroadcast2 {
  VSSPolynomial : option Exponent;
  SchnorrCommitment : Point;
  SchnorrProof : Scalar;
  Commitment : HashCommitment;
}.

Inductive content : Type :=
| ContentBroadcast2 (body : option broadcast2)
| ContentOther.

Record round2 : Type := mkRound2 {
  ID : string;
  SelfID : party;
  PartyIDs : list party;
  hash : Hash;
  st : St;
}.

(** [func (round2) Number() round.Number { return 2 }] *)
Definition Number : Z := 2.

Definition with_st (r : round2) (s : St) : round2 :=
  mkRound2 (ID r) (SelfID r) (PartyIDs r) (hash r) s.

Definition on_st {A} (f : St -> St * A) (r : round2) : round2 * A :=
  let '(s, a) := f (st r) in (with_st r s, a).

(** Lines 65 to 97 of the primary round, identical to lines 290 to 322 of
    the draft: import the commitment and the public key, verify the Schnorr
    proof.  Yields the polynomial for the import that only the primary round
    goes on to make. *)
Definition importAndVerify (from : party) (body : broadcast2) : Eff round2 Exponent :=
  require (negb (IsZero (SchnorrProof body)))
    (ErrorsNew "frost.Keygen.Round2: invalid schnorr proof");;
  match VSSPolynomial body with
  | None => fail (ErrorsNew "frost.Keygen.Round2: invalid VSS polynomial")
  | Some poly =>
      id ← query (fun r => Ok (ID r));
      let fromOpts := session_party id from in
      (* validate commitment and import it to commitment store *)
      check (Commitment_Validate (Commitment body));;
      call (on_st (commit_Import (Commitment body) fromOpts));;
      (* import party public key *)
      let pk := Constant poly in
      ecKey ← on_st (ec_ImportKey pk fromOpts);
      (* verify schnorr proof *)
      call (on_st (ImportSchnorrCommitment ecKey (SchnorrCommitment body)));;
      h ← query (fun r => Ok (HashForID (hash r) from));
      verified ← query (fun r => VerifySchnorrProof ecKey h (SchnorrProof body) (st r));
      require verified
        (ErrorsNew "frost.Keygen.Round2: schnorr proof verification failed");;
      mret poly
  end.

(** The primary round, lines 47 to 113: rejects an identity commitment. *)
Definition storeBroadcast (from : party) (body : broadcast2) : Eff round2 unit :=
  require (negb (IsIdentity (SchnorrCommitment body)))
    (ErrorsNew "frost.Keygen.Round2: invalid schnorr commitment");;
  poly ← importAndVerify from body;
  id ← query (fun r => Ok (ID r));
  (* import VSS polynomial *)
  call (on_st (vss_ImportSecrets poly (session_party id from)));;
  (* mark the message as received *)
  call (on_st (bcst_Import id Number from true)).

Definition StoreBroadcastMessage (r : round2) (msg : round.Message content)
  : round2 * option error :=
  match round.Content msg with
  | ContentBroadcast2 (Some body) => outcome (storeBroadcast (round.From msg) body) r
  | _ => (r, Some ErrInvalidContent)
  end.

(** The draft round, lines 272 to 325: the guard reads
    [if !body.SchnorrCommitment.IsIdentity()]. *)
Definition draft_storeBroadcast (from : party) (body : broadcast2) : Eff round2 unit :=
  require (IsIdentity (SchnorrCommitment body))
    (ErrorsNew "frost.Keygen.Round2: invalid schnorr commitment");;
  _ ← importAndVerify from body;
  mret tt.

Definition draft_StoreBroadcastMessage (r : round2) (msg : round.Message content)
  : round2 * option error :=
  match round.Content msg with
  | ContentBroadcast2 (Some body) => outcome (draft_storeBroadcast (round.From msg) body) r
  | _ => (r, Some ErrInvalidContent)
  end.

(** [func (r *round2) CanFinalize() bool] *)
Definition CanFinalize (r : round2) : bool :=
  let parties := round.OtherPartyIDs (SelfID r) (PartyIDs r) in
  match bcst_HasAll (st r) (ID r) Number parties with
  | Err _ => false
  | Ok rcvd => rcvd
  end.

(** What [Finalize] does past its guard (the round-3 broadcast, the VSS
    shares sent to each peer): collaborators only. *)
Variable finalize_shares : round2 -> option Session * option error.

(** [func (r *round2) Finalize(out chan<- *round.Message) (round.Session, error)] *)
Definition Finalize (r : round2) : option Session * option error :=
  if negb (CanFinalize r)
  then (None, Some ErrNotEnoughMessages)
  else finalize_shares r.

End Round2.

(** What [Finalize] calls past its guard, on the same manager state [St]
    (which also stands behind [chainKey_km], [ec_vss_km] and [statemgr]). *)
Class Finalizers `{Managers} : Type := {
  RIDKey : Type;
  Commitment_ : Type;
  hash_Decommitment : Type;
  VssKey : Type;
  (** [r.chainKey_km.GetKey(opts)] *)
  chainKey_GetKey : St -> Options -> result RIDKey;
  (** [chainKey.Raw()] *)
  Raw : RIDKey -> list Z;
  (** [r.commit_mgr.Get(opts)] *)
  commit_Get : St -> Options -> result Commitment_;
  (** [cmt.Decommitment()] *)
  Commitment_Decommitment : Commitment_ -> hash_Decommitment;
  (** [r.vss_mgr.GetSecrets(opts)] *)
  vss_GetSecrets : St -> Options -> result VssKey;
  (** [vssKey.Evaluate(x)] *)
  Evaluate : VssKey -> Scalar -> result Scalar;
  (** [vssKey.SKI()] *)
  VssKey_SKI : VssKey -> list Z;
  (** [r.ec_vss_km.ImportKey(r.ec_km.NewKey(share, sharePublic, group), opts)] *)
  ec_vss_ImportKey : Scalar -> Point -> Options -> St -> St * option error;
  (** [r.statemgr.SetLastRound(id, round)] *)
  statemgr_SetLastRound : string -> Z -> St -> St * option error;
}.

Section Round2Finalize.
Context `{Finalizers}.

(** [type broadcast3 struct] and [type message3 struct] of round 3, as
    [Finalize] fills them. *)
Record broadcast3 : Type := mkBroadcast3 {
  ChainKey : list Z;
  Decommitment : hash_Decommitment;
}.

Record message3 : Type := mkMessage3 {
  VSSShare : Scalar;
}.

(** What goes on the [out] channel: [r.BroadcastMessage(out, content)] and
    [r.SendMessage(out, content, to)]. *)
Inductive sent : Type :=
| Broadcast (body : broadcast3)
| Direct (to : party) (body : message3).

(** Whether the channel, holding [out], takes one more message; a refusal is
    the error of the send. *)
Variable takes : list sent -> sent -> option error.

Definition send (m : sent) (out : list sent) : list sent * option error :=
  match takes out m with
  | None => (out ++ [m], None)
  | Some e => (out, Some e)
  end.

(** The session [Finalize] hands back beside a nil one: the round itself
    ([return r, err]) or its successor ([return &round3{...}, nil]); the
    managers' state travels separately. *)
Inductive session : Type :=
| ThisRound
| NextRound.

(** [for _, j := range r.PartyIDs() { ... }]: a share to every other party,
    the own share to the keystore. *)
Fixpoint shareLoop (r : round2) (vssKey : VssKey) (ps : list party)
    (s : St) (out : list sent)
  : St * list sent * option (option session * error) :=
  match ps with
  | [] => (s, out, None)
  | j :: rest =>
      match Evaluate vssKey (PartyScalar j) with
      | Err e => (s, out, Some (Some ThisRound, e))
      | Ok share =>
          if decide (j ≠ SelfID r) then
            match send (Direct j (mkMessage3 share)) out with
            | (out', Some e) => (s, out', Some (Some ThisRound, e))
            | (out', None) => shareLoop r vssKey rest s out'
            end
          else
            (* import self share to the keystore *)
            let sharePublic := ActOnBase share in
            let vssOpts :=
              session_party (hex_EncodeToString (VssKey_SKI vssKey)) (SelfID r) in
            match ec_vss_ImportKey share sharePublic vssOpts s with
            | (s', Some e) => (s', out, Some (None, e))
            | (s', None) => shareLoop r vssKey rest s' out
            end
      end
  end.

(** [func (r *round2) Finalize(out chan<- *round.Message) (round.Session, error)],
    with the channel and the managers' state it leaves. *)
Definition Finalize_sending (r : round2) (out : list sent)
  : (option session * option error) * (St * list sent) :=
  if negb (CanFinalize r) then ((None, Some ErrNotEnoughMessages), (st r, out)) else
  let opts := session_party (ID r) (SelfID r) in
  (* 1. get chain key *)
  match chainKey_GetKey (st r) opts with
  | Err e => ((Some ThisRound, Some e), (st r, out))
  | Ok chainKey =>
  (* 2. get decommitment generated for the chain key by round 1 *)
  match commit_Get (st r) opts with
  | Err e => ((Some ThisRound, Some e), (st r, out))
  | Ok cmt =>
  match send (Broadcast (mkBroadcast3 (Raw chainKey)
                           (Commitment_Decommitment cmt))) out with
  | (out1, Some e) => ((Some ThisRound, Some e), (st r, out1))
  | (out1, None) =>
  (* 3. evaluate the VSS polynomial for all parties *)
  match vss_GetSecrets (st r) opts with
  | Err e => ((Some ThisRound, Some e), (st r, out1))
  | Ok vssKey =>
  match shareLoop r vssKey (PartyIDs r) (st r) out1 with
  | (s, out2, Some (next, e)) => ((next, Some e), (s, out2))
  | (s, out2, None) =>
  (* update last round processed in the state manager *)
  match statemgr_SetLastRound (ID r) Number s with
  | (s', Some e) => ((Some ThisRound, Some e), (s', out2))
  | (s', None) => ((Some NextRound, None), (s', out2))
  end end end end end end.

End Round2Finalize.
End frost_keygen_round2.

(** ** pkg/mpc/message: the delivery tracker (Section 4.2) *)
Module message.

(** [message.MessageManager] as the rounds use it. *)
Class MessageManager (MM : Type) : Type := {
  (** [mgr.Import(mgr.NewMessage(id, round, from, received))] *)
  Import : string -> Z -> string -> bool -> MM -> MM * option error;
  (** [mgr.HasAll(id, round, parties)] *)
  HasAll : MM -> string -> Z -> list string -> result bool;
}.

End message.

(** ** The FROST signing round 2 (third package of
       pkg/common/keystore/keystore.go) *)
Module frost_sign_round2.
Import curve keyopts.

(** [ecdsa.ECDSAKeyManager] as the round uses it: [sign_d] and [sign_e] are
    two managers of this kind, each with a state [KM]. *)
Class ECDSAKeyManager `{Curve} (KM : Type) : Type := {
  ECDSAKey : Type;
  (** [mgr.NewKey(priv, pub, group)]; a nil private scalar is [None] *)
  NewKey : option Scalar -> Point -> ECDSAKey;
  ImportKey : ECDSAKey -> Options -> KM -> KM * result ECDSAKey;
  GetKey : KM -> Options -> result ECDSAKey;
  PublicKeyRaw : ECDSAKey -> Point;
}.

Section Round2.
Context `{Curve} {KM MM : Type} `{!ECDSAKeyManager KM} `{!message.MessageManager MM}.

Record broadcast2 : Type := mkBroadcast2 {
  D : Point;
  E : Point;
}.

Inductive content : Type :=
| ContentBroadcast2 (body : option broadcast2)
| ContentOther.

Record round2 : Type := mkRound2 {
  ID : string;
  SelfID : party;
  PartyIDs : list party;
  msgmgr : MM;
  bcstmgr : MM;
  sign_d : KM;
  sign_e : KM;
}.

Definition Number : Z := 2.

Definition on_sign_d {A} (f : KM -> KM * A) (r : round2) : round2 * A :=
  let '(k, a) := f (sign_d r) in
  (mkRound2 (ID r) (SelfID r) (PartyIDs r) (msgmgr r) (bcstmgr r) k (sign_e r), a).

Definition on_sign_e {A} (f : KM -> KM * A) (r : round2) : round2 * A :=
  let '(k, a) := f (sign_e r) in
  (mkRound2 (ID r) (SelfID r) (PartyIDs r) (msgmgr r) (bcstmgr r) (sign_d r) k, a).

Definition storeNonces (from : party) (body : broadcast2) : Eff round2 unit :=
  require (negb (IsIdentity (D body) || IsIdentity (E body)))
    (ErrorsNew "nonce commitment is the identity point");;
  id ← query (fun r => Ok (ID r));
  let opts := session_party id from in
  (* store D params as EC Key into EC keystore *)
  let dk := NewKey None (D body) in
  _ ← on_sign_d (ImportKey dk opts);
  (* store E params as EC Key into EC keystore *)
  let ek := NewKey None (E body) in
  _ ← on_sign_e (ImportKey ek opts);
  mret tt.

(** [func (r *round2) StoreBroadcastMessage(msg round.Message) error] *)
Definition StoreBroadcastMessage (r : round2) (msg : round.Message content)
  : round2 * option error :=
  match round.Content msg with
  | ContentBroadcast2 (Some body) => outcome (storeNonces (round.From msg) body) r
  | _ => (r, Some ErrInvalidContent)
  end.

(** [func (r *round2) CanFinalize() bool { return true }] *)
Definition CanFinalize (r : round2) : bool := true.

(** The predicate Section 4.2 gives for a round's readiness, over the same
    round state: [HasAll(OtherPartyIDs)] on the broadcast tracker, read as
    in the FROST key-generation round. *)
Definition all_broadcasts_delivered (r : round2) : bool :=
  match message.HasAll (bcstmgr r) (ID r) Number
          (round.OtherPartyIDs (SelfID r) (PartyIDs r)) with
  | Err _ => false
  | Ok rcvd => rcvd
  end.

End Round2.

(** What [Finalize] calls besides the key managers: the hash of
    [pkg/cryptosuite/sw/hash], [sample.Scalar], point arithmetic and the
    key methods behind the response. *)
Class Signing `{Curve} {KM : Type} `{!ECDSAKeyManager KM} : Type := {
  Hash : Type;
  Digest : Type;
  (** [hash.New(nil)] *)
  hash_New : Hash;
  (** [h.WriteAny(r.cfg.Message())] *)
  WriteMessage : Hash -> list Z -> Hash;
  (** [h.WriteAny(Ds[l], Es[l])] *)
  WriteNonces : Hash -> Point -> Point -> Hash;
  (** [h.Clone().WriteAny(l)] *)
  WriteParty : Hash -> party -> Hash;
  (** [h.WriteAny(R, publicKey, message)] *)
  WriteChallenge : Hash -> Point -> Point -> list Z -> Hash;
  (** [h.Digest()] *)
  hash_Digest : Hash -> Digest;
  (** [sample.Scalar(digest, group)] *)
  sample_Scalar : Digest -> Scalar;
  (** [scalar.Act(point)] *)
  Act : Scalar -> Point -> Point;
  (** [point.Add(point)] *)
  Point_Add : Point -> Point -> Point;
  (** [key.Mul(scalar)] *)
  Key_Mul : ECDSAKey -> Scalar -> Scalar;
  (** [key.AddKeys(key)] *)
  Key_AddKeys : ECDSAKey -> ECDSAKey -> Scalar;
  (** [key.Commit(c, ed)] *)
  Key_Commit : ECDSAKey -> Scalar -> Scalar -> Scalar;
}.

Section Round2Finalize.
Context `{Curve} {KM MM : Type} `{!ECDSAKeyManager KM} `{!message.MessageManager MM}
  `{!Signing}.

(** The round with the fields [Finalize] reads beside those above:
    [r.cfg.KeyID()], [r.cfg.Message()], [r.ecdsa_km] and [r.ec_sign_km]. *)
Record signer : Type := mkSigner {
  base : round2 (KM := KM) (MM := MM);
  cfg_KeyID : string;
  cfg_Message : list Z;
  ecdsa_km : KM;
  ec_sign_km : KM;
}.

(** [type broadcast3 struct { Z curve.Scalar }] of round 3 *)
Record broadcast3 : Type := mkBroadcast3 {
  broadcast3_Z : Scalar;
}.

(** Whether the channel, holding [out], takes one more broadcast. *)
Variable takes : list broadcast3 -> broadcast3 -> option error.

Definition send (m : broadcast3) (out : list broadcast3)
  : list broadcast3 * option error :=
  match takes out m with
  | None => (out ++ [m], None)
  | Some e => (out, Some e)
  end.

(** The round itself, handed back with an error ([return r, err]). *)
Inductive session : Type :=
| ThisRound.

(** [m[l]] for a map of interface values: a missing entry is nil, on which
    no method can be called. *)
Definition entry {A} (m : gmap party A) (l : party) : run A :=
  match m !! l with
  | Some a => Return a
  | None => Panic "nil map entry"
  end.

(** 0. fetch [Dᵢ] and [Eᵢ] from the keystore *)
Fixpoint fetchNonces (r : round2 (KM := KM) (MM := MM)) (ps : list party)
    (Ds Es : gmap party Point) : result (gmap party Point * gmap party Point) :=
  match ps with
  | [] => Ok (Ds, Es)
  | l :: rest =>
      let opts := session_party (ID r) l in
      dk ← GetKey (sign_d r) opts;
      ek ← GetKey (sign_e r) opts;
      fetchNonces r rest (<[l := PublicKeyRaw dk]> Ds) (<[l := PublicKeyRaw ek]> Es)
  end.

(** 1. [for _, l := range r.PartyIDs() { rhoPreHash.WriteAny(Ds[l], Es[l]) }] *)
Fixpoint writeNonces (Ds Es : gmap party Point) (h : Hash) (ps : list party)
  : run Hash :=
  match ps with
  | [] => Return h
  | l :: rest =>
      d ← entry Ds l;
      e ← entry Es l;
      writeNonces Ds Es (WriteNonces h d e) rest
  end.

(** [rho[l] = sample.Scalar(rhoPreHash.Clone().WriteAny(l).Digest(), group)] *)
Fixpoint bindingFactors (rhoPreHash : Hash) (ps : list party)
    (rho : gmap party Scalar) : gmap party Scalar :=
  match ps with
  | [] => rho
  | l :: rest =>
      bindingFactors rhoPreHash rest
        (<[l := sample_Scalar (hash_Digest (WriteParty rhoPreHash l))]> rho)
  end.

(** 2. [Rᵢ = ρᵢ Eᵢ + Dᵢ] and [R = Σᵢ Rᵢ] *)
Fixpoint groupCommitment (rho : gmap party Scalar) (Ds Es : gmap party Point)
    (R : Point) (ps : list party) : run Point :=
  match ps with
  | [] => Return R
  | l :: rest =>
      rl ← entry rho l;
      e ← entry Es l;
      d ← entry Ds l;
      groupCommitment rho Ds Es (Point_Add R (Point_Add (Act rl e) d)) rest
  end.

(** [func (r *round2) Finalize(out chan<- *round.Message) (round.Session, error)],
    with the channel it leaves. *)
Definition Finalize (s : signer) (out : list broadcast3)
  : run ((option session * option error) * list broadcast3) :=
  let r := base s in
  match fetchNonces r (PartyIDs r) ∅ ∅ with
  | Err e => Return ((Some ThisRound, Some e), out)
  | Ok (Ds, Es) =>
  rhoPreHash ← writeNonces Ds Es (WriteMessage hash_New (cfg_Message s)) (PartyIDs r);
  let rho := bindingFactors rhoPreHash (PartyIDs r) ∅ in
  R ← groupCommitment rho Ds Es NewPoint (PartyIDs r);
  (* 3. the challenge *)
  let opts := session_party (cfg_KeyID s) (SelfID r) in
  match GetKey (ecdsa_km s) opts with
  | Err e => Return ((Some ThisRound, Some e), out)
  | Ok ecKey =>
  let c := sample_Scalar
             (hash_Digest (WriteChallenge hash_New R (PublicKeyRaw ecKey) (cfg_Message s))) in
  (* 4. zᵢ = dᵢ + (eᵢ ρᵢ) + λᵢ sᵢ c *)
  match GetKey (sign_e r) opts with
  | Err e => Return ((Some ThisRound, Some e), out)
  | Ok ek =>
  match GetKey (sign_d r) opts with
  | Err e => Return ((Some ThisRound, Some e), out)
  | Ok dk =>
  rhoSelf ← entry rho (SelfID r);
  let ed := Key_Mul ek rhoSelf in
  let edk := NewKey (Some ed) (ActOnBase ed) in
  let ed := Key_AddKeys dk edk in
  match GetKey (ec_sign_km s) opts with
  | Err e => Return ((Some ThisRound, Some e), out)
  | Ok signKey =>
  let z := Key_Commit signKey c ed in
  (* 5. broadcast z *)
  match send (mkBroadcast3 z) out with
  | (out', Some e) => Return ((Some ThisRound, Some e), out')
  | (out', None) => Return ((None, None), out')
  end end end end end end.

End Round2Finalize.
End frost_sign_round2.

(** ** CMP signing, round 5 (package sign) *)
Module cmp_sign_round5.
Import curve.

(** [type Signature struct { R curve.Point; S curve.Scalar }] of [pkg/ecdsa],
    and its [Verify(publicKey, message)]. *)
Class Ecdsa `{Curve} : Type := {
  Verify : Point -> Scalar -> Point -> list Z -> bool;
}.

Section Round5.
Context `{Ecdsa}.

Record Signature : Type := mkSignature {
  R : Point;
  S : Scalar;
}.

Definition Signature_Verify (sig : Signature) (X : Point) (m : list Z) : bool :=
  Verify (R sig) (S sig) X m.

(** What [Finalize] hands back as the next session: [r.AbortRound(err)] or
    [r.ResultRound(signature)]. *)
Inductive Session : Type :=
| AbortRound (err : error)
| ResultRound (signature : Signature).

Record round5 : Type := mkRound5 {
  PartyIDs : list party;
  PublicKey : Point;
  Message : list Z;
  SigmaShares : gmap party Scalar;
  BigR : Point;
  MessageBroadcasted : gmap party bool;
}.

Definition N (r : round5) : Z := len (PartyIDs r).

Record broadcast5 : Type := mkBroadcast5 {
  SigmaShare : Scalar;
}.

Inductive content : Type :=
| ContentBroadcast5 (body : option broadcast5)
| ContentOther.

(** [func (r *round5) StoreBroadcastMessage(msg round.Message) error] *)
Definition StoreBroadcastMessage (r : round5) (msg : round.Message content)
  : round5 * option error :=
  match round.Content msg with
  | ContentBroadcast5 (Some body) =>
      if IsZero (SigmaShare body) then (r, Some ErrNilFields)
      else
        (mkRound5 (PartyIDs r) (PublicKey r) (Message r)
           (<[round.From msg := SigmaShare body]> (SigmaShares r)) (BigR r)
           (<[round.From msg := true]> (MessageBroadcasted r)), None)
  | _ => (r, Some ErrInvalidContent)
  end.

(** [for _, j := range r.PartyIDs() { Sigma.Add(r.SigmaShares[j]) }]: a
    party without an entry yields the nil scalar, on which the curve's
    [Add] cannot operate. *)
Fixpoint add_shares (shares : gmap party Scalar) (Sigma : Scalar) (ps : list party)
  : run Scalar :=
  match ps with
  | [] => Return Sigma
  | j :: rest =>
      match shares !! j with
      | Some s => add_shares shares (Add Sigma s) rest
      | None => Panic "nil scalar"
      end
  end.

(** [func (r *round5) Finalize(chan<- *round.Message) (round.Session, error)] *)
Definition Finalize (r : round5) : run (option Session * option error) :=
  if negb (Z.of_nat (size (MessageBroadcasted r)) =? N r - 1)
  then Return (None, Some ErrNotEnoughMessages)
  else
    Sigma ← add_shares (SigmaShares r) NewScalar (PartyIDs r);
    let signature := mkSignature (BigR r) Sigma in
    if negb (Signature_Verify signature (PublicKey r) (Message r))
    then Return (Some (AbortRound (ErrorsNew "failed to validate signature")), None)
    else Return (Some (ResultRound signature), None).

(** [func (r *round5) CanFinalize() bool] *)
Definition CanFinalize (r : round5) : bool :=
  Z.of_nat (size (MessageBroadcasted r)) =? N r - 1.

(** The sum of the parties' shares, [σ = ∑ⱼ σⱼ], over the shares in party
    order. *)
Definition sigma_sum (shares : list Scalar) : Scalar :=
  fold_left Add shares NewScalar.

End Round5.
End cmp_sign_round5.

(** ** The ECDSA key object (package ecdsa, third part of
       pkg/cryptosuite/sw/ed25519/ed25519keymanagerimpl_test.go) *)
Module ecdsa.
Import curve.

(** The curve values a key can carry ([curve.Curve] implementations) and the
    binary encodings of their points and scalars. *)
Class Encoding `{Curve} : Type := {
  Group : Type;
  (** [curve.Secp256k1{}] *)
  Secp256k1 : Group;
  (** [group.Name()], as bytes *)
  Name : Group -> list Z;
  (** [point.MarshalBinary()] *)
  Point_MarshalBinary : Point -> result (list Z);
  (** [group.NewPoint().UnmarshalBinary(data)] *)
  Point_UnmarshalBinary : Group -> list Z -> result Point;
  (** [scalar.MarshalBinary()] *)
  Scalar_MarshalBinary : Scalar -> result (list Z);
  (** [group.NewScalar().UnmarshalBinary(data)] *)
  Scalar_UnmarshalBinary : Group -> list Z -> result Scalar;
}.

Section Key.
Context `{Encoding}.

(** [type ECDSAKey struct]: a nil private scalar is [None].  The [zks] and
    [vssmgr] references are not serialized and are left out. *)
Record ECDSAKey : Type := NewECDSAKey {
  priv : option Scalar;
  pub : Point;
  group : Group;
}.

(** [func (key ECDSAKey) Private() bool] *)
Definition Private (key : ECDSAKey) : bool :=
  match priv key with Some _ => true | None => false end.

(** [func (key ECDSAKey) PublicKey() comm_ecdsa.ECDSAKey] *)
Definition PublicKey (key : ECDSAKey) : ECDSAKey :=
  NewECDSAKey None (pub key) (group key).

(** [func (key ECDSAKey) Bytes() ([]byte, error)] *)
Definition Bytes (key : ECDSAKey) : result (list Z) :=
  pk ← Point_MarshalBinary (pub key);
  let gn := Name (group key) in
  let buf := [] in
  let buf := buf ++ [uint8 (len gn)] in
  let buf := buf ++ gn in
  let buf := buf ++ [uint8 (len pk)] in
  let buf := buf ++ pk in
  match priv key with
  | Some s =>
      sk ← Scalar_MarshalBinary s;
      let buf := buf ++ [uint8 (len sk)] in
      let buf := buf ++ sk in
      Ok buf
  | None => Ok buf
  end.

(** [switch gn { case "secp256k1": group = curve.Secp256k1{} }]: any other
    name leaves the interface value nil. *)
Definition group_of_name (gn : list Z) : option Group :=
  if decide (gn = bytes_of_string "secp256k1") then Some Secp256k1 else None.

(** A method call on the [group] variable of [fromBytes]. *)
Definition on_group {A} (g : option Group) (f : Group -> run A) : run A :=
  match g with
  | Some g => f g
  | None => Panic "nil pointer dereference"
  end.

(** [func fromBytes(data []byte) (ECDSAKey, error)] *)
Definition fromBytes (data : list Z) : run ECDSAKey :=
  if len data <? 2 then Raise ErrInvalidKey else
  gnLen ← index data 0;
  if len data <? 2 + gnLen then Raise ErrInvalidKey else
  gn ← slice data 1 (1 + gnLen);
  let group := group_of_name gn in
  pkLen ← index data (1 + gnLen);
  if len data <? 2 + gnLen + pkLen then Raise ErrInvalidKey else
  pkBytes ← slice data (2 + gnLen) (2 + gnLen + pkLen);
  pk ← on_group group (fun g => lift_result (Point_UnmarshalBinary g pkBytes));
  skLen ← index data (2 + gnLen + pkLen);
  if len data <? 2 + gnLen + pkLen + skLen then Raise ErrInvalidKey else
  skBytes ← slice_from data (3 + gnLen + pkLen);
  sk ← on_group group (fun g => lift_result (Scalar_UnmarshalBinary g skBytes));
  on_group group (fun g => Return (NewECDSAKey (Some sk) pk g)).

End Key.
End ecdsa.

(** ** The MPC state manager (package state, second part of
       pkg/mpc/common/ecdsa/ecdsa.go) *)
Module state.

(** [com_state.MPCStateStore] and the [com_state.State] it holds: interfaces
    of [pkg/mpc/common/state].  A state is a value here: the setters give
    the state as it is after the call. *)
Class MPCStateStore (SS : Type) : Type := {
  State : Type;
  (** [state.ID()] *)
  State_ID : State -> string;
  (** the package's [NewState(ID)] *)
  new_State : string -> State;
  (** [state.SetLastRound(round)] *)
  State_SetLastRound : Z -> State -> State;
  (** [state.SetAborted()] *)
  State_SetAborted : State -> State;
  (** [state.SetCompleted()] *)
  State_SetCompleted : State -> State;
  (** [store.Import(ID, state)] *)
  store_Import : string -> State -> SS -> SS * option error;
  (** [store.Get(ID)] *)
  store_Get : SS -> string -> result State;
}.

Section Manager.
Context {SS : Type} `{!MPCStateStore SS}.

(** [type MPCStateManager struct { store com_state.MPCStateStore }] *)
Record MPCStateManager : Type := NewMPCStateManager {
  store : SS;
}.

(** [func (m *MPCStateManager) Import(state com_state.State) error] *)
Definition Import (m : MPCStateManager) (state : State)
  : MPCStateManager * option error :=
  let '(s, e) := store_Import (State_ID state) state (store m) in
  (NewMPCStateManager s, e).

(** [func (mgr *MPCStateManager) NewState(ID string) error] *)
Definition NewState (mgr : MPCStateManager) (ID : string)
  : MPCStateManager * option error :=
  let s := new_State ID in
  Import mgr s.

(** [func (mgr *MPCStateManager) SetLastRound(ID string, round int) error] *)
Definition SetLastRound (mgr : MPCStateManager) (ID : string) (round : Z)
  : MPCStateManager * option error :=
  match store_Get (store mgr) ID with
  | Err e => (mgr, Some e)
  | Ok state => Import mgr (State_SetLastRound round state)
  end.

(** [func (mgr *MPCStateManager) SetAborted(ID string) error] *)
Definition SetAborted (mgr : MPCStateManager) (ID : string)
  : MPCStateManager * option error :=
  match store_Get (store mgr) ID with
  | Err e => (mgr, Some e)
  | Ok state => Import mgr (State_SetAborted state)
  end.

(** [func (mgr *MPCStateManager) SetCompleted(ID string) error] *)
Definition SetCompleted (mgr : MPCStateManager) (ID : string)
  : MPCStateManager * option error :=
  match store_Get (store mgr) ID with
  | Err e => (mgr, Some e)
  | Ok state => Import mgr (State_SetCompleted state)
  end.

(** [func (m *MPCStateManager) Get(ID string) (com_state.State, error)] *)
Definition Get (m : MPCStateManager) (ID : string) : result State :=
  store_Get (store m) ID.

End Manager.
End state.

(** ** The Ed25519 key manager (package ed25519, second part of
       pkg/cryptosuite/sw/ed25519/ed25519keymanagerimpl_test.go) *)
Module ed25519.
Import keyopts.

(** The key type [Ed25519Impl] with its methods, the package's
    [GenerateKey], the curve operations [NewKey] compares with, and the
    keystore of [pkg/common/keystore] that files bytes under an options
    key. *)
Class Keys (KS : Type) : Type := {
  Scalar : Type;
  Point : Type;
  Ed25519Impl : Type;
  Seed : Type;
  (** [(&ed.Point{}).ScalarBaseMult(priv)] *)
  ScalarBaseMult : Scalar -> Point;
  (** [pub.Equal(other) == 1] *)
  Point_Equal : Point -> Point -> bool;
  (** [&Ed25519Impl{s: priv, a: pub}] *)
  mkEd25519Impl : Scalar -> Point -> Ed25519Impl;
  (** the package's [GenerateKey()] *)
  pkg_GenerateKey : Seed -> result Ed25519Impl;
  (** [k.Bytes()] *)
  Bytes : Ed25519Impl -> result (list Z);
  (** [k.SKI()] *)
  SKI : Ed25519Impl -> list Z;
  (** [k.FromBytes(data)] on a fresh key *)
  FromBytes : list Z -> result Ed25519Impl;
  (** [keystore.Import(keyID, key, opts)] *)
  keystore_Import : string -> list Z -> Options -> KS -> KS * option error;
  (** [keystore.Get(opts)] *)
  keystore_Get : KS -> Options -> result (list Z);
}.

Section Manager.
Context {KS : Type} `{!Keys KS}.

(** [errors.WithMessage(err, message)].  The manager,
    [type Ed25519KeyManagerImpl struct { keystore keystore.Keystore }], is
    its keystore, which the methods below thread. *)
Definition WithMessage (e : error) (message : string) : error := Wrapped message e.

(** What [ImportKey] is handed as [raw interface{}]: a byte slice, an
    [Ed25519] holding an [*Ed25519Impl], an [Ed25519] of another
    implementation, or anything else. *)
Inductive raw : Type :=
| RawBytes (data : list Z)
| RawKey (k : Ed25519Impl)
| RawForeignKey
| RawOther.

(** [func (mgr *Ed25519KeyManagerImpl) NewKey(priv, pub) (Ed25519, error)] *)
Definition NewKey (priv : Scalar) (pub : Point) : result Ed25519Impl :=
  if negb (Point_Equal pub (ScalarBaseMult priv))
  then Err (ErrorsNew "ed25519: public key does not match private key")
  else Ok (mkEd25519Impl priv pub).

(** The tail shared by [GenerateKey] and [ImportKey]: serialize, derive the
    key id, file the bytes. *)
Definition fileKey (k : Ed25519Impl) (opts : Options) (ks : KS)
  : KS * result Ed25519Impl :=
  match Bytes k with
  | Err e => (ks, Err (WithMessage e "ed25519: failed to serialize key"))
  | Ok kb =>
      let keyID := hex_EncodeToString (SKI k) in
      match keystore_Import keyID kb opts ks with
      | (ks', Some e) =>
          (ks', Err (WithMessage e "ed25519: failed to import key to keystore"))
      | (ks', None) => (ks', Ok k)
      end
  end.

(** [func (mgr *Ed25519KeyManagerImpl) GenerateKey(opts) (Ed25519, error)] *)
Definition GenerateKey (ks : KS) (seed : Seed) (opts : Options)
  : KS * result Ed25519Impl :=
  match pkg_GenerateKey seed with
  | Err e => (ks, Err (WithMessage e "ed25519: failed to generate key"))
  | Ok k => fileKey k opts ks
  end.

(** [func (mgr *Ed25519KeyManagerImpl) ImportKey(raw interface{}, opts)
    (Ed25519, error)]; the assertion of a foreign [Ed25519] to
    [*Ed25519Impl] panics. *)
Definition ImportKey (ks : KS) (r : raw) (opts : Options)
  : run (KS * result Ed25519Impl) :=
  match r with
  | RawBytes data =>
      match FromBytes data with
      | Err e => Return (ks, Err (WithMessage e "ed25519: failed to import key"))
      | Ok k => Return (fileKey k opts ks)
      end
  | RawKey k => Return (fileKey k opts ks)
  | RawForeignKey => Panic "interface conversion"
  | RawOther => Return (ks, Err (ErrorsNew "ed25519: invalid key type"))
  end.

(** [func (mgr *Ed25519KeyManagerImpl) GetKey(opts) (Ed25519, error)] *)
Definition GetKey (ks : KS) (opts : Options) : result Ed25519Impl :=
  match keystore_Get ks opts with
  | Err e => Err (WithMessage e "ed25519: failed to get key from keystore")
  | Ok kb =>
      match FromBytes kb with
      | Err e => Err (WithMessage e "ed25519: failed to import key")
      | Ok k => Ok k
      end
  end.

End Manager.
End ed25519.

(** * Part II. Instances

    Small implementations of the collaborator interfaces, on which the
    models run.  The group is the additive group of integers modulo 11 with
    generator 1, so that a point is the scalar it comes from; stores are
    finite maps. *)
Module memory.
Import curve keyopts.

(** The party-scalar of the instance: ["a"] is 1, ["b"] is 2, and so on. *)
Definition party_scalar (p : party) : Z :=
  match p with
  | String c _ => (Z.of_nat (Ascii.nat_of_ascii c) - 96) mod 11
  | EmptyString => 0
  end.

#[export] Instance Z11 : Curve := {|
  Scalar := Z;
  Point := Z;
  Order := 11;
  NewScalar := 0;
  NewPoint := 0;
  SetNat n := n mod 11;
  MakeInt s := s;
  Add a b := (a + b) mod 11;
  IsZero s := s mod 11 =? 0;
  ActOnBase s := s mod 11;
  Equal p q := p mod 11 =? q mod 11;
  IsIdentity p := p mod 11 =? 0;
  PartyScalar := party_scalar;
|}.

(** Evaluation of a polynomial given by its coefficients, constant first. *)
Fixpoint evaluate (coefficients : list Z) (x : Z) : Z :=
  match coefficients with
  | [] => 0
  | c :: rest => (c + x * evaluate rest x) mod 11
  end.

(** *** The in-memory keystore (Section 6, keystore collaborator) *)
#[export] Instance map_keystore : keystore.Keystore (gmap string (list Z)) := {|
  keystore.Import ks keyID key := (<[keyID := key]> ks, None);
  keystore.Get ks keyID :=
    match ks !! keyID with
    | Some key => Ok key
    | None => Err (ErrorsNew "key not found")
    end;
  keystore.Delete ks keyID := (delete keyID ks, None);
|}.

#[export] Instance paillier_core : paillier.Core := {|
  paillier.SecretKey := Z * Z;
  paillier.PublicKey := Z;
  paillier.Pool := unit;
|}.

(** A Paillier key stored as the two bytes [p; q]. *)
Definition paillier_fromBytes (data : list Z) : result paillier.PaillierKey :=
  match data with
  | [p; q] => Ok (paillier.mkPaillierKey (Some (p, q)) (Some (p * q)))
  | _ => Err (ErrorsNew "invalid paillier key")
  end.

(** *** Managers of CMP key-generation round 4

    The store holds, per sender, its exponent polynomial and the share
    received from it.  The cipher is the identity: a ciphertext is its
    plaintext. *)
Record vss_store : Type := mkVssStore {
  exponents : gmap party (list Z);
  shares : gmap party Z;
}.

#[export] Instance round4_managers : cmp_keygen_round4.Managers := {|
  cmp_keygen_round4.PaillierKM := unit;
  cmp_keygen_round4.VssKM := vss_store;
  cmp_keygen_round4.Ciphertext := Z;
  cmp_keygen_round4.Proof := unit;
  cmp_keygen_round4.PaillierKey := unit;
  cmp_keygen_round4.VssKey := party * list Z;
  cmp_keygen_round4.Session := unit;
  cmp_keygen_round4.paillier_GetKey _ _ _ := Ok tt;
  cmp_keygen_round4.Decode _ c := Ok c;
  cmp_keygen_round4.vss_GetKey km _ p :=
    match exponents km !! p with
    | Some e => Ok (p, e)
    | None => Err (ErrorsNew "vss key not found")
    end;
  cmp_keygen_round4.EvaluateByExponents vssKey x := Ok (evaluate vssKey.2 x);
  cmp_keygen_round4.ImportShare vssKey _ share km :=
    (mkVssStore (exponents km) (<[vssKey.1 := share]> (shares km)), None);
|}.

(** Party ["a"] in a session of three, holding the exponent polynomial
    [3 + 2 X] of party ["b"]; the share ["b"] owes ["a"] is [3 + 2 * 1 = 5]. *)
Definition round4_at_a : cmp_keygen_round4.round4 :=
  cmp_keygen_round4.mkRound4 "keygen-1" "a" ["a"; "b"; "c"] tt
    (mkVssStore {["b" := [3; 2]]} ∅) ∅ ∅.

(** A direct message of ["b"] carrying the ciphertext [c]. *)
Definition share_body (c : Z) : cmp_keygen_round4.message4 :=
  cmp_keygen_round4.mkMessage4 c tt.

Definition share_message (c : Z) : round.Message cmp_keygen_round4.content :=
  round.mkMessage "b" (cmp_keygen_round4.ContentMessage4 (Some (share_body c))).

(** *** Managers of CMP key-generation round 3

    A commitment digest is the concatenation of the RID, the chain key and
    the exponent polynomial it commits to; decommitting compares.  A VSS
    polynomial travels as the list of its coefficients. *)
Record round3_store : Type := mkRound3Store {
  rids : gmap party (list Z);
  chainKeys : gmap party (list Z);
  polynomials : gmap party (list Z);
  commitments : gmap party (list Z);
}.

Definition lookup_key (m : gmap party (list Z)) (p : party) : result (list Z) :=
  match m !! p with
  | Some k => Ok k
  | None => Err (ErrorsNew "key not found")
  end.

#[export] Instance round3_managers : cmp_keygen_round3.Managers := {|
  cmp_keygen_round3.St := round3_store;
  cmp_keygen_round3.Hash := unit;
  cmp_keygen_round3.hash_Commitment := list Z;
  cmp_keygen_round3.hash_Decommitment := unit;
  cmp_keygen_round3.RIDKey := list Z;
  cmp_keygen_round3.paillier_Key := list Z;
  cmp_keygen_round3.pedersen_Key := list Z;
  cmp_keygen_round3.elgamal_Key := list Z;
  cmp_keygen_round3.ECDSAKey := party;
  cmp_keygen_round3.VssKey := party;
  cmp_keygen_round3.Exponent := list Z;
  cmp_keygen_round3.Degree e := len e - 1;
  cmp_keygen_round3.Decommitment_Validate _ := None;
  cmp_keygen_round3.rid_ImportKey _ p rid s :=
    (mkRound3Store (<[p := rid]> (rids s)) (chainKeys s) (polynomials s) (commitments s),
     Ok rid);
  cmp_keygen_round3.chainKey_ImportKey _ p c s :=
    (mkRound3Store (rids s) (<[p := c]> (chainKeys s)) (polynomials s) (commitments s),
     Ok c);
  cmp_keygen_round3.rid_GetKey s _ p := lookup_key (rids s) p;
  cmp_keygen_round3.chainKey_GetKey s _ p := lookup_key (chainKeys s) p;
  cmp_keygen_round3.Raw k := k;
  cmp_keygen_round3.paillier_ImportKey _ _ key s := (s, Ok key);
  cmp_keygen_round3.pedersen_ImportKey _ _ key s := (s, Ok key);
  cmp_keygen_round3.ecdsa_ImportKey _ p _ s := (s, Ok p);
  cmp_keygen_round3.elgamal_ImportKey _ _ key s := (s, Ok key);
  cmp_keygen_round3.ImportVSSSecrets p poly s :=
    (mkRound3Store (rids s) (chainKeys s) (<[p := poly]> (polynomials s)) (commitments s),
     None);
  cmp_keygen_round3.ImportSchnorrCommitment _ _ s := (s, None);
  cmp_keygen_round3.VSS p s :=
    match polynomials s !! p with
    | Some _ => Ok p
    | None => Err (ErrorsNew "vss key not found")
    end;
  cmp_keygen_round3.Exponents p s := lookup_key (polynomials s) p;
  cmp_keygen_round3.commit_Get s _ p := lookup_key (commitments s) p;
  cmp_keygen_round3.commit_Import _ _ _ s := (s, None);
  cmp_keygen_round3.Decommit _ c _ rid chainKey exponents _ _ _ :=
    bool_decide (c = rid ++ chainKey ++ exponents);
|}.

(** A 32-byte value with every byte equal to [b]. *)
Definition bytes32 (b : Z) : list Z := replicate 32 b.

(** Party ["a"] in a session of threshold 1, after ["b"] committed in round 2
    to RID [07..07], chain key [09..09] and the polynomial [3 + 2 X + 5 X²],
    which has degree 2. *)
Definition round3_at_a : cmp_keygen_round3.round3 :=
  cmp_keygen_round3.mkRound3 "keygen-1" "a" ["a"; "b"; "c"] 1 tt None
    (mkRound3Store ∅ ∅ ∅ {["b" := bytes32 7 ++ bytes32 9 ++ [3; 2; 5]]}) ∅.

(** The opening ["b"] broadcasts in round 3. *)
Definition opening_of_b : round.Message cmp_keygen_round3.content :=
  round.mkMessage "b"
    (cmp_keygen_round3.ContentBroadcast3
       (Some (cmp_keygen_round3.mkBroadcast3
                (bytes32 7) (bytes32 9) [2] [3; 2; 5] 4 [1] [1] [1] tt))).

(** Party ["a"] once the RIDs and chain keys of all three parties are in. *)
Definition round3_ready : cmp_keygen_round3.round3 :=
  cmp_keygen_round3.mkRound3 "keygen-1" "a" ["a"; "b"; "c"] 1 tt None
    (mkRound3Store
       {["a" := bytes32 1; "b" := bytes32 7; "c" := bytes32 12]}
       {["a" := bytes32 2; "b" := bytes32 9; "c" := bytes32 5]} ∅ ∅)
    {["b" := true; "c" := true]}.

(** *** Managers of FROST key-generation round 2: every import succeeds and
        every proof verifies *)
#[export] Instance frost_keygen_managers : frost_keygen_round2.Managers := {|
  frost_keygen_round2.St := gmap (string * Z * string) bool;
  frost_keygen_round2.Hash := unit;
  frost_keygen_round2.HashCommitment := list Z;
  frost_keygen_round2.Exponent := list Z;
  frost_keygen_round2.ECDSAKey := Z;
  frost_keygen_round2.Session := unit;
  frost_keygen_round2.Commitment_Validate _ := None;
  frost_keygen_round2.commit_Import _ _ s := (s, None);
  frost_keygen_round2.Constant e := evaluate e 0;
  frost_keygen_round2.ec_ImportKey pk _ s := (s, Ok pk);
  frost_keygen_round2.ImportSchnorrCommitment _ _ s := (s, None);
  frost_keygen_round2.VerifySchnorrProof _ _ _ _ := Ok true;
  frost_keygen_round2.HashForID h _ := h;
  frost_keygen_round2.vss_ImportSecrets _ _ s := (s, None);
  frost_keygen_round2.bcst_Import id n from received s :=
    (<[(id, n, from) := received]> s, None);
  frost_keygen_round2.bcst_HasAll s id n parties :=
    Ok (forallb (fun p => bool_decide (s !! (id, n, p) = Some true)) parties);
|}.

Definition frost_round2_at_a : frost_keygen_round2.round2 :=
  frost_keygen_round2.mkRound2 "keygen-2" "a" ["a"; "b"; "c"] tt ∅.

(** A broadcast of ["b"] whose Schnorr commitment is the point [5]. *)
Definition frost_broadcast_of_b : frost_keygen_round2.broadcast2 :=
  frost_keygen_round2.mkBroadcast2 (Some [3; 2]) 5 4 [1].

(** *** The delivery tracker *)

(** Modelled from the spec: [MessageManager.Import] and [HasAll] of the
    imported [pkg/mpc/message].  For each (session-id, round-number,
    from-party) the tracker records a received flag; [HasAll] is true iff
    every listed party has delivered. *)
#[export] Instance map_tracker : message.MessageManager (gmap (string * Z * string) bool) := {|
  message.Import id n from received s := (<[(id, n, from) := received]> s, None);
  message.HasAll s id n parties :=
    Ok (forallb (fun p => bool_decide (s !! (id, n, p) = Some true)) parties);
|}.

(** *** An in-memory ECDSA key manager: a key is its optional private scalar
        and its public point, filed under the options key *)
#[export] Instance map_key_manager
  : frost_sign_round2.ECDSAKeyManager (gmap (gmap string string) (option Z * Z)) := {|
  frost_sign_round2.ECDSAKey := option Z * Z;
  frost_sign_round2.NewKey priv pub := (priv, pub);
  frost_sign_round2.ImportKey key opts km := (<[opts := key]> km, Ok key);
  frost_sign_round2.GetKey km opts :=
    match km !! opts with
    | Some key => Ok key
    | None => Err (ErrorsNew "key not found")
    end;
  frost_sign_round2.PublicKeyRaw key := key.2;
|}.

(** Party ["a"] entering FROST signing round 2 in a session of three: no
    broadcast of ["b"] or ["c"] has been delivered. *)
Definition sign_round2_at_a
  : frost_sign_round2.round2 (KM := gmap (gmap string string) (option Z * Z))
                             (MM := gmap (string * Z * string) bool) :=
  frost_sign_round2.mkRound2 "sign-1" "a" ["a"; "b"; "c"] ∅ ∅ ∅ ∅.

(** A broadcast of ["b"] carrying the nonce commitments [d] and [e]. *)
Definition nonce_body (d e : Z) : frost_sign_round2.broadcast2 :=
  frost_sign_round2.mkBroadcast2 d e.

Definition nonce_broadcast (d e : Z)
  : round.Message frost_sign_round2.content :=
  round.mkMessage "b"
    (frost_sign_round2.ContentBroadcast2 (Some (nonce_body d e))).

(** *** CMP signing round 5: a linear stand-in for ECDSA verification *)
#[export] Instance linear_ecdsa : cmp_sign_round5.Ecdsa := {|
  cmp_sign_round5.Verify R S X m := (S mod 11 =? (R + X * len m) mod 11);
|}.

(** Three parties with sigma shares 1, 2 and 3, the broadcasts of ["b"] and
    ["c"] counted. *)
Definition round5_at_a : cmp_sign_round5.round5 :=
  cmp_sign_round5.mkRound5 ["a"; "b"; "c"] 2 [0; 0] {["a" := 1; "b" := 2; "c" := 3]} 2
    {["b" := true; "c" := true]}.

(** *** Key encoding: one group, points and scalars as single bytes *)
Definition unmarshal_byte (data : list Z) : result Z :=
  match data with
  | [b] => Ok b
  | _ => Err (ErrorsNew "invalid length")
  end.

#[export] Instance byte_encoding : ecdsa.Encoding := {|
  ecdsa.Group := unit;
  ecdsa.Secp256k1 := tt;
  ecdsa.Name _ := bytes_of_string "secp256k1";
  ecdsa.Point_MarshalBinary p := Ok [p mod 256];
  ecdsa.Point_UnmarshalBinary _ data := unmarshal_byte data;
  ecdsa.Scalar_MarshalBinary s := Ok [s mod 256];
  ecdsa.Scalar_UnmarshalBinary _ data := unmarshal_byte data;
|}.

(** A public-only key and a private key on the point 5. *)
Definition public_only_key : ecdsa.ECDSAKey :=
  @ecdsa.NewECDSAKey Z11 byte_encoding None 5 tt.

Definition private_key : ecdsa.ECDSAKey :=
  @ecdsa.NewECDSAKey Z11 byte_encoding (Some 7) 5 tt.

(** A second encoding with two groups, of which only [true] is named
    ["secp256k1"]; passed explicitly where a key on another curve is
    needed. *)
Definition two_curve_encoding : ecdsa.Encoding := {|
  ecdsa.Group := bool;
  ecdsa.Secp256k1 := true;
  ecdsa.Name g :=
    if g : bool then bytes_of_string "secp256k1" else bytes_of_string "ed25519";
  ecdsa.Point_MarshalBinary p := Ok [p mod 256];
  ecdsa.Point_UnmarshalBinary _ data := unmarshal_byte data;
  ecdsa.Scalar_MarshalBinary s := Ok [s mod 256];
  ecdsa.Scalar_UnmarshalBinary _ data := unmarshal_byte data;
|}.

(** A private key on the other curve. *)
Definition other_curve_key : @ecdsa.ECDSAKey Z11 two_curve_encoding :=
  @ecdsa.NewECDSAKey Z11 two_curve_encoding (Some 7) 5 false.

(** The length-prefixed name every encoding starts with. *)
Definition name_prefix : list Z := 9 :: bytes_of_string "secp256k1".

(** *** Paillier primitives: a key is its two factors, a ciphertext the
        plaintext shifted by the nonce; a nil receiver panics *)
#[export] Instance paillier_ops : paillier.KeyOps := {|
  paillier.Ciphertext := Z;
  paillier.Seed := Z * Z;
  paillier.KeyGen _ seed := (seed.1 * seed.2, seed);
  paillier.Key_Bytes key :=
    match paillier.secretKey key, paillier.publicKey key with
    | Some (p, q), Some n =>
        if n =? p * q then Ok [p; q] else Err (ErrorsNew "inconsistent paillier key")
    | _, _ => Err (ErrorsNew "nil paillier key")
    end;
  paillier.Key_SKI key :=
    match paillier.publicKey key with
    | Some n => [n mod 256]
    | None => []
    end;
  paillier.Enc pk m seed :=
    match pk with
    | Some n => Return ((m + seed.1) mod n, seed.1)
    | None => Panic "nil pointer dereference"
    end;
  paillier.pk_EncWithNonce pk m nonce :=
    match pk with
    | Some n => Return ((m + nonce) mod n)
    | None => Panic "nil pointer dereference"
    end;
  paillier.Dec sk ct :=
    match sk with
    | Some _ => Return ct
    | None => Panic "nil pointer dereference"
    end;
  paillier.DecWithRandomness sk ct :=
    match sk with
    | Some _ => Return (ct, 0)
    | None => Panic "nil pointer dereference"
    end;
  paillier.sk_ValidateCiphertexts sk cts :=
    match sk with
    | Some (p, q) => Return (forallb (fun ct => (0 <=? ct) && (ct <? p * q)) cts)
    | None => Panic "nil pointer dereference"
    end;
|}.

(** The Paillier key with factors 3 and 7, and an empty manager. *)
Definition paillier_key_21 : paillier.PaillierKey :=
  paillier.mkPaillierKey (Some (3, 7)) (Some 21).

Definition seed_3_7 : @paillier.Seed paillier_core paillier_ops := (3, 7).

Definition ciphertext_4 : @paillier.Ciphertext paillier_core paillier_ops := 4.

Definition empty_paillier_manager
  : paillier.PaillierKeyManager (KS := gmap string (list Z)) :=
  paillier.mkPaillierKeyManager None ∅.

(** *** The state store: a state is its identifier, last round and the two
        flags *)
Record session_state : Type := mkSessionState {
  state_id : string;
  last_round : Z;
  aborted : bool;
  completed : bool;
}.

#[export] Instance map_state_store : state.MPCStateStore (gmap string session_state) := {|
  state.State := session_state;
  state.State_ID := state_id;
  state.new_State id := mkSessionState id 0 false false;
  state.State_SetLastRound n s := mkSessionState (state_id s) n (aborted s) (completed s);
  state.State_SetAborted s := mkSessionState (state_id s) (last_round s) true (completed s);
  state.State_SetCompleted s := mkSessionState (state_id s) (last_round s) (aborted s) true;
  state.store_Import id s ss := (<[id := s]> ss, None);
  state.store_Get ss id :=
    match ss !! id with
    | Some s => Ok s
    | None => Err (ErrorsNew "state not found")
    end;
|}.

Definition fresh_state_1 : @state.State (gmap string session_state) map_state_store :=
  mkSessionState "keygen-1" 0 false false.

(** A manager holding the fresh state of session ["keygen-1"]. *)
Definition state_manager_1 : state.MPCStateManager (SS := gmap string session_state) :=
  state.NewMPCStateManager {["keygen-1" := mkSessionState "keygen-1" 0 false false]}.

(** Party ["a"] of [round4_at_a] once the share of ["b"] has been counted. *)
Definition round4_counted_b : cmp_keygen_round4.round4 :=
  cmp_keygen_round4.mkRound4 "keygen-1" "a" ["a"; "b"; "c"] tt
    (mkVssStore {["b" := [3; 2]]} {["b" := 5]}) ∅ {["b" := true]}.

(** *** Verifiers of CMP key-generation round 4: a proof is the verdict it
        gets, a ciphertext is valid below the order *)
#[export] Instance round4_verifiers : cmp_keygen_round4.Verifiers := {|
  cmp_keygen_round4.Hash := unit;
  cmp_keygen_round4.ModProof := bool;
  cmp_keygen_round4.PrmProof := bool;
  cmp_keygen_round4.PedersenKey := unit;
  cmp_keygen_round4.pedersen_GetKey _ _ := Ok tt;
  cmp_keygen_round4.HashForID _ := tt;
  cmp_keygen_round4.VerifyZKMod _ proof _ := proof;
  cmp_keygen_round4.VerifyProof _ _ proof := proof;
  cmp_keygen_round4.ValidateCiphertexts _ ct := (0 <=? ct) && (ct <? 11);
  cmp_keygen_round4.VerifyZKFAC _ _ _ _ _ := true;
|}.

(** *** Finalizers of FROST key-generation round 2: the own chain key is
        [09..09] and the own polynomial [3 + 2 X] *)
#[export] Instance frost_keygen_finalizers : frost_keygen_round2.Finalizers := {|
  frost_keygen_round2.RIDKey := list Z;
  frost_keygen_round2.Commitment_ := unit;
  frost_keygen_round2.hash_Decommitment := unit;
  frost_keygen_round2.VssKey := list Z;
  frost_keygen_round2.chainKey_GetKey _ _ := Ok (bytes32 9);
  frost_keygen_round2.Raw k := k;
  frost_keygen_round2.commit_Get _ _ := Ok tt;
  frost_keygen_round2.Commitment_Decommitment _ := tt;
  frost_keygen_round2.vss_GetSecrets _ _ := Ok [3; 2];
  frost_keygen_round2.Evaluate key x := Ok (evaluate key x);
  frost_keygen_round2.VssKey_SKI key := key;
  frost_keygen_round2.ec_vss_ImportKey _ _ _ s := (s, None);
  frost_keygen_round2.statemgr_SetLastRound _ _ s := (s, None);
|}.

(** Party ["a"] once the round-2 broadcasts of ["b"] and ["c"] are counted,
    and what it then sends: the broadcast, then the shares [3 + 2 * 2] and
    [3 + 2 * 3]. *)
Definition frost_round2_ready : frost_keygen_round2.round2 :=
  frost_keygen_round2.mkRound2 "keygen-2" "a" ["a"; "b"; "c"] tt
    {[("keygen-2", 2, "b") := true; ("keygen-2", 2, "c") := true]}.

Definition frost_round2_sent : list frost_keygen_round2.sent :=
  [frost_keygen_round2.Broadcast (frost_keygen_round2.mkBroadcast3 (bytes32 9) tt);
   frost_keygen_round2.Direct "b" (frost_keygen_round2.mkMessage3 7);
   frost_keygen_round2.Direct "c" (frost_keygen_round2.mkMessage3 9)].

(** A channel that takes every message. *)
Definition open_channel {A : Type} (out : list A) (m : A) : option error := None.

(** *** Signing of FROST signing round 2: a hash is what was written to it,
        a sampled scalar the sum of the digest *)
#[export] Instance sum_signing
  : frost_sign_round2.Signing (KM := gmap (gmap string string) (option Z * Z)) := {|
  frost_sign_round2.Hash := list Z;
  frost_sign_round2.Digest := list Z;
  frost_sign_round2.hash_New := [];
  frost_sign_round2.WriteMessage h m := h ++ m;
  frost_sign_round2.WriteNonces h d e := h ++ [d; e];
  frost_sign_round2.WriteParty h l := h ++ [party_scalar l];
  frost_sign_round2.WriteChallenge h R X m := h ++ [R; X] ++ m;
  frost_sign_round2.hash_Digest h := h;
  frost_sign_round2.sample_Scalar d := foldr Z.add 0 d mod 11;
  frost_sign_round2.Act s p := (s * p) mod 11;
  frost_sign_round2.Point_Add p q := (p + q) mod 11;
  frost_sign_round2.Key_Mul key s := (default 0 key.1 * s) mod 11;
  frost_sign_round2.Key_AddKeys key other :=
    (default 0 key.1 + default 0 other.1) mod 11;
  frost_sign_round2.Key_Commit key c ed := (ed + c * default 0 key.1) mod 11;
|}.

(** Party ["a"] about to finalize signing round 2 with no nonce on file. *)
Definition signer_at_a
  : frost_sign_round2.signer (KM := gmap (gmap string string) (option Z * Z))
                             (MM := gmap (string * Z * string) bool) :=
  frost_sign_round2.mkSigner sign_round2_at_a "key-1" [1; 2; 3] ∅ ∅.

(** A round-5 broadcast carrying the sigma share [s]. *)
Definition sigma_body (s : Z) : cmp_sign_round5.broadcast5 :=
  cmp_sign_round5.mkBroadcast5 s.

Definition sigma_broadcast (s : Z) : round.Message cmp_sign_round5.content :=
  round.mkMessage "b" (cmp_sign_round5.ContentBroadcast5 (Some (sigma_body s))).

(** *** Ed25519 keys: a key is its optional scalar and its point, encoded
        point first; the keystore files bytes under the options *)
#[export] Instance ed25519_keys : ed25519.Keys (gmap (gmap string string) (list Z)) := {|
  ed25519.Scalar := Z;
  ed25519.Point := Z;
  ed25519.Ed25519Impl := option Z * Z;
  ed25519.Seed := Z;
  ed25519.ScalarBaseMult s := s mod 11;
  ed25519.Point_Equal p q := p =? q;
  ed25519.mkEd25519Impl s p := (Some s, p);
  ed25519.pkg_GenerateKey seed := Ok (Some (seed mod 11), seed mod 11);
  ed25519.Bytes k :=
    match k.1 with
    | Some s => Ok [k.2; s]
    | None => Ok [k.2]
    end;
  ed25519.SKI k := [k.2 mod 256];
  ed25519.FromBytes data :=
    match data with
    | [p] => Ok (None, p)
    | [p; s] => Ok (Some s, p)
    | _ => Err (ErrorsNew "invalid length")
    end;
  ed25519.keystore_Import _ kb opts ks := (<[opts := kb]> ks, None);
  ed25519.keystore_Get ks opts :=
    match ks !! opts with
    | Some kb => Ok kb
    | None => Err (ErrorsNew "key not found")
    end;
|}.

Definition ed25519_key_5 : ed25519.Ed25519Impl := (Some 5, 5).

Definition ed25519_raw_key_5 : ed25519.raw := ed25519.RawKey ed25519_key_5.

Definition ed25519_raw_bytes_5 : ed25519.raw := ed25519.RawBytes [5; 5].

End memory.

(** * Part III. Theorems *)

(** ** Unfolding the effect combinators *)

Ltac eff_unfold :=
  cbv beta iota zeta delta
    [outcome mbind eff_bind mret eff_ret query call check require modify fail] in *.

(** Case analysis on a collaborator call, keeping its equation. *)
Ltac split_call c :=
  let E := fresh "E" in destruct c eqn:E; cbn beta iota zeta.

(** ** CMP key generation, round 4 *)
Section CmpKeygenRound4.
Import curve cmp_keygen_round4.
Context `{Managers}.

(** [StoreMessage] as a decision tree over its collaborator calls. *)
Lemma storeShare_unfold (from : party) (body : message4) (r : round4) :
  outcome (storeShare from body) r =
  match paillier_GetKey (paillier_km r) (KeyID r) (SelfID r) with
  | Err e => (r, Some e)
  | Ok paillierKey =>
    match Decode paillierKey (Share body) with
    | Err e => (r, Some e)
    | Ok m =>
      if in_range m then
        match vss_GetKey (vss_km r) (KeyID r) from with
        | Err e => (r, Some e)
        | Ok vssKey =>
          match EvaluateByExponents vssKey (PartyScalar (SelfID r)) with
          | Err e => (r, Some e)
          | Ok expected =>
            if Equal (ActOnBase (reduce m)) expected then
              match ImportShare vssKey (PartyScalar (SelfID r)) (reduce m) (vss_km r) with
              | (k, None) => (mark_forwarded from (with_vss_km r k), None)
              | (k, Some e) => (with_vss_km r k, Some e)
              end
            else (r, Some (ErrorsNew "failed to validate VSS share"))
          end
        end
      else (r, Some (ErrorsNew "decrypted share is not in correct range"))
    end
  end.
Proof.
  unfold storeShare, on_vss_km. eff_unfold.
  split_call (paillier_GetKey (paillier_km r) (KeyID r) (SelfID r)); [|reflexivity].
  split_call (Decode a (Share body)); [|reflexivity].
  split_call (in_range a0); [|reflexivity].
  split_call (vss_GetKey (vss_km r) (KeyID r) from); [|reflexivity].
  split_call (EvaluateByExponents a1 (PartyScalar (SelfID r))); [|reflexivity].
  split_call (Equal (ActOnBase (reduce a0)) a2); [|reflexivity].
  destruct (ImportShare a1 (PartyScalar (SelfID r)) (reduce a0) (vss_km r)) as [k [e|]];
    reflexivity.
Qed.

(** On a curve whose scalars lift back to the integer they were set from,
    the overflow check is the range check [0 <= m < Order]. *)
Lemma in_range_iff (m : Z) :
  0 < Order ->
  (∀ n, 0 <= n < Order -> MakeInt (SetNat n) = n) ->
  in_range m = true <-> 0 <= m < Order.
Proof.
  intros Hpos Hlift. unfold in_range, reduce.
  rewrite Hlift by (apply Z.mod_pos_bound; exact Hpos).
  rewrite Z.eqb_eq. split.
  - intros ->. apply Z.mod_pos_bound. exact Hpos.
  - intros Hm. symmetry. apply Z.mod_small. exact Hm.
Qed.

(** C1. Round 4 [StoreMessage] decrypts the share with the receiver's
    Paillier key and reduces it modulo the group order.  If the reduced
    scalar, lifted back to an integer, differs from the decrypted integer it
    returns the range error and leaves the round untouched; if the scalar
    times the base point differs from the sender's exponent polynomial
    evaluated at the receiver's party-scalar it returns the VSS error and
    leaves the round untouched; when both checks pass, the reduced
    decrypted share goes to [ImportShare] and, if that import succeeds, the
    message is accepted with the share stored and the sender marked in
    [MessagesForwarded], while a failed import is returned as the error
    without marking the sender; and whenever it accepts the message or
    changes the round at all, both checks have passed and the share that
    went to [ImportShare] is the reduced decrypted one. *)
Theorem round4_StoreMessage_verifies_share
    (r : round4) (from : party) (body : message4) :
  let msg := round.mkMessage from (ContentMessage4 (Some body)) in
  let self := PartyScalar (SelfID r) in
  (∀ paillierKey m,
      paillier_GetKey (paillier_km r) (KeyID r) (SelfID r) = Ok paillierKey ->
      Decode paillierKey (Share body) = Ok m ->
      m ≠ MakeInt (SetNat (m mod Order)) ->
      StoreMessage r msg =
        Return (r, Some (ErrorsNew "decrypted share is not in correct range")))
  ∧ (∀ paillierKey m vssKey expected,
      paillier_GetKey (paillier_km r) (KeyID r) (SelfID r) = Ok paillierKey ->
      Decode paillierKey (Share body) = Ok m ->
      m = MakeInt (SetNat (m mod Order)) ->
      vss_GetKey (vss_km r) (KeyID r) from = Ok vssKey ->
      EvaluateByExponents vssKey self = Ok expected ->
      Equal (ActOnBase (SetNat (m mod Order))) expected = false ->
      StoreMessage r msg =
        Return (r, Some (ErrorsNew "failed to validate VSS share")))
  ∧ (∀ paillierKey m vssKey expected k e,
      paillier_GetKey (paillier_km r) (KeyID r) (SelfID r) = Ok paillierKey ->
      Decode paillierKey (Share body) = Ok m ->
      m = MakeInt (SetNat (m mod Order)) ->
      vss_GetKey (vss_km r) (KeyID r) from = Ok vssKey ->
      EvaluateByExponents vssKey self = Ok expected ->
      Equal (ActOnBase (SetNat (m mod Order))) expected = true ->
      ImportShare vssKey self (SetNat (m mod Order)) (vss_km r) = (k, e) ->
      StoreMessage r msg =
        Return (match e with
                | None => mark_forwarded from (with_vss_km r k)
                | Some _ => with_vss_km r k
                end, e))
  ∧ (∀ r' e,
      StoreMessage r msg = Return (r', e) ->
      e = None ∨ r' ≠ r ->
      ∃ paillierKey m vssKey expected k,
        paillier_GetKey (paillier_km r) (KeyID r) (SelfID r) = Ok paillierKey
        ∧ Decode paillierKey (Share body) = Ok m
        ∧ m = MakeInt (SetNat (m mod Order))
        ∧ vss_GetKey (vss_km r) (KeyID r) from = Ok vssKey
        ∧ EvaluateByExponents vssKey self = Ok expected
        ∧ Equal (ActOnBase (SetNat (m mod Order))) expected = true
        ∧ ImportShare vssKey self (SetNat (m mod Order)) (vss_km r) = (k, e)
        ∧ r' = match e with
               | None => mark_forwarded from (with_vss_km r k)
               | Some _ => with_vss_km r k
               end).
Proof.
  intros msg self. subst msg self. unfold StoreMessage. simpl.
  rewrite storeShare_unfold. unfold in_range, reduce.
  split; [|split; [|split]].
  - intros paillierKey m Hkey Hdec Hrange. rewrite Hkey, Hdec.
    apply Z.eqb_neq in Hrange. rewrite Hrange. reflexivity.
  - intros paillierKey m vssKey expected Hkey Hdec Hrange Hvss Hexp Hneq.
    rewrite Hkey, Hdec. apply Z.eqb_eq in Hrange. rewrite Hrange.
    rewrite Hvss, Hexp, Hneq. reflexivity.
  - intros paillierKey m vssKey expected k e Hkey Hdec Hrange Hvss Hexp Heq Himport.
    rewrite Hkey, Hdec. apply Z.eqb_eq in Hrange. rewrite Hrange.
    rewrite Hvss, Hexp, Heq, Himport. destruct e; reflexivity.
  - intros r' e Hrun Hstored.
    destruct (paillier_GetKey (paillier_km r) (KeyID r) (SelfID r)) as [paillierKey|e0] eqn:Hkey;
      [|inversion Hrun; subst; destruct Hstored; congruence].
    destruct (Decode paillierKey (Share body)) as [m|e0] eqn:Hdec;
      [|inversion Hrun; subst; destruct Hstored; congruence].
    destruct (m =? MakeInt (SetNat (m mod Order))) eqn:Hrange;
      [|inversion Hrun; subst; destruct Hstored; congruence].
    destruct (vss_GetKey (vss_km r) (KeyID r) from) as [vssKey|e0] eqn:Hvss;
      [|inversion Hrun; subst; destruct Hstored; congruence].
    destruct (EvaluateByExponents vssKey (PartyScalar (SelfID r)))
      as [expected|e0] eqn:Hexp;
      [|inversion Hrun; subst; destruct Hstored; congruence].
    destruct (Equal (ActOnBase (SetNat (m mod Order))) expected) eqn:Hfeldman;
      [|inversion Hrun; subst; destruct Hstored; congruence].
    apply Z.eqb_eq in Hrange.
    exists paillierKey, m, vssKey, expected.
    destruct (ImportShare vssKey (PartyScalar (SelfID r)) (SetNat (m mod Order)) (vss_km r))
      as [k [e0|]] eqn:Himport; inversion Hrun; subst; exists k; repeat split; auto.
Qed.

End CmpKeygenRound4.

(** ** CMP key generation, round 3: the broadcast *)
Section CmpKeygenRound3.
Import curve types cmp_keygen_round3.
Context `{Managers}.

(** The session threshold plays no part in [StoreBroadcastMessage]: the
    same broadcast meets the same verdict under every threshold, and the
    round it leaves differs only in the threshold it was given. *)
Lemma round3_StoreBroadcastMessage_ignores_threshold
    (r : round3) (t : Z) (msg : round.Message content) :
  StoreBroadcastMessage (with_Threshold t r) msg =
  (with_Threshold t (StoreBroadcastMessage r msg).1, (StoreBroadcastMessage r msg).2).
Proof.
  unfold StoreBroadcastMessage.
  destruct (round.Content msg) as [[body|]|]; try reflexivity.
  unfold storeBroadcast, on_st, wrap. eff_unfold. cbn [ID st hash with_Threshold].
  destruct (Validate (RID body)); [reflexivity|]. cbn.
  destruct (Validate (C body)); [reflexivity|]. cbn.
  destruct (Decommitment_Validate (Decommitment body)); [reflexivity|]. cbn.
  destruct (rid_ImportKey (ID r) (round.From msg) (RID body) (st r)) as [s1 [k1|]];
    [|reflexivity]. cbn.
  destruct (chainKey_ImportKey (ID r) (round.From msg) (C body) s1) as [s2 [k2|]];
    [|reflexivity]. cbn.
  destruct (paillier_ImportKey (ID r) (round.From msg) (PaillierKey body) s2) as [s3 [k3|]];
    [|reflexivity]. cbn.
  destruct (pedersen_ImportKey (ID r) (round.From msg) (PedersenKey body) s3) as [s4 [k4|]];
    [|reflexivity]. cbn.
  destruct (ecdsa_ImportKey (ID r) (round.From msg) (EcdsaKey body) s4) as [s5 [k5|]];
    [|reflexivity]. cbn.
  destruct (ImportVSSSecrets k5 (VSSPolynomial body) s5) as [s6 [e|]];
    [reflexivity|]. cbn.
  destruct (ImportSchnorrCommitment k5 (SchnorrCommitments body) s6) as [s7 [e|]];
    [reflexivity|]. cbn.
  destruct (VSS k5 s7) as [vk|]; [|reflexivity]. cbn.
  destruct (Exponents vk s7) as [ex|]; [|reflexivity]. cbn.
  destruct (elgamal_ImportKey (ID r) (round.From msg) (ElgamalKey body) s7) as [s8 [k8|]];
    [|reflexivity]. cbn.
  destruct (commit_Get s8 (ID r) (round.From msg)) as [cmt|]; [|reflexivity]. cbn.
  destruct (commit_Import (ID r) (round.From msg) (cmt, Decommitment body) s8) as [s9 [e|]];
    [reflexivity|]. cbn.
  destruct (Decommit (hash r) cmt (Decommitment body) k1 k2 ex k8 k4
              (SchnorrCommitments body)); reflexivity.
Qed.

(** *** The XOR folds of [Finalize] *)

Lemma zip_lxor_swap (a x y : list Z) :
  zip_with Z.lxor (zip_with Z.lxor a x) y = zip_with Z.lxor (zip_with Z.lxor a y) x.
Proof.
  revert x y. induction a as [|b a IH]; intros [|u x] [|v y]; simpl; try reflexivity.
  rewrite IH. f_equal.
  rewrite !Z.lxor_assoc. f_equal. apply Z.lxor_comm.
Qed.

(** On a 32-byte accumulator [XOR] is the bytewise XOR with the first 32
    bytes of the operand, and panics on a shorter operand. *)
Lemma XOR_on_accumulator (acc other : types.RID) :
  length acc = 32%nat ->
  XOR acc other =
    if SecBytes <=? len other
    then Return (zip_with Z.lxor acc (take 32 other))
    else Panic "index out of range".
Proof.
  intros Hlen. unfold XOR, len, SecBytes. rewrite Hlen. simpl.
  destruct (32 <=? Z.of_nat (length other)); [|reflexivity].
  change (Z.to_nat 32) with 32%nat.
  rewrite take_ge, drop_ge, app_nil_r by lia. reflexivity.
Qed.

Lemma XOR_keeps_length (acc other acc' : types.RID) :
  length acc = 32%nat -> XOR acc other = Return acc' -> length acc' = 32%nat.
Proof.
  intros Hlen. rewrite XOR_on_accumulator by assumption. unfold len, SecBytes.
  destruct (32 <=? Z.of_nat (length other)) eqn:Hother; [|discriminate].
  intros [= <-]. apply Z.leb_le in Hother.
  rewrite length_zip_with, length_take. lia.
Qed.

(** Two consecutive parties can be folded in either order. *)
Lemma xor_keys_swap (get : party -> result RIDKey) (acc : types.RID) (x y : party)
    (ps : list party) :
  length acc = 32%nat ->
  returned (xor_keys get acc (x :: y :: ps)) = returned (xor_keys get acc (y :: x :: ps)).
Proof.
  intros Hlen. simpl. unfold mbind, run_bind, lift_result.
  destruct (get x) as [kx|ex], (get y) as [ky|ey]; simpl; try reflexivity.
  - rewrite !(XOR_on_accumulator acc) by assumption.
    destruct (SecBytes <=? len (Raw kx)) eqn:Hx, (SecBytes <=? len (Raw ky)) eqn:Hy;
      simpl; try reflexivity.
    + assert (Hl : ∀ o : types.RID, (SecBytes <=? len o) = true ->
                  length (zip_with Z.lxor acc (take 32 o)) = 32%nat).
      { intros o Ho. apply Z.leb_le in Ho. unfold len, SecBytes in Ho.
        rewrite length_zip_with, length_take. lia. }
      rewrite !XOR_on_accumulator by auto. rewrite Hx, Hy.
      rewrite zip_lxor_swap. reflexivity.
    + rewrite XOR_on_accumulator, Hy; [reflexivity|].
      apply Z.leb_le in Hx. unfold len, SecBytes in Hx.
      rewrite length_zip_with, length_take. lia.
    + rewrite XOR_on_accumulator, Hx; [reflexivity|].
      apply Z.leb_le in Hy. unfold len, SecBytes in Hy.
      rewrite length_zip_with, length_take. lia.
  - destruct (XOR acc (Raw kx)); reflexivity.
  - destruct (XOR acc (Raw ky)); reflexivity.
Qed.

Lemma xor_keys_permutation (get : party -> result RIDKey) (ps ps' : list party) :
  Permutation ps ps' ->
  ∀ acc : types.RID, length acc = 32%nat ->
    returned (xor_keys get acc ps) = returned (xor_keys get acc ps').
Proof.
  induction 1 as [|x l l' Hperm IH|x y l|l l' l'' H1 IH1 H2 IH2]; intros acc Hlen.
  - reflexivity.
  - simpl. unfold mbind, run_bind, lift_result.
    destruct (get x) as [k|e]; [|reflexivity].
    destruct (XOR acc (Raw k)) as [acc'| |] eqn:Hxor; try reflexivity.
    apply IH. eapply XOR_keeps_length; eassumption.
  - symmetry. apply xor_keys_swap. assumption.
  - rewrite IH1 by assumption. apply IH2. assumption.
Qed.

(** C7. The RID and the chain key that round-3 [Finalize] folds by XOR do
    not depend on the order in which the party identifiers are walked:
    under every permutation of the party list both folds yield the same
    value (and fail together). *)
Theorem round3_Finalize_xor_order_independent (r : round3) (ps : list party) :
  Permutation (PartyIDs r) ps ->
  returned (Finalize_rid (with_PartyIDs ps r)) = returned (Finalize_rid r)
  ∧ returned (Finalize_chainKey (with_PartyIDs ps r)) = returned (Finalize_chainKey r).
Proof.
  intros Hperm. unfold Finalize_rid, Finalize_chainKey. simpl. split.
  - symmetry. apply xor_keys_permutation; [assumption|reflexivity].
  - destruct (PreviousChainKey r); [reflexivity|].
    symmetry. apply xor_keys_permutation; [assumption|reflexivity].
Qed.

End CmpKeygenRound3.

(** ** FROST key generation, round 2: the two [StoreBroadcastMessage] *)
Section FrostKeygenRound2.
Import curve keyopts frost_keygen_round2.
Context `{Managers}.

(** The primary round turns an identity Schnorr commitment away before it
    touches any store. *)
Lemma primary_round2_rejects_identity (r : round2) (from : party) (body : broadcast2) :
  IsIdentity (SchnorrCommitment body) = true ->
  StoreBroadcastMessage r (round.mkMessage from (ContentBroadcast2 (Some body))) =
    (r, Some (ErrorsNew "frost.Keygen.Round2: invalid schnorr commitment")).
Proof.
  intros Hid. unfold StoreBroadcastMessage, storeBroadcast. simpl.
  eff_unfold. rewrite Hid. reflexivity.
Qed.

(** For a non-identity commitment the guard of the primary round does not
    fire: the verdict is that of the remaining checks and imports. *)
Lemma primary_round2_passes_non_identity (r : round2) (from : party) (body : broadcast2) :
  IsIdentity (SchnorrCommitment body) = false ->
  StoreBroadcastMessage r (round.mkMessage from (ContentBroadcast2 (Some body))) =
    outcome (poly ← importAndVerify from body;
             id ← query (fun r => Ok (ID r));
             call (on_st (vss_ImportSecrets poly (session_party id from)));;
             call (on_st (bcst_Import id Number from true))) r.
Proof.
  intros Hid. unfold StoreBroadcastMessage, storeBroadcast. simpl.
  unfold require at 1. rewrite Hid. simpl.
  unfold outcome, mbind at 1, eff_bind at 1, mret, eff_ret. reflexivity.
Qed.

(** In the draft round an identity commitment passes the guard. *)
Lemma draft_round2_passes_identity (r : round2) (from : party) (body : broadcast2) :
  IsIdentity (SchnorrCommitment body) = true ->
  draft_StoreBroadcastMessage r (round.mkMessage from (ContentBroadcast2 (Some body))) =
    outcome (_ ← importAndVerify from body; mret tt) r.
Proof.
  intros Hid. unfold draft_StoreBroadcastMessage, draft_storeBroadcast. simpl.
  unfold require at 1. rewrite Hid.
  unfold outcome, mbind at 1, eff_bind at 1, mret, eff_ret. reflexivity.
Qed.

(** C2. Of the two round-2 implementations only the primary one rejects the
    identity and lets other commitments through.  The draft has the guard
    inverted: every broadcast whose Schnorr commitment is not the identity
    is turned away with the invalid-commitment error, whatever else it
    carries, and nothing is stored. *)
Theorem draft_round2_rejects_non_identity (r : round2) (from : party) (body : broadcast2) :
  IsIdentity (SchnorrCommitment body) = false ->
  draft_StoreBroadcastMessage r (round.mkMessage from (ContentBroadcast2 (Some body))) =
    (r, Some (ErrorsNew "frost.Keygen.Round2: invalid schnorr commitment")).
Proof.
  intros Hid. unfold draft_StoreBroadcastMessage, draft_storeBroadcast. simpl.
  eff_unfold. rewrite Hid. reflexivity.
Qed.

End FrostKeygenRound2.

(** ** Finalize before the round is ready *)
Section FinalizeGuards.
Import curve.
Context `{C : Curve} {cmp : cmp_keygen_round4.Managers}
  {frost : frost_keygen_round2.Managers}.

(** CMP round 4 is ready exactly when both delivery maps hold [N - 1]
    senders. *)
Lemma round4_CanFinalize_counts (r : cmp_keygen_round4.round4) :
  cmp_keygen_round4.CanFinalize r = true <->
  Z.of_nat (size (cmp_keygen_round4.MessageBroadcasted r)) = cmp_keygen_round4.N r - 1
  ∧ Z.of_nat (size (cmp_keygen_round4.MessagesForwarded r)) = cmp_keygen_round4.N r - 1.
Proof.
  unfold cmp_keygen_round4.CanFinalize.
  rewrite andb_true_iff, !Z.eqb_eq. reflexivity.
Qed.

(** C5. In CMP key-generation round 4 and in FROST key-generation round 2,
    [Finalize] called while [CanFinalize] is false returns the
    not-enough-messages error and no successor round, whatever the rest of
    [Finalize] would have done. *)
Theorem Finalize_before_ready_is_NotEnoughMessages :
  (∀ rest (r : cmp_keygen_round4.round4),
      cmp_keygen_round4.CanFinalize r = false ->
      cmp_keygen_round4.Finalize rest r = (None, Some ErrNotEnoughMessages))
  ∧ (∀ rest (r : frost_keygen_round2.round2),
      frost_keygen_round2.CanFinalize r = false ->
      frost_keygen_round2.Finalize rest r = (None, Some ErrNotEnoughMessages)).
Proof.
  split; intros rest r Hnot.
  - unfold cmp_keygen_round4.Finalize.
    unfold cmp_keygen_round4.CanFinalize in Hnot.
    rewrite <- negb_andb, Hnot. reflexivity.
  - unfold frost_keygen_round2.Finalize. rewrite Hnot. reflexivity.
Qed.

End FinalizeGuards.

(** ** FROST signing, round 2 *)
Section FrostSignRound2.
Import curve keyopts frost_sign_round2.
Context `{Curve} {KM MM : Type} `{!ECDSAKeyManager KM} `{!message.MessageManager MM}.

(** [CanFinalize] never consults the delivery tracker. *)
Lemma frost_sign_CanFinalize_constant (r : round2 (KM := KM) (MM := MM)) :
  CanFinalize r = true.
Proof. reflexivity. Qed.

(** [StoreBroadcastMessage] as a decision tree over its two imports. *)
Lemma storeNonces_unfold (from : party) (body : broadcast2)
    (r : round2 (KM := KM) (MM := MM)) :
  outcome (storeNonces from body) r =
  if IsIdentity (D body) || IsIdentity (E body)
  then (r, Some (ErrorsNew "nonce commitment is the identity point"))
  else
    let opts := session_party (ID r) from in
    match ImportKey (NewKey None (D body)) opts (sign_d r) with
    | (d, Err e) =>
        (mkRound2 (ID r) (SelfID r) (PartyIDs r) (msgmgr r) (bcstmgr r) d (sign_e r),
         Some e)
    | (d, Ok _) =>
        match ImportKey (NewKey None (E body)) opts (sign_e r) with
        | (e', Err e) =>
            (mkRound2 (ID r) (SelfID r) (PartyIDs r) (msgmgr r) (bcstmgr r) d e',
             Some e)
        | (e', Ok _) =>
            (mkRound2 (ID r) (SelfID r) (PartyIDs r) (msgmgr r) (bcstmgr r) d e',
             None)
        end
    end.
Proof.
  unfold storeNonces, on_sign_d, on_sign_e. eff_unfold.
  destruct (IsIdentity (D body) || IsIdentity (E body)); [reflexivity|].
  cbn.
  destruct (ImportKey (NewKey None (D body)) (session_party (ID r) from) (sign_d r))
    as [d [kd|e]]; [|reflexivity].
  cbn.
  destruct (ImportKey (NewKey None (E body)) (session_party (ID r) from) (sign_e r))
    as [e' [ke|e]]; reflexivity.
Qed.

(** C6. When the received [D] or [E] is the identity point,
    [StoreBroadcastMessage] returns the identity error and the round, and
    with it both nonce stores, is unchanged; and whenever it accepts a
    broadcast, neither [D] nor [E] is the identity and the two keys that
    went into the stores are the ones built from them. *)
Theorem frost_sign_StoreBroadcastMessage_rejects_identity
    (r : round2 (KM := KM) (MM := MM)) (from : party) (body : broadcast2) :
  let msg := round.mkMessage from (ContentBroadcast2 (Some body)) in
  let opts := session_party (ID r) from in
  (IsIdentity (D body) = true ∨ IsIdentity (E body) = true ->
    StoreBroadcastMessage r msg =
      (r, Some (ErrorsNew "nonce commitment is the identity point")))
  ∧ (∀ r', StoreBroadcastMessage r msg = (r', None) ->
      IsIdentity (D body) = false
      ∧ IsIdentity (E body) = false
      ∧ ∃ dk ek,
          ImportKey (NewKey None (D body)) opts (sign_d r) = (sign_d r', Ok dk)
          ∧ ImportKey (NewKey None (E body)) opts (sign_e r) = (sign_e r', Ok ek)).
Proof.
  intros msg opts. subst msg opts. unfold StoreBroadcastMessage. simpl.
  rewrite storeNonces_unfold. split.
  - intros Hid. replace (IsIdentity (D body) || IsIdentity (E body)) with true;
      [reflexivity|].
    symmetry. apply orb_true_iff. assumption.
  - intros r' Hrun.
    destruct (IsIdentity (D body) || IsIdentity (E body)) eqn:Hid; [discriminate|].
    apply orb_false_iff in Hid. destruct Hid as [HD HE].
    cbn zeta in Hrun.
    destruct (ImportKey (NewKey None (D body)) (session_party (ID r) from) (sign_d r))
      as [d [dk|e]]; [|discriminate].
    destruct (ImportKey (NewKey None (E body)) (session_party (ID r) from) (sign_e r))
      as [e' [ek|e]]; [|discriminate].
    inversion Hrun; subst. simpl. eauto 6.
Qed.

End FrostSignRound2.

(** ** CMP signing, round 5 *)
Section CmpSignRound5.
Import curve cmp_sign_round5.
Context `{Ecdsa}.

(** With a share on file for every party the loop of [Finalize] returns
    their sum, taken in party order. *)
Lemma add_shares_sum (shares : gmap party Scalar) (ps : list party)
    (sigmas : list Scalar) (Sigma : Scalar) :
  Forall2 (fun j s => shares !! j = Some s) ps sigmas ->
  add_shares shares Sigma ps = Return (fold_left Add sigmas Sigma).
Proof.
  intros Hall. revert Sigma.
  induction Hall as [|j s ps sigmas Hj _ IH]; intros Sigma; simpl.
  - reflexivity.
  - rewrite Hj. apply IH.
Qed.

(** An accepted broadcast files the sender's share and counts the sender. *)
Lemma round5_StoreBroadcastMessage_files_share
    (r r' : round5) (from : party) (body : broadcast5) :
  StoreBroadcastMessage r (round.mkMessage from (ContentBroadcast5 (Some body))) =
    (r', None) ->
  IsZero (SigmaShare body) = false
  ∧ SigmaShares r' !! from = Some (SigmaShare body)
  ∧ MessageBroadcasted r' !! from = Some true
  ∧ PartyIDs r' = PartyIDs r.
Proof.
  unfold StoreBroadcastMessage. simpl.
  destruct (IsZero (SigmaShare body)); [discriminate|].
  intros [= <-]. simpl. rewrite !lookup_insert_eq. auto.
Qed.

(** [Finalize] gets past its guard exactly when [CanFinalize] holds. *)
Lemma round5_Finalize_guard (r : round5) :
  CanFinalize r = false -> Finalize r = Return (None, Some ErrNotEnoughMessages).
Proof. unfold CanFinalize, Finalize. intros ->. reflexivity. Qed.

(** C9. Once [N - 1] broadcasts are counted and every party's sigma share
    is on file, [Finalize] sums the shares and returns the result round
    carrying [(R, sigma)] exactly when that signature verifies under the
    group public key and the message; otherwise it returns an abort round.
    A signature that fails verification is never returned. *)
Theorem round5_Finalize_returns_verified_signature
    (r : round5) (sigmas : list Scalar) :
  Z.of_nat (size (MessageBroadcasted r)) = N r - 1 ->
  Forall2 (fun j s => SigmaShares r !! j = Some s) (PartyIDs r) sigmas ->
  let signature := mkSignature (BigR r) (sigma_sum sigmas) in
  Finalize r =
    Return (Some (if Signature_Verify signature (PublicKey r) (Message r)
                  then ResultRound signature
                  else AbortRound (ErrorsNew "failed to validate signature")),
            None)
  ∧ (∀ next err sig,
      Finalize r = Return (next, err) ->
      next = Some (ResultRound sig) ->
      sig = signature ∧ Signature_Verify sig (PublicKey r) (Message r) = true).
Proof.
  intros Hcount Hshares signature.
  assert (Hfin : Finalize r =
    Return (Some (if Signature_Verify signature (PublicKey r) (Message r)
                  then ResultRound signature
                  else AbortRound (ErrorsNew "failed to validate signature")),
            None)).
  { unfold Finalize. apply Z.eqb_eq in Hcount. rewrite Hcount. simpl.
    rewrite (add_shares_sum _ _ _ _ Hshares). simpl.
    fold (sigma_sum sigmas). fold signature.
    destruct (Signature_Verify signature (PublicKey r) (Message r)); reflexivity. }
  split; [exact Hfin|].
  intros next err sig Hrun Hnext. rewrite Hfin in Hrun.
  inversion Hrun as [[Hn He]]. subst next.
  destruct (Signature_Verify signature (PublicKey r) (Message r)) eqn:Hver;
    inversion Hn; subst. split; [reflexivity|exact Hver].
Qed.

End CmpSignRound5.

(** ** The Paillier key manager *)
Section PaillierGetKey.
Import keystore paillier.
Context `{Core} {KS : Type} `{!Keystore KS}.
Variable fromBytes : list Z -> result PaillierKey.

(** C10. [GetKey] returns a nil error for every SKI; when the keystore
    lookup fails, or the stored bytes fail to decode, what it returns with
    that nil error is the zero-valued key. *)
Theorem PaillierKeyManager_GetKey_error_is_nil
    (mgr : PaillierKeyManager (KS := KS)) (ski : list Z) :
  (GetKey fromBytes mgr ski).2 = None
  ∧ (∀ e, Get (store mgr) (hex_EncodeToString ski) = Err e ->
        GetKey fromBytes mgr ski = (zero_PaillierKey, None))
  ∧ (∀ decoded e,
        Get (store mgr) (hex_EncodeToString ski) = Ok decoded ->
        fromBytes decoded = Err e ->
        GetKey fromBytes mgr ski = (zero_PaillierKey, None)).
Proof.
  unfold GetKey. repeat split.
  - destruct (Get (store mgr) (hex_EncodeToString ski)) as [decoded|e]; [|reflexivity].
    destruct (fromBytes decoded); reflexivity.
  - intros e Hget. rewrite Hget. reflexivity.
  - intros decoded e Hget Hdec. rewrite Hget, Hdec. reflexivity.
Qed.

End PaillierGetKey.

(** ** The ECDSA key encoding *)
Section EcdsaKeyBytes.
Import curve ecdsa.
Context `{Encoding}.

Lemma len_app {A} (l k : list A) : len (l ++ k) = len l + len k.
Proof. unfold len. rewrite length_app. lia. Qed.

Lemma len_cons {A} (x : A) (l : list A) : len (x :: l) = 1 + len l.
Proof. unfold len. simpl length. lia. Qed.

Lemma len_nil {A} : len (@nil A) = 0.
Proof. reflexivity. Qed.

Lemma len_nonneg {A} (l : list A) : 0 <= len l.
Proof. unfold len. lia. Qed.

(** Lengths of concatenations, for [lia]. *)
Ltac len_simpl :=
  repeat (rewrite len_app || rewrite len_cons || rewrite len_nil).

Lemma uint8_small (n : Z) : 0 <= n < 256 -> uint8 n = n.
Proof. intros Hn. unfold uint8. apply Z.mod_small. exact Hn. Qed.

(** Reading the byte that follows a prefix. *)
Lemma index_after (pre : list Z) (x : Z) (post : list Z) :
  index (pre ++ x :: post) (len pre) = Return x.
Proof.
  unfold index. pose proof (len_nonneg pre) as Hpre.
  rewrite len_app. unfold len in *. simpl length.
  replace (0 <=? Z.of_nat (length pre)) with true by (symmetry; apply Z.leb_le; lia).
  replace (Z.of_nat (length pre) <? Z.of_nat (length pre) + Z.of_nat (S (length post)))
    with true by (symmetry; apply Z.ltb_lt; lia).
  simpl. rewrite Nat2Z.id.
  rewrite lookup_app_r by lia. rewrite Nat.sub_diag. reflexivity.
Qed.

(** Reading one past the end panics. *)
Lemma index_at_end (data : list Z) :
  index data (len data) = Panic "index out of range".
Proof.
  unfold index. rewrite Z.ltb_irrefl, andb_false_r. reflexivity.
Qed.

(** Cutting out the segment that follows a prefix. *)
Lemma slice_after (pre mid post : list Z) :
  slice (pre ++ mid ++ post) (len pre) (len pre + len mid) = Return mid.
Proof.
  unfold slice. pose proof (len_nonneg pre). pose proof (len_nonneg mid).
  pose proof (len_nonneg post). rewrite !len_app.
  replace (0 <=? len pre) with true by (symmetry; apply Z.leb_le; lia).
  replace (len pre <=? len pre + len mid) with true by (symmetry; apply Z.leb_le; lia).
  replace (len pre + len mid <=? len pre + (len mid + len post))
    with true by (symmetry; apply Z.leb_le; lia).
  simpl. f_equal. unfold len.
  rewrite Nat2Z.id. replace (Z.of_nat (length pre) + Z.of_nat (length mid) -
    Z.of_nat (length pre)) with (Z.of_nat (length mid)) by lia.
  rewrite Nat2Z.id, drop_app_length, take_app_length. reflexivity.
Qed.

(** The layout [Bytes] gives a public-only key. *)
Lemma Bytes_public_only (key : ECDSAKey) (pk : list Z) :
  priv key = None ->
  Point_MarshalBinary (pub key) = Ok pk ->
  Bytes key =
    Ok ([uint8 (len (Name (group key)))] ++ Name (group key) ++ [uint8 (len pk)] ++ pk).
Proof.
  intros Hpriv Hpk. unfold Bytes. rewrite Hpk, Hpriv. simpl.
  rewrite <- !app_assoc. reflexivity.
Qed.

(** C8. For a public-only key the encoding ends with the public point, and
    [fromBytes] reads the length byte of a private part that is not there:
    decoding never returns a key.  On secp256k1, with a point that
    unmarshals, it panics with an index out of range. *)
Theorem fromBytes_public_only_never_decodes (key : ECDSAKey) (pk : list Z) :
  Private key = false ->
  Point_MarshalBinary (pub key) = Ok pk ->
  len (Name (group key)) < 256 ->
  len pk < 256 ->
  ∃ data,
    Bytes key = Ok data
    ∧ returned (fromBytes data) = None
    ∧ (∀ p, Name (group key) = bytes_of_string "secp256k1" ->
            Point_UnmarshalBinary Secp256k1 pk = Ok p ->
            fromBytes data = Panic "index out of range").
Proof.
  intros Hpub Hpk Hgn Hpklen.
  assert (Hpriv : priv key = None).
  { unfold Private in Hpub. destruct (priv key); [discriminate|reflexivity]. }
  set (gn := Name (group key)) in *.
  pose proof (len_nonneg gn) as Hgn0. pose proof (len_nonneg pk) as Hpk0.
  exists ([uint8 (len gn)] ++ gn ++ [uint8 (len pk)] ++ pk).
  split; [apply Bytes_public_only; assumption|].
  rewrite !uint8_small by lia.
  set (data := [len gn] ++ gn ++ [len pk] ++ pk).
  assert (Hlen : len data = 2 + len gn + len pk).
  { unfold data. len_simpl. lia. }
  assert (Hstep0 : index data 0 = Return (len gn))
    by exact (index_after [] (len gn) (gn ++ [len pk] ++ pk)).
  assert (Hstep1 : slice data 1 (1 + len gn) = Return gn)
    by exact (slice_after [len gn] gn ([len pk] ++ pk)).
  assert (Hstep2 : index data (1 + len gn) = Return (len pk)).
  { rewrite <- (len_cons (len gn) gn).
    exact (index_after (len gn :: gn) (len pk) pk). }
  assert (Hpre : len (len gn :: gn ++ [len pk]) = 2 + len gn).
  { len_simpl. lia. }
  assert (Hstep3 : slice data (2 + len gn) (2 + len gn + len pk) = Return pk).
  { rewrite <- Hpre.
    replace data with ((len gn :: gn ++ [len pk]) ++ pk ++ []).
    - apply slice_after.
    - unfold data. rewrite app_nil_r. simpl. rewrite <- app_assoc. reflexivity. }
  assert (Hstep4 : index data (2 + len gn + len pk) = Panic "index out of range").
  { rewrite <- Hlen. apply index_at_end. }
  assert (Hrun : fromBytes data =
    pk' ← on_group (group_of_name gn)
           (fun g => lift_result (Point_UnmarshalBinary g pk));
    Panic "index out of range").
  { unfold fromBytes. rewrite Hlen, Hstep0.
    replace (2 + len gn + len pk <? 2) with false by (symmetry; apply Z.ltb_ge; lia).
    cbn [mbind run_bind].
    replace (2 + len gn + len pk <? 2 + len gn) with false
      by (symmetry; apply Z.ltb_ge; lia).
    rewrite Hstep1. cbn [mbind run_bind]. rewrite Hstep2. cbn [mbind run_bind].
    rewrite Z.ltb_irrefl, Hstep3. cbn [mbind run_bind]. rewrite Hstep4.
    destruct (on_group (group_of_name gn)
                (fun g => lift_result (Point_UnmarshalBinary g pk))); reflexivity. }
  rewrite Hrun. split.
  - destruct (on_group (group_of_name gn)
                (fun g => lift_result (Point_UnmarshalBinary g pk))); reflexivity.
  - intros p Hname Hun. unfold group_of_name. rewrite Hname.
    rewrite decide_True by reflexivity. simpl. rewrite Hun. reflexivity.
Qed.

(** Cutting from a prefix to the end. *)
Lemma slice_from_after (pre post : list Z) :
  slice_from (pre ++ post) (len pre) = Return post.
Proof.
  unfold slice_from. rewrite len_app.
  rewrite <- (app_nil_r post) at 1. apply slice_after.
Qed.

(** X2. The round trip that does hold: a private key on secp256k1 whose point
    and scalar encodings unmarshal to themselves is decoded to the same
    key, which therefore encodes to the same bytes. *)
Lemma fromBytes_private_secp256k1_round_trip
    (key : ECDSAKey) (s : Scalar) (pk sk : list Z) :
  priv key = Some s ->
  group key = Secp256k1 ->
  Name Secp256k1 = bytes_of_string "secp256k1" ->
  Point_MarshalBinary (pub key) = Ok pk ->
  Scalar_MarshalBinary s = Ok sk ->
  len pk < 256 ->
  len sk < 256 ->
  Point_UnmarshalBinary Secp256k1 pk = Ok (pub key) ->
  Scalar_UnmarshalBinary Secp256k1 sk = Ok s ->
  ∃ data, Bytes key = Ok data ∧ fromBytes data = Return key.
Proof.
  intros Hpriv Hgroup Hname Hpk Hsk Hpklen Hsklen Hpk' Hsk'.
  pose proof (len_nonneg pk) as Hpk0. pose proof (len_nonneg sk) as Hsk0.
  set (gn := bytes_of_string "secp256k1") in *.
  assert (Hgn : len gn = 9) by reflexivity.
  set (data := [len gn] ++ gn ++ [len pk] ++ pk ++ [len sk] ++ sk).
  exists data. split.
  { unfold Bytes. rewrite Hpk, Hpriv, Hgroup, Hname. simpl. rewrite Hsk. simpl.
    rewrite !uint8_small by lia. unfold data. rewrite <- !app_assoc. reflexivity. }
  assert (Hlen : len data = 3 + len gn + len pk + len sk).
  { unfold data. len_simpl. lia. }
  assert (Hstep0 : index data 0 = Return (len gn))
    by exact (index_after [] (len gn) (gn ++ [len pk] ++ pk ++ [len sk] ++ sk)).
  assert (Hstep1 : slice data 1 (1 + len gn) = Return gn)
    by exact (slice_after [len gn] gn ([len pk] ++ pk ++ [len sk] ++ sk)).
  assert (Hstep2 : index data (1 + len gn) = Return (len pk)).
  { rewrite <- (len_cons (len gn) gn).
    exact (index_after (len gn :: gn) (len pk) (pk ++ [len sk] ++ sk)). }
  assert (Hpre : len (len gn :: gn ++ [len pk]) = 2 + len gn).
  { len_simpl. lia. }
  assert (Hstep3 : slice data (2 + len gn) (2 + len gn + len pk) = Return pk).
  { rewrite <- Hpre.
    replace data with ((len gn :: gn ++ [len pk]) ++ pk ++ [len sk] ++ sk).
    - apply slice_after.
    - unfold data. simpl. rewrite <- ?app_assoc. reflexivity. }
  assert (Hpre' : len (len gn :: gn ++ [len pk] ++ pk) = 2 + len gn + len pk).
  { len_simpl. lia. }
  assert (Hstep4 : index data (2 + len gn + len pk) = Return (len sk)).
  { rewrite <- Hpre'.
    replace data with ((len gn :: gn ++ [len pk] ++ pk) ++ len sk :: sk).
    - apply index_after.
    - unfold data. simpl. rewrite <- ?app_assoc. reflexivity. }
  assert (Hpre'' : len (len gn :: gn ++ [len pk] ++ pk ++ [len sk]) = 3 + len gn + len pk).
  { len_simpl. lia. }
  assert (Hstep5 : slice_from data (3 + len gn + len pk) = Return sk).
  { rewrite <- Hpre''.
    replace data with ((len gn :: gn ++ [len pk] ++ pk ++ [len sk]) ++ sk).
    - apply slice_from_after.
    - unfold data. simpl. rewrite <- ?app_assoc. reflexivity. }
  unfold fromBytes. rewrite Hlen, Hstep0.
  replace (3 + len gn + len pk + len sk <? 2) with false
    by (symmetry; apply Z.ltb_ge; lia).
  cbn [mbind run_bind].
  replace (3 + len gn + len pk + len sk <? 2 + len gn) with false
    by (symmetry; apply Z.ltb_ge; lia).
  rewrite Hstep1. cbn [mbind run_bind]. rewrite Hstep2. cbn [mbind run_bind].
  replace (3 + len gn + len pk + len sk <? 2 + len gn + len pk) with false
    by (symmetry; apply Z.ltb_ge; lia).
  rewrite Hstep3. cbn [mbind run_bind].
  unfold group_of_name. rewrite decide_True by reflexivity.
  cbn [on_group]. rewrite Hpk'. cbn [lift_result mbind run_bind].
  rewrite Hstep4. cbn [mbind run_bind].
  replace (3 + len gn + len pk + len sk <? 2 + len gn + len pk + len sk) with false
    by (symmetry; apply Z.ltb_ge; lia).
  rewrite Hstep5. cbn [mbind run_bind]. rewrite Hsk'. cbn [lift_result mbind run_bind].
  destruct key as [priv0 pub0 group0]. simpl in *. subst. reflexivity.
Qed.

End EcdsaKeyBytes.

(** ** The models at work on the in-memory instances *)
Section Runs.
Import curve memory.

(** Round 4 at party ["a"]: the share 5 from ["b"] passes both checks and is
    stored. *)
Example round4_stores_valid_share :
  ∃ r', cmp_keygen_round4.StoreMessage round4_at_a (share_message 5) = Return (r', None)
        ∧ shares (cmp_keygen_round4.vss_km r') !! "b" = Some 5
        ∧ cmp_keygen_round4.MessagesForwarded r' !! "b" = Some true.
Proof. eexists. split; [vm_compute; reflexivity|]. split; reflexivity. Qed.

(** The plaintext 16 is 5 modulo 11 but does not survive the reduction. *)
Example round4_rejects_overflowing_share :
  cmp_keygen_round4.StoreMessage round4_at_a (share_message 16) =
    Return (round4_at_a, Some (ErrorsNew "decrypted share is not in correct range")).
Proof. reflexivity. Qed.

(** A share that is in range but off the sender's polynomial. *)
Example round4_rejects_share_off_polynomial :
  cmp_keygen_round4.StoreMessage round4_at_a (share_message 6) =
    Return (round4_at_a, Some (ErrorsNew "failed to validate VSS share")).
Proof. reflexivity. Qed.

(** The primary FROST round accepts the broadcast the draft turns away. *)
Example primary_round2_accepts_broadcast_of_b :
  (frost_keygen_round2.StoreBroadcastMessage frost_round2_at_a
     (round.mkMessage "b"
        (frost_keygen_round2.ContentBroadcast2 (Some frost_broadcast_of_b)))).2 = None.
Proof. reflexivity. Qed.

(** C3. Round 3 at party ["a"], session threshold 1: the opening of ["b"]
    carries a VSS polynomial of degree 2, and [StoreBroadcastMessage]
    returns no error, files the polynomial and marks the broadcast as
    received. *)
Theorem round3_accepts_polynomial_of_wrong_degree :
  let verdict := cmp_keygen_round3.StoreBroadcastMessage round3_at_a opening_of_b in
  cmp_keygen_round3.Threshold round3_at_a = 1
  ∧ cmp_keygen_round3.Exponents "b" (cmp_keygen_round3.st verdict.1) = Ok [3; 2; 5]
  ∧ cmp_keygen_round3.Degree [3; 2; 5] = 2
  ∧ verdict.2 = None
  ∧ cmp_keygen_round3.MessageBroadcasted verdict.1 !! "b" = Some true.
Proof. vm_compute. repeat split; reflexivity. Qed.

(** C4. FROST signing round 2 at party ["a"] with no broadcast of ["b"] or
    ["c"] delivered: the tracker says not all have arrived, and
    [CanFinalize] returns true. *)
Theorem frost_sign_CanFinalize_with_missing_broadcasts :
  frost_sign_round2.all_broadcasts_delivered sign_round2_at_a = false
  ∧ frost_sign_round2.CanFinalize sign_round2_at_a = true.
Proof. split; reflexivity. Qed.

(** FROST signing round 2 stores the nonce commitments 3 and 4 of ["b"]. *)
Example frost_sign_stores_nonce_commitments :
  let verdict :=
    frost_sign_round2.StoreBroadcastMessage sign_round2_at_a
      (nonce_broadcast 3 4) in
  verdict.2 = None
  ∧ frost_sign_round2.GetKey (frost_sign_round2.sign_d verdict.1)
      (keyopts.session_party "sign-1" "b") = Ok (None, 3)
  ∧ frost_sign_round2.GetKey (frost_sign_round2.sign_e verdict.1)
      (keyopts.session_party "sign-1" "b") = Ok (None, 4).
Proof. vm_compute. repeat split; reflexivity. Qed.

(** With [E] the identity nothing is stored. *)
Example frost_sign_rejects_identity_E :
  frost_sign_round2.StoreBroadcastMessage sign_round2_at_a
    (nonce_broadcast 3 0) =
  (sign_round2_at_a, Some (ErrorsNew "nonce commitment is the identity point")).
Proof. reflexivity. Qed.

(** The RID of the three parties: [01 xor 07 xor 0c = 0a] in every byte. *)
Example round3_rid_value :
  cmp_keygen_round3.Finalize_rid round3_ready = Return (bytes32 10).
Proof. vm_compute. reflexivity. Qed.

(** The encoding of a public-only key, and what decoding does with it. *)
Example public_key_bytes_panic :
  ecdsa.Bytes public_only_key =
    Ok ([9] ++ bytes_of_string "secp256k1" ++ [1; 5])
  ∧ ecdsa.fromBytes ([9] ++ bytes_of_string "secp256k1" ++ [1; 5]) =
      Panic "index out of range".
Proof. split; reflexivity. Qed.

(** A private key on secp256k1 makes the round trip. *)
Example private_key_bytes_round_trip :
  ecdsa.Bytes private_key =
    Ok ([9] ++ bytes_of_string "secp256k1" ++ [1; 5; 1; 7])
  ∧ ecdsa.fromBytes ([9] ++ bytes_of_string "secp256k1" ++ [1; 5; 1; 7]) =
      Return private_key.
Proof. split; reflexivity. Qed.

(** An unknown SKI and an undecodable entry both come back as the zero key
    with a nil error. *)
Example GetKey_unknown_and_corrupt :
  paillier.GetKey paillier_fromBytes (paillier.mkPaillierKeyManager None ∅) [171; 205] =
    (paillier.zero_PaillierKey, None)
  ∧ paillier.GetKey paillier_fromBytes
      (paillier.mkPaillierKeyManager None {["abcd" := [1; 2; 3]]}) [171; 205] =
    (paillier.zero_PaillierKey, None)
  ∧ paillier.GetKey paillier_fromBytes
      (paillier.mkPaillierKeyManager None {["abcd" := [3; 7]]}) [171; 205] =
    (paillier.mkPaillierKey (Some (3, 7)) (Some 21), None).
Proof. vm_compute. repeat split; reflexivity. Qed.

(** Witness of C2 on the broadcast of ["b"], whose commitment is the
    point 5. *)
Lemma draft_round2_rejects_non_identity_witness :
  IsIdentity (frost_keygen_round2.SchnorrCommitment frost_broadcast_of_b) = false
  ∧ frost_keygen_round2.draft_StoreBroadcastMessage frost_round2_at_a
      (round.mkMessage "b"
         (frost_keygen_round2.ContentBroadcast2 (Some frost_broadcast_of_b))) =
    (frost_round2_at_a,
     Some (ErrorsNew "frost.Keygen.Round2: invalid schnorr commitment")).
Proof.
  split; [reflexivity|].
  apply (draft_round2_rejects_non_identity frost_round2_at_a "b" frost_broadcast_of_b).
  reflexivity.
Defined.

(** Witness of C7: the parties of [round3_ready] walked as c, a, b. *)
Lemma round3_Finalize_xor_order_independent_witness :
  returned (cmp_keygen_round3.Finalize_rid
              (cmp_keygen_round3.with_PartyIDs ["c"; "a"; "b"] round3_ready)) =
    returned (cmp_keygen_round3.Finalize_rid round3_ready)
  ∧ returned (cmp_keygen_round3.Finalize_chainKey
                (cmp_keygen_round3.with_PartyIDs ["c"; "a"; "b"] round3_ready)) =
      returned (cmp_keygen_round3.Finalize_chainKey round3_ready).
Proof.
  apply (round3_Finalize_xor_order_independent round3_ready ["c"; "a"; "b"]).
  simpl. apply perm_trans with (l' := ["a"; "c"; "b"]).
  - apply perm_skip. apply perm_swap.
  - apply perm_swap.
Defined.

(** Witness of C8: the public-only key with point 5. *)
Lemma fromBytes_public_only_never_decodes_witness :
  ∃ data,
    ecdsa.Bytes public_only_key = Ok data
    ∧ returned (ecdsa.fromBytes data) = None
    ∧ (∀ p, ecdsa.Name tt = bytes_of_string "secp256k1" ->
            ecdsa.Point_UnmarshalBinary ecdsa.Secp256k1 [5] = Ok p ->
            ecdsa.fromBytes data = Panic "index out of range").
Proof.
  apply (fromBytes_public_only_never_decodes public_only_key [5]);
    reflexivity.
Defined.

(** Witness of C9: three parties with shares 1, 2, 3 and two broadcasts
    counted. *)
Lemma round5_Finalize_returns_verified_signature_witness :
  let signature :=
    cmp_sign_round5.mkSignature (cmp_sign_round5.BigR round5_at_a)
      (cmp_sign_round5.sigma_sum [1; 2; 3]) in
  cmp_sign_round5.Finalize round5_at_a =
    Return (Some (if cmp_sign_round5.Signature_Verify signature
                       (cmp_sign_round5.PublicKey round5_at_a)
                       (cmp_sign_round5.Message round5_at_a)
                  then cmp_sign_round5.ResultRound signature
                  else cmp_sign_round5.AbortRound
                         (ErrorsNew "failed to validate signature")),
            None)
  ∧ (∀ next err sig,
      cmp_sign_round5.Finalize round5_at_a = Return (next, err) ->
      next = Some (cmp_sign_round5.ResultRound sig) ->
      sig = signature
      ∧ cmp_sign_round5.Signature_Verify sig
          (cmp_sign_round5.PublicKey round5_at_a)
          (cmp_sign_round5.Message round5_at_a) = true).
Proof.
  apply (round5_Finalize_returns_verified_signature round5_at_a [1; 2; 3]).
  - vm_compute. reflexivity.
  - repeat constructor.
Defined.

(** Witness of C1 at party ["a"]: the plaintext 16 overflows, the share 6 is
    off the polynomial [3 + 2 X] of ["b"], and the share 5 is on it, so it
    is stored and ["b"] is marked. *)
Lemma round4_StoreMessage_verifies_share_witness :
  cmp_keygen_round4.StoreMessage round4_at_a (share_message 16) =
    Return (round4_at_a, Some (ErrorsNew "decrypted share is not in correct range"))
  ∧ cmp_keygen_round4.StoreMessage round4_at_a (share_message 6) =
      Return (round4_at_a, Some (ErrorsNew "failed to validate VSS share"))
  ∧ cmp_keygen_round4.StoreMessage round4_at_a (share_message 5) =
      Return (round4_counted_b, None).
Proof.
  split; [|split].
  - apply (proj1 (round4_StoreMessage_verifies_share round4_at_a "b"
                    (share_body 16)) tt 16).
    + reflexivity.
    + reflexivity.
    + discriminate.
  - apply (proj1 (proj2 (round4_StoreMessage_verifies_share round4_at_a "b"
                           (share_body 6)))
             tt 6 ("b", [3; 2]) 5); reflexivity.
  - apply (proj1 (proj2 (proj2 (round4_StoreMessage_verifies_share round4_at_a "b"
                                  (share_body 5))))
             tt 5 ("b", [3; 2]) 5 (mkVssStore {["b" := [3; 2]]} {["b" := 5]}) None);
      reflexivity.
Defined.

(** Witness of C5: neither round has received anything yet. *)
Lemma Finalize_before_ready_is_NotEnoughMessages_witness :
  cmp_keygen_round4.CanFinalize round4_at_a = false
  ∧ cmp_keygen_round4.Finalize (fun _ => (Some tt, None)) round4_at_a =
      (None, Some ErrNotEnoughMessages)
  ∧ frost_keygen_round2.CanFinalize frost_round2_at_a = false
  ∧ frost_keygen_round2.Finalize (fun _ => (Some tt, None)) frost_round2_at_a =
      (None, Some ErrNotEnoughMessages).
Proof.
  destruct (Finalize_before_ready_is_NotEnoughMessages
              (C := Z11) (cmp := round4_managers) (frost := frost_keygen_managers))
    as [Hcmp Hfrost].
  split; [reflexivity|]. split; [apply Hcmp; reflexivity|].
  split; [reflexivity|]. apply Hfrost. reflexivity.
Defined.

(** Witness of C6: a broadcast of ["b"] whose [E] is the identity. *)
Lemma frost_sign_StoreBroadcastMessage_rejects_identity_witness :
  frost_sign_round2.StoreBroadcastMessage sign_round2_at_a
    (nonce_broadcast 3 0) =
  (sign_round2_at_a, Some (ErrorsNew "nonce commitment is the identity point")).
Proof.
  apply (proj1 (frost_sign_StoreBroadcastMessage_rejects_identity sign_round2_at_a "b"
                  (nonce_body 3 0))).
  right. reflexivity.
Defined.

(** Witness of C10: an SKI the keystore does not know. *)
Lemma PaillierKeyManager_GetKey_error_is_nil_witness :
  paillier.GetKey paillier_fromBytes (paillier.mkPaillierKeyManager None ∅) [171; 205] =
    (paillier.zero_PaillierKey, None).
Proof.
  apply (proj1 (proj2 (PaillierKeyManager_GetKey_error_is_nil paillier_fromBytes
                         (paillier.mkPaillierKeyManager None ∅) [171; 205]))
           (ErrorsNew "key not found")).
  reflexivity.
Defined.

End Runs.

(** ** The ECDSA key encoding: what [fromBytes] makes of any input *)
Ltac len_norm :=
  repeat (rewrite len_app || rewrite len_cons || rewrite len_nil).

Section EcdsaKeyDecoding.
Import curve ecdsa.
Context `{Encoding}.

Lemma ltb_shift (a b c : Z) : (a + b <? a + c) = (b <? c).
Proof. destruct (Z.ltb_spec (a + b) (a + c)), (Z.ltb_spec b c); (reflexivity || lia). Qed.

(** [fromBytes] on an input laid out as a length-prefixed name, a
    length-prefixed point and whatever follows. *)
Lemma fromBytes_layout (gn pk rest : list Z) :
  len gn < 256 ->
  len pk < 256 ->
  fromBytes ([len gn] ++ gn ++ [len pk] ++ pk ++ rest) =
    pk' ← on_group (group_of_name gn)
            (fun g => lift_result (Point_UnmarshalBinary g pk));
    match rest with
    | [] => Panic "index out of range"
    | skLen :: tail =>
        if 1 + len tail <? skLen then Raise ErrInvalidKey
        else
          sk ← on_group (group_of_name gn)
                 (fun g => lift_result (Scalar_UnmarshalBinary g tail));
          on_group (group_of_name gn) (fun g => Return (NewECDSAKey (Some sk) pk' g))
    end.
Proof.
  intros Hgn Hpk.
  pose proof (len_nonneg gn) as Hgn0. pose proof (len_nonneg pk) as Hpk0.
  pose proof (len_nonneg rest) as Hrest0.
  set (data := [len gn] ++ gn ++ [len pk] ++ pk ++ rest).
  assert (Hlen : len data = 2 + len gn + len pk + len rest).
  { unfold data. len_norm. lia. }
  assert (Hstep0 : index data 0 = Return (len gn))
    by exact (index_after [] (len gn) (gn ++ [len pk] ++ pk ++ rest)).
  assert (Hstep1 : slice data 1 (1 + len gn) = Return gn)
    by exact (slice_after [len gn] gn ([len pk] ++ pk ++ rest)).
  assert (Hstep2 : index data (1 + len gn) = Return (len pk)).
  { rewrite <- (len_cons (len gn) gn).
    exact (index_after (len gn :: gn) (len pk) (pk ++ rest)). }
  assert (Hpre : len (len gn :: gn ++ [len pk]) = 2 + len gn) by (len_norm; lia).
  assert (Hstep3 : slice data (2 + len gn) (2 + len gn + len pk) = Return pk).
  { rewrite <- Hpre.
    replace data with ((len gn :: gn ++ [len pk]) ++ pk ++ rest).
    - apply slice_after.
    - unfold data. simpl. rewrite <- ?app_assoc. reflexivity. }
  unfold fromBytes. rewrite Hlen, Hstep0.
  replace (2 + len gn + len pk + len rest <? 2) with false
    by (symmetry; apply Z.ltb_ge; lia).
  cbn [mbind run_bind].
  replace (2 + len gn + len pk + len rest <? 2 + len gn) with false
    by (symmetry; apply Z.ltb_ge; lia).
  rewrite Hstep1. cbn [mbind run_bind]. rewrite Hstep2. cbn [mbind run_bind].
  replace (2 + len gn + len pk + len rest <? 2 + len gn + len pk) with false
    by (symmetry; apply Z.ltb_ge; lia).
  rewrite Hstep3. cbn [mbind run_bind].
  destruct (on_group (group_of_name gn)
              (fun g => lift_result (Point_UnmarshalBinary g pk))) as [pk'| |];
    cbn [mbind run_bind]; try reflexivity.
  assert (Hpre' : len (len gn :: gn ++ [len pk] ++ pk) = 2 + len gn + len pk)
    by (len_norm; lia).
  destruct rest as [|skLen tail].
  - replace (2 + len gn + len pk) with (len data)
      by (rewrite Hlen; len_norm; lia).
    rewrite index_at_end. reflexivity.
  - assert (Hstep4 : index data (2 + len gn + len pk) = Return skLen).
    { rewrite <- Hpre'.
      replace data with ((len gn :: gn ++ [len pk] ++ pk) ++ skLen :: tail).
      - apply index_after.
      - unfold data. simpl. rewrite <- ?app_assoc. simpl. rewrite <- ?app_assoc. reflexivity. }
    assert (Hpre'' : len (len gn :: gn ++ [len pk] ++ pk ++ [skLen]) = 3 + len gn + len pk)
      by (len_norm; lia).
    assert (Hstep5 : slice_from data (3 + len gn + len pk) = Return tail).
    { rewrite <- Hpre''.
      replace data with ((len gn :: gn ++ [len pk] ++ pk ++ [skLen]) ++ tail).
      - apply slice_from_after.
      - unfold data. simpl. rewrite <- ?app_assoc. simpl. rewrite <- ?app_assoc. reflexivity. }
    rewrite Hstep4. cbn [mbind run_bind]. rewrite Hstep5.
    replace (2 + len gn + len pk + len (skLen :: tail) <? 2 + len gn + len pk + skLen)
      with (1 + len tail <? skLen)
      by (rewrite len_cons, <- !Z.add_assoc, !ltb_shift; reflexivity).
    reflexivity.
Qed.

(** The layout [Bytes] gives a private key. *)
Lemma Bytes_private (key : ECDSAKey) (s : Scalar) (pk sk : list Z) :
  priv key = Some s ->
  Point_MarshalBinary (pub key) = Ok pk ->
  Scalar_MarshalBinary s = Ok sk ->
  Bytes key =
    Ok ([uint8 (len (Name (group key)))] ++ Name (group key) ++ [uint8 (len pk)] ++ pk
        ++ [uint8 (len sk)] ++ sk).
Proof.
  intros Hpriv Hpk Hsk. unfold Bytes. rewrite Hpk, Hpriv. simpl. rewrite Hsk. simpl.
  rewrite <- !app_assoc. reflexivity.
Qed.

(** X1. Whatever the input, a key that [fromBytes] returns is private and on
    secp256k1: decoding never yields a public-only key, nor a key on
    another curve. *)
Theorem fromBytes_returns_private_secp256k1 (data : list Z) (key : ECDSAKey) :
  fromBytes data = Return key ->
  Private key = true ∧ group key = Secp256k1.
Proof.
  unfold fromBytes. intros Hrun.
  destruct (len data <? 2); [discriminate|].
  destruct (index data 0) as [gnLen| |]; cbn [mbind run_bind] in Hrun; try discriminate.
  destruct (len data <? 2 + gnLen); [discriminate|].
  destruct (slice data 1 (1 + gnLen)) as [gn| |]; cbn [mbind run_bind] in Hrun;
    try discriminate.
  destruct (index data (1 + gnLen)) as [pkLen| |]; cbn [mbind run_bind] in Hrun;
    try discriminate.
  destruct (len data <? 2 + gnLen + pkLen); [discriminate|].
  destruct (slice data (2 + gnLen) (2 + gnLen + pkLen)) as [pkBytes| |];
    cbn [mbind run_bind] in Hrun; try discriminate.
  unfold group_of_name in Hrun.
  destruct (decide (gn = bytes_of_string "secp256k1")); cbn [on_group] in Hrun;
    [|discriminate].
  destruct (Point_UnmarshalBinary Secp256k1 pkBytes) as [pk|];
    cbn [lift_result mbind run_bind] in Hrun; [|discriminate].
  destruct (index data (2 + gnLen + pkLen)) as [skLen| |];
    cbn [mbind run_bind] in Hrun; try discriminate.
  destruct (len data <? 2 + gnLen + pkLen + skLen); [discriminate|].
  destruct (slice_from data (3 + gnLen + pkLen)) as [skBytes| |];
    cbn [mbind run_bind] in Hrun; try discriminate.
  destruct (Scalar_UnmarshalBinary Secp256k1 skBytes) as [sk|];
    cbn [lift_result mbind run_bind] in Hrun; [|discriminate].
  inversion Hrun; subst. split; reflexivity.
Qed.

(** X3. The encoding of a private key is the encoding of its public key
    followed by the length-prefixed scalar. *)
Theorem Bytes_private_extends_public
    (key : ECDSAKey) (s : Scalar) (sk public : list Z) :
  priv key = Some s ->
  Scalar_MarshalBinary s = Ok sk ->
  Bytes (PublicKey key) = Ok public ->
  Bytes key = Ok (public ++ [uint8 (len sk)] ++ sk).
Proof.
  intros Hpriv Hsk. unfold Bytes, PublicKey. simpl.
  destruct (Point_MarshalBinary (pub key)) as [pk|]; simpl; [|discriminate].
  intros [= <-]. rewrite Hpriv. simpl. rewrite Hsk. simpl.
  rewrite <- !app_assoc. reflexivity.
Qed.

(** Reading inside the bounds returns an element of the slice. *)
Lemma index_in_range (data : list Z) (i : Z) :
  0 <= i < len data -> ∃ b, index data i = Return b ∧ b ∈ data.
Proof.
  intros [Hlo Hhi]. unfold index.
  replace (0 <=? i) with true by (symmetry; apply Z.leb_le; lia).
  replace (i <? len data) with true by (symmetry; apply Z.ltb_lt; lia).
  simpl. destruct (data !! Z.to_nat i) as [b|] eqn:Hb.
  - exists b. split; [reflexivity|]. eapply list_elem_of_lookup_2. exact Hb.
  - apply lookup_ge_None in Hb. unfold len in Hhi. lia.
Qed.

Lemma index_Return_inv (data : list Z) (i b : Z) :
  index data i = Return b -> 0 <= i < len data ∧ b ∈ data.
Proof.
  unfold index.
  destruct (Z.leb_spec 0 i), (Z.ltb_spec i (len data)); simpl; try discriminate.
  destruct (data !! Z.to_nat i) as [b'|] eqn:Hb; [|discriminate].
  intros [= <-]. split; [lia|]. eapply list_elem_of_lookup_2. exact Hb.
Qed.

Lemma slice_in_range (data : list Z) (lo hi : Z) :
  0 <= lo -> lo <= hi -> hi <= len data -> ∃ l, slice data lo hi = Return l.
Proof.
  intros H1 H2 H3. unfold slice.
  replace (0 <=? lo) with true by (symmetry; apply Z.leb_le; lia).
  replace (lo <=? hi) with true by (symmetry; apply Z.leb_le; lia).
  replace (hi <=? len data) with true by (symmetry; apply Z.leb_le; lia).
  simpl. eauto.
Qed.

(** X4. On an input of bytes the bounds checks of [fromBytes] cover every
    slice expression: it never panics on a slice, and the only run-time
    failures left are the method call on the nil group and the read of the
    private length byte when the input ends right after the point. *)
Theorem fromBytes_panics_only_on_nil_group_or_missing_private_length
    (data : list Z) (why : string) :
  Forall (fun b => 0 <= b) data ->
  fromBytes data = Panic why ->
  why = "nil pointer dereference"
  ∨ (why = "index out of range"
     ∧ ∃ gnLen pkLen,
         index data 0 = Return gnLen
         ∧ index data (1 + gnLen) = Return pkLen
         ∧ len data = 2 + gnLen + pkLen).
Proof.
  intros Hbytes. rewrite Forall_forall in Hbytes. unfold fromBytes. intros Hrun.
  destruct (Z.ltb_spec (len data) 2) as [|Hlen2]; [discriminate|].
  destruct (index_in_range data 0) as (gnLen & Hi0 & Hgn); [lia|].
  rewrite Hi0 in Hrun. cbn [mbind run_bind] in Hrun.
  apply Hbytes in Hgn.
  destruct (Z.ltb_spec (len data) (2 + gnLen)) as [|Hlen3]; [discriminate|].
  destruct (slice_in_range data 1 (1 + gnLen)) as (gn & Hs1); [lia..|].
  rewrite Hs1 in Hrun. cbn [mbind run_bind] in Hrun.
  destruct (index_in_range data (1 + gnLen)) as (pkLen & Hi1 & Hpk); [lia|].
  rewrite Hi1 in Hrun. cbn [mbind run_bind] in Hrun.
  apply Hbytes in Hpk.
  destruct (Z.ltb_spec (len data) (2 + gnLen + pkLen)) as [|Hlen4]; [discriminate|].
  destruct (slice_in_range data (2 + gnLen) (2 + gnLen + pkLen)) as (pkBytes & Hs2);
    [lia..|].
  rewrite Hs2 in Hrun. cbn [mbind run_bind] in Hrun.
  destruct (group_of_name gn) as [g|]; cbn [on_group] in Hrun;
    [|left; injection Hrun as Hw; symmetry; exact Hw].
  destruct (Point_UnmarshalBinary g pkBytes) as [pk|];
    cbn [lift_result mbind run_bind] in Hrun; [|discriminate].
  destruct (Z.lt_ge_cases (2 + gnLen + pkLen) (len data)) as [Hmore|Hend].
  - destruct (index_in_range data (2 + gnLen + pkLen)) as (skLen & Hi2 & Hsk); [lia|].
    rewrite Hi2 in Hrun. cbn [mbind run_bind] in Hrun.
    destruct (len data <? 2 + gnLen + pkLen + skLen); [discriminate|].
    destruct (slice_in_range data (3 + gnLen + pkLen) (len data)) as (skBytes & Hs3);
      [lia..|].
    unfold slice_from in Hrun. rewrite Hs3 in Hrun. cbn [mbind run_bind] in Hrun.
    destruct (Scalar_UnmarshalBinary g skBytes);
      cbn [lift_result mbind run_bind] in Hrun; discriminate.
  - right. assert (Hlen : len data = 2 + gnLen + pkLen) by lia.
    rewrite <- Hlen, index_at_end in Hrun. cbn [mbind run_bind] in Hrun.
    split; [injection Hrun as Hw; symmetry; exact Hw|]. exists gnLen, pkLen. auto.
Qed.

(** X5. A key on any curve whose name is not ["secp256k1"] cannot be read
    back: [fromBytes] leaves its group nil and panics on the first method
    call on it, for private and public-only keys alike. *)
Theorem fromBytes_other_curve_panics (key : ECDSAKey) (pk data : list Z) :
  Name (group key) ≠ bytes_of_string "secp256k1" ->
  Point_MarshalBinary (pub key) = Ok pk ->
  len (Name (group key)) < 256 ->
  len pk < 256 ->
  Bytes key = Ok data ->
  fromBytes data = Panic "nil pointer dereference".
Proof.
  intros Hname Hpk Hgn Hpklen Hbytes.
  pose proof (len_nonneg (Name (group key))). pose proof (len_nonneg pk).
  assert (Hlayout : ∃ rest,
    data = [len (Name (group key))] ++ Name (group key) ++ [len pk] ++ pk ++ rest).
  { destruct (priv key) as [s|] eqn:Hpriv.
    - unfold Bytes in Hbytes. rewrite Hpk, Hpriv in Hbytes. simpl in Hbytes.
      destruct (Scalar_MarshalBinary s) as [sk|]; simpl in Hbytes; [|discriminate].
      injection Hbytes as <-. exists ([uint8 (len sk)] ++ sk).
      rewrite !uint8_small by lia. rewrite <- !app_assoc. reflexivity.
    - rewrite (Bytes_public_only key pk Hpriv Hpk) in Hbytes.
      injection Hbytes as <-. exists [].
      rewrite !uint8_small by lia. rewrite app_nil_r. reflexivity. }
  destruct Hlayout as [rest ->].
  rewrite fromBytes_layout by assumption.
  unfold group_of_name. rewrite decide_False by assumption. reflexivity.
Qed.

(** X6. The private length byte is never used to cut the scalar out: the
    scalar is unmarshalled from everything after that byte, so two inputs
    that differ in that byte alone decode alike as long as neither declares
    more than one byte beyond what follows it. *)
Theorem fromBytes_private_length_is_a_lower_bound
    (gn pk tail : list Z) (l1 l2 : Z) :
  len gn < 256 ->
  len pk < 256 ->
  l1 <= 1 + len tail ->
  l2 <= 1 + len tail ->
  fromBytes ([len gn] ++ gn ++ [len pk] ++ pk ++ l1 :: tail) =
  fromBytes ([len gn] ++ gn ++ [len pk] ++ pk ++ l2 :: tail).
Proof.
  intros Hgn Hpk Hl1 Hl2. rewrite !fromBytes_layout by assumption.
  replace (1 + len tail <? l1) with false by (symmetry; apply Z.ltb_ge; lia).
  replace (1 + len tail <? l2) with false by (symmetry; apply Z.ltb_ge; lia).
  reflexivity.
Qed.

End EcdsaKeyDecoding.

(** ** Key identifiers: [hex.EncodeToString] on byte slices *)
Section HexKeyIDs.

Lemma hex_digit_inj (d d' : Z) :
  0 <= d < 16 -> 0 <= d' < 16 -> hex_digit d = hex_digit d' -> d = d'.
Proof.
  intros Hd Hd' Heq. unfold hex_digit in Heq.
  apply (f_equal Ascii.nat_of_ascii) in Heq.
  rewrite !Ascii.nat_ascii_embedding in Heq
    by (destruct (d <? 10), (d' <? 10); lia).
  destruct (Z.ltb_spec d 10), (Z.ltb_spec d' 10); lia.
Qed.

(** Distinct byte slices have distinct key identifiers. *)
Lemma hex_EncodeToString_inj (l l' : list Z) :
  Forall (fun b => 0 <= b < 256) l ->
  Forall (fun b => 0 <= b < 256) l' ->
  hex_EncodeToString l = hex_EncodeToString l' ->
  l = l'.
Proof.
  intros Hl. revert l'. induction Hl as [|b l Hb Hl IH]; intros l' Hl' Heq.
  - destruct l'; [reflexivity|discriminate].
  - destruct Hl' as [|b' l' Hb' Hl']; [discriminate|].
    simpl in Heq. injection Heq as Hhi Hlo Hrest.
    apply hex_digit_inj in Hhi;
      [|split; [apply Z.div_pos; lia|apply Z.div_lt_upper_bound; lia]..].
    apply hex_digit_inj in Hlo; [|apply Z.mod_pos_bound; lia..].
    f_equal; [|apply IH; assumption].
    rewrite (Z.div_mod b 16), (Z.div_mod b' 16) by lia. congruence.
Qed.

End HexKeyIDs.

(** ** The Paillier key manager: import, generation and the primitives *)
Section PaillierManagerOperations.
Import keystore paillier.
Context `{KeyOps} {KS : Type} `{!Keystore KS}.
Variable fromBytes : list Z -> result PaillierKey.

(** X7. On a keystore that gives back what was imported, a key that
    [ImportKey] accepted is returned by [GetKey] on its SKI, provided its
    bytes decode to it. *)
Theorem PaillierKeyManager_ImportKey_then_GetKey
    (mgr mgr' : PaillierKeyManager (KS := KS)) (key : PaillierKey) (kb : list Z) :
  (∀ ks id b ks', Import ks id b = (ks', None) -> Get ks' id = Ok b) ->
  Key_Bytes key = Ok kb ->
  fromBytes kb = Ok key ->
  ImportKey mgr key = (mgr', None) ->
  GetKey fromBytes mgr' (Key_SKI key) = (key, None).
Proof.
  intros Hstore Hbytes Hdecode. unfold ImportKey, GetKey. rewrite Hbytes.
  destruct (Import (store mgr) (hex_EncodeToString (Key_SKI key)) kb) as [s e] eqn:Himp.
  intros [= <- ->]. simpl.
  rewrite (Hstore _ _ _ _ Himp), Hdecode. reflexivity.
Qed.

(** X8. A manager built by [NewPaillierKeyManager] generates its keys with a
    nil pool, whatever pool the constructor was given; and on a keystore
    that gives back what was imported, the generated key is returned by
    [GetKey] on its SKI, provided its bytes decode to it. *)
Theorem PaillierKeyManager_GenerateKey_then_GetKey
    (s : KS) (p : option Pool) (seed : Seed)
    (mgr' : PaillierKeyManager (KS := KS)) (key : PaillierKey) :
  (∀ ks id b ks', Import ks id b = (ks', None) -> Get ks' id = Ok b) ->
  (∀ k kb, Key_Bytes k = Ok kb -> fromBytes kb = Ok k) ->
  GenerateKey (NewPaillierKeyManager s p) seed = (mgr', (key, None)) ->
  key = mkPaillierKey (Some (KeyGen None seed).2) (Some (KeyGen None seed).1)
  ∧ GetKey fromBytes mgr' (Key_SKI key) = (key, None).
Proof.
  intros Hstore Hcodec. unfold GenerateKey, NewPaillierKeyManager. simpl.
  destruct (KeyGen None seed) as [pk sk]. simpl.
  destruct (Key_Bytes (mkPaillierKey (Some sk) (Some pk))) as [encoded|] eqn:Hbytes;
    [|discriminate].
  destruct (Import s _ encoded) as [s' [e|]] eqn:Himp; [discriminate|].
  intros [= <- <-]. split; [reflexivity|].
  unfold GetKey. simpl. rewrite (Hstore _ _ _ _ Himp), (Hcodec _ _ Hbytes). reflexivity.
Qed.

(** X9. The lookup error that [Encode], [EncWithNonce], [Decode],
    [DecodeWithNonce] and [ValidateCiphertexts] test for never comes:
    when the SKI is unknown or its entry does not decode, each of them
    goes on to call the Paillier primitive on the nil key. *)
Theorem PaillierKeyManager_failed_lookup_reaches_primitives
    (mgr : PaillierKeyManager (KS := KS)) (ski : list Z) :
  (∃ e, Get (store mgr) (hex_EncodeToString ski) = Err e)
  ∨ (∃ decoded e, Get (store mgr) (hex_EncodeToString ski) = Ok decoded
                  ∧ fromBytes decoded = Err e) ->
  (∀ m seed, Encode fromBytes mgr ski m seed = (c ← Enc None m seed; Return (Some c)))
  ∧ (∀ m nonce, EncWithNonce fromBytes mgr ski m nonce =
                  (c ← pk_EncWithNonce None m nonce; Return (Some c)))
  ∧ (∀ ct, Decode fromBytes mgr ski ct = Dec None ct)
  ∧ (∀ ct, DecodeWithNonce fromBytes mgr ski ct = DecWithRandomness None ct)
  ∧ (∀ cts, ValidateCiphertexts fromBytes mgr ski cts =
              (b ← sk_ValidateCiphertexts None cts; Return (b, None))).
Proof.
  intros Hfail.
  assert (Hget : GetKey fromBytes mgr ski = (zero_PaillierKey, None)).
  { unfold GetKey. destruct Hfail as [[e ->]|(decoded & e & -> & ->)]; reflexivity. }
  unfold Encode, EncWithNonce, Decode, DecodeWithNonce, ValidateCiphertexts.
  rewrite Hget. simpl. repeat split.
Qed.

(** X10. On a keystore whose imports leave other identifiers alone,
    importing a key does not disturb the key filed under another SKI: the
    identifiers of distinct byte slices differ. *)
Theorem PaillierKeyManager_ImportKey_keeps_other_keys
    (mgr mgr' : PaillierKeyManager (KS := KS)) (key : PaillierKey) (ski : list Z) :
  (∀ ks id b ks' id', Import ks id b = (ks', None) -> id' ≠ id ->
                      Get ks' id' = Get ks id') ->
  Forall (fun b => 0 <= b < 256) ski ->
  Forall (fun b => 0 <= b < 256) (Key_SKI key) ->
  ski ≠ Key_SKI key ->
  ImportKey mgr key = (mgr', None) ->
  GetKey fromBytes mgr' ski = GetKey fromBytes mgr ski.
Proof.
  intros Hstore Hski Hkey Hne. unfold ImportKey, GetKey.
  destruct (Key_Bytes key) as [kb|]; [|discriminate].
  destruct (Import (store mgr) (hex_EncodeToString (Key_SKI key)) kb) as [s e] eqn:Himp.
  intros [= <- ->]. simpl.
  rewrite (Hstore _ _ _ _ (hex_EncodeToString ski) Himp); [reflexivity|].
  intros Heq. apply Hne. apply hex_EncodeToString_inj; assumption.
Qed.

End PaillierManagerOperations.

(** ** The MPC state manager *)
Section StateManager.
Import state.
Context {SS : Type} `{!MPCStateStore SS}.

(** X11. On a store that gives back what was imported and leaves other
    sessions alone, [SetLastRound] on a session whose state carries its
    identifier succeeds exactly when the import does, after which [Get]
    returns the state with the round set, and every other session reads as
    before. *)
Theorem MPCStateManager_SetLastRound_then_Get
    (mgr mgr' : MPCStateManager (SS := SS)) (ID : string) (round : Z) (old : State) :
  (∀ ss id s ss', store_Import id s ss = (ss', None) -> store_Get ss' id = Ok s) ->
  (∀ ss id s ss' id', store_Import id s ss = (ss', None) -> id' ≠ id ->
                      store_Get ss' id' = store_Get ss id') ->
  (∀ n s, State_ID (State_SetLastRound n s) = State_ID s) ->
  Get mgr ID = Ok old ->
  State_ID old = ID ->
  SetLastRound mgr ID round = (mgr', None) ->
  Get mgr' ID = Ok (State_SetLastRound round old)
  ∧ ∀ other, other ≠ ID -> Get mgr' other = Get mgr other.
Proof.
  intros Hsame Hother Hid Hget Hold. unfold SetLastRound, Get, Import in *.
  rewrite Hget, Hid, Hold.
  destruct (store_Import ID (State_SetLastRound round old) (store mgr)) as [s e] eqn:Himp.
  intros [= <- ->]. simpl. split.
  - apply (Hsame _ _ _ _ Himp).
  - intros other Hne. apply (Hother _ _ _ _ _ Himp Hne).
Qed.

End StateManager.

(** ** CMP key generation, round 4: broadcasts, verification and replays *)
Section CmpKeygenRound4Delivery.
Import curve cmp_keygen_round4.
Context `{Verifiers}.

(** X12. A broadcast that [StoreBroadcastMessage] rejects leaves the round
    untouched.  One it accepts had both proofs verified, changes nothing
    but the sender's entry in [MessageBroadcasted], and is accepted again,
    with no further change, when delivered a second time. *)
Theorem round4_StoreBroadcastMessage_idempotent
    (r : round4) (msg : round.Message broadcast_content) :
  ((StoreBroadcastMessage r msg).2 ≠ None -> (StoreBroadcastMessage r msg).1 = r)
  ∧ (∀ r', StoreBroadcastMessage r msg = (r', None) ->
       r' = mark_broadcasted (round.From msg) r
       ∧ StoreBroadcastMessage r' msg = (r', None)
       ∧ ∃ body ped paillier,
           round.Content msg = ContentBroadcast4 (Some body)
           ∧ pedersen_GetKey (KeyID r) (round.From msg) = Ok ped
           ∧ paillier_GetKey (paillier_km r) (KeyID r) (round.From msg) = Ok paillier
           ∧ VerifyZKMod paillier (Mod body) (HashForID (round.From msg)) = true
           ∧ VerifyProof ped (HashForID (round.From msg)) (Prm body) = true).
Proof.
  unfold StoreBroadcastMessage.
  destruct (round.Content msg) as [[body|]|];
    try (split; [reflexivity|intros r' [=]]).
  destruct (pedersen_GetKey (KeyID r) (round.From msg)) as [ped|] eqn:Hped;
    [|split; [reflexivity|intros r' [=]]].
  destruct (paillier_GetKey (paillier_km r) (KeyID r) (round.From msg))
    as [paillier|] eqn:Hpai; [|split; [reflexivity|intros r' [=]]].
  destruct (VerifyZKMod paillier (Mod body) (HashForID (round.From msg))) eqn:Hmod;
    [|split; [reflexivity|intros r' [=]]].
  destruct (VerifyProof ped (HashForID (round.From msg)) (Prm body)) eqn:Hprm;
    [|split; [reflexivity|intros r' [=]]].
  simpl. split; [intros Hne; contradiction|].
  intros r' [= <-]. split; [reflexivity|]. split.
  - simpl. rewrite Hped, Hpai, Hmod, Hprm. simpl.
    unfold mark_broadcasted. simpl. rewrite insert_insert_eq. reflexivity.
  - exists body, ped, paillier. auto.
Qed.

(** X13. [VerifyMessage] lets a direct message through only if the local
    Paillier key validates the ciphertext and the factoring proof verifies
    against the sender's Paillier key and the local Pedersen key. *)
Theorem round4_VerifyMessage_accepts_only_verified
    (r : round4) (msg : round.Message content) :
  VerifyMessage r msg = None ->
  ∃ body paillierKey ped paillierj,
    round.Content msg = ContentMessage4 (Some body)
    ∧ paillier_GetKey (paillier_km r) (KeyID r) (SelfID r) = Ok paillierKey
    ∧ ValidateCiphertexts paillierKey (Share body) = true
    ∧ pedersen_GetKey (KeyID r) (SelfID r) = Ok ped
    ∧ paillier_GetKey (paillier_km r) (KeyID r) (round.From msg) = Ok paillierj
    ∧ VerifyZKFAC paillierKey (Fac body) paillierj ped (HashForID (round.From msg)) = true.
Proof.
  unfold VerifyMessage.
  destruct (round.Content msg) as [[body|]|]; try discriminate.
  destruct (paillier_GetKey (paillier_km r) (KeyID r) (SelfID r))
    as [paillierKey|] eqn:Hself; [|discriminate].
  destruct (ValidateCiphertexts paillierKey (Share body)) eqn:Hct; [|discriminate].
  simpl.
  destruct (pedersen_GetKey (KeyID r) (SelfID r)) as [ped|] eqn:Hped; [|discriminate].
  destruct (paillier_GetKey (paillier_km r) (KeyID r) (round.From msg))
    as [paillierj|] eqn:Hfrom; [|discriminate].
  destruct (VerifyZKFAC paillierKey (Fac body) paillierj ped (HashForID (round.From msg)))
    eqn:Hfac; [|discriminate].
  intros _. exists body, paillierKey, ped, paillierj. auto 10.
Qed.

(** X14. A direct share that [StoreMessage] accepts changes the delivery
    maps only at the sender's entry of [MessagesForwarded]; accepted from a
    sender already counted, it leaves [CanFinalize] as it was, so replays
    cannot make the round ready. *)
Theorem round4_StoreMessage_replay_keeps_readiness
    (r r' : round4) (msg : round.Message content) :
  StoreMessage r msg = Return (r', None) ->
  MessageBroadcasted r' = MessageBroadcasted r
  ∧ MessagesForwarded r' = <[round.From msg := true]> (MessagesForwarded r)
  ∧ (is_Some (MessagesForwarded r !! round.From msg) -> CanFinalize r' = CanFinalize r).
Proof.
  unfold StoreMessage.
  destruct (round.Content msg) as [[body|]|]; [| |discriminate].
  - rewrite storeShare_unfold.
    destruct (paillier_GetKey (paillier_km r) (KeyID r) (SelfID r)); [|discriminate].
    destruct (Decode a (Share body)); [|discriminate].
    destruct (in_range a0); [|discriminate].
    destruct (vss_GetKey (vss_km r) (KeyID r) (round.From msg)); [|discriminate].
    destruct (EvaluateByExponents a1 (PartyScalar (SelfID r))); [|discriminate].
    destruct (Equal (ActOnBase (reduce a0)) a2); [|discriminate].
    destruct (ImportShare a1 (PartyScalar (SelfID r)) (reduce a0) (vss_km r))
      as [k [e|]]; [discriminate|].
    intros [= <-]. simpl. repeat split.
    intros Hknown. unfold CanFinalize, N. simpl.
    rewrite (map_size_insert_Some _ _ _ Hknown). reflexivity.
  - destruct (paillier_GetKey (paillier_km r) (KeyID r) (SelfID r)); discriminate.
Qed.

End CmpKeygenRound4Delivery.

(** ** CMP signing, round 5: readiness, replays and the order of the sum *)
Section CmpSignRound5Delivery.
Import curve cmp_sign_round5.
Context `{Ecdsa}.

(** X15. [Finalize] answers with the not-enough-messages error exactly when
    [CanFinalize] is false. *)
Theorem round5_Finalize_NotEnoughMessages_iff (r : round5) :
  Finalize r = Return (None, Some ErrNotEnoughMessages) <-> CanFinalize r = false.
Proof.
  split; [|apply round5_Finalize_guard].
  unfold Finalize, CanFinalize.
  destruct (Z.of_nat (size (MessageBroadcasted r)) =? N r - 1); [|reflexivity].
  simpl. destruct (add_shares (SigmaShares r) NewScalar (PartyIDs r)) as [Sigma| |];
    simpl; try discriminate.
  destruct (Signature_Verify _ _ _); discriminate.
Qed.

(** X16. Two accepted broadcasts of one sender leave the round as the second
    alone would: the later sigma share replaces the earlier one and the
    sender is counted once. *)
Theorem round5_StoreBroadcastMessage_last_share_wins
    (r r1 r2 : round5) (from : party) (first second : broadcast5) :
  StoreBroadcastMessage r (round.mkMessage from (ContentBroadcast5 (Some first))) =
    (r1, None) ->
  StoreBroadcastMessage r1 (round.mkMessage from (ContentBroadcast5 (Some second))) =
    (r2, None) ->
  StoreBroadcastMessage r (round.mkMessage from (ContentBroadcast5 (Some second))) =
    (r2, None)
  ∧ CanFinalize r2 = CanFinalize r1.
Proof.
  unfold StoreBroadcastMessage. simpl.
  destruct (IsZero (SigmaShare first)); [discriminate|].
  intros [= <-].
  destruct (IsZero (SigmaShare second)); [discriminate|].
  simpl. intros [= <-]. cbn.
  rewrite (insert_insert_eq (SigmaShares r)), (insert_insert_eq (MessageBroadcasted r)).
  split; reflexivity.
Qed.

Lemma add_shares_permutation (shares : gmap party Scalar) (ps ps' : list party) :
  (∀ a b c, Add (Add a b) c = Add (Add a c) b) ->
  Permutation ps ps' ->
  ∀ Sigma, add_shares shares Sigma ps = add_shares shares Sigma ps'.
Proof.
  intros Hswap. induction 1 as [|x l l' _ IH|x y l|l l' l'' _ IH1 _ IH2]; intros Sigma.
  - reflexivity.
  - simpl. destruct (shares !! x); [apply IH|reflexivity].
  - simpl. destruct (shares !! y) as [sy|], (shares !! x) as [sx|]; try reflexivity.
    rewrite Hswap. reflexivity.
  - rewrite IH1. apply IH2.
Qed.

(** X17. On a curve whose scalar addition lets two summands change places,
    [Finalize] does not depend on the order of the party list: under every
    permutation it returns the same session, error or panic. *)
Theorem round5_Finalize_order_independent (r : round5) (ps : list party) :
  (∀ a b c, Add (Add a b) c = Add (Add a c) b) ->
  Permutation (PartyIDs r) ps ->
  Finalize (mkRound5 ps (PublicKey r) (Message r) (SigmaShares r) (BigR r)
              (MessageBroadcasted r)) =
  Finalize r.
Proof.
  intros Hswap Hperm. unfold Finalize, N. simpl.
  rewrite (add_shares_permutation _ _ _ Hswap Hperm).
  unfold len. rewrite (Permutation_length Hperm). reflexivity.
Qed.

End CmpSignRound5Delivery.

(** ** FROST key generation, round 2: what [Finalize] sends *)
Section FrostKeygenRound2Finalize.
Import curve keyopts frost_keygen_round2.
Context `{Finalizers}.
Variable takes : list sent -> sent -> option error.

(** A loop that ran to its end appended one direct message per party other
    than the local one, in party order, each carrying the polynomial's value
    at that party. *)
Lemma shareLoop_sends (r : round2) (vssKey : VssKey) (ps : list party) :
  ∀ s out s' out',
    shareLoop takes r vssKey ps s out = (s', out', None) ->
    ∃ shares,
      out' = out ++ shares
      ∧ Forall2 (fun j m => ∃ share, Evaluate vssKey (PartyScalar j) = Ok share
                                     ∧ m = Direct j (mkMessage3 share))
          (round.OtherPartyIDs (SelfID r) ps) shares.
Proof.
  unfold round.OtherPartyIDs.
  induction ps as [|j ps IH]; intros s out s' out' Hloop; simpl in Hloop.
  - injection Hloop as _ <-. exists []. rewrite app_nil_r. split; [reflexivity|constructor].
  - destruct (Evaluate vssKey (PartyScalar j)) as [share|] eqn:Heval; [|discriminate].
    rewrite filter_cons. destruct (decide (j ≠ SelfID r)) as [Hother|Hself].
    + unfold send in Hloop. destruct (takes out (Direct j (mkMessage3 share)));
        [discriminate|].
      destruct (IH _ _ _ _ Hloop) as (shares & -> & Hall).
      exists (Direct j (mkMessage3 share) :: shares). split.
      * rewrite <- app_assoc. reflexivity.
      * constructor; [eauto|exact Hall].
    + destruct (ec_vss_ImportKey share (ActOnBase share) _ s) as [s1 [e|]];
        [discriminate|].
      apply (IH _ _ _ _ Hloop).
Qed.

(** X18. When [Finalize] returns no error it hands back the successor round
    and has put on the channel, after what was there, the round-3 broadcast
    with the own chain key and decommitment, followed by one direct message
    for each party other than the local one, in party order, carrying the
    value of the own polynomial at that party's scalar; nothing is sent to
    the local party. *)
Theorem frost_keygen_round2_Finalize_sends_every_share
    (r : round2) (out out' : list sent) (next : option session) (s' : St) :
  Finalize_sending takes r out = ((next, None), (s', out')) ->
  next = Some NextRound
  ∧ ∃ chainKey cmt vssKey shares,
      let opts := session_party (ID r) (SelfID r) in
      chainKey_GetKey (st r) opts = Ok chainKey
      ∧ commit_Get (st r) opts = Ok cmt
      ∧ vss_GetSecrets (st r) opts = Ok vssKey
      ∧ out' = out ++ Broadcast (mkBroadcast3 (Raw chainKey) (Commitment_Decommitment cmt))
                        :: shares
      ∧ Forall2 (fun j m => ∃ share, Evaluate vssKey (PartyScalar j) = Ok share
                                     ∧ m = Direct j (mkMessage3 share))
          (round.OtherPartyIDs (SelfID r) (PartyIDs r)) shares.
Proof.
  unfold Finalize_sending.
  destruct (CanFinalize r); simpl; [|discriminate].
  destruct (chainKey_GetKey (st r) _) as [chainKey|] eqn:Hck; [|discriminate].
  destruct (commit_Get (st r) _) as [cmt|] eqn:Hcmt; [|discriminate].
  unfold send at 1.
  destruct (takes out _); [discriminate|].
  destruct (vss_GetSecrets (st r) _) as [vssKey|] eqn:Hvss; [|discriminate].
  destruct (shareLoop takes r vssKey (PartyIDs r) (st r) _) as [[s out2] [[n e]|]] eqn:Hloop;
    [discriminate|].
  destruct (statemgr_SetLastRound (ID r) Number s) as [s2 [e|]]; [discriminate|].
  intros [= <- <- <-]. split; [reflexivity|].
  destruct (shareLoop_sends _ _ _ _ _ _ _ Hloop) as (shares & -> & Hall).
  exists chainKey, cmt, vssKey, shares. cbn zeta.
  repeat split; try assumption. rewrite <- app_assoc. reflexivity.
Qed.

(** Whatever the loop's outcome, it only appended direct messages, each to
    a listed party other than the local one. *)
Lemma shareLoop_appends (r : round2) (vssKey : VssKey) (ps : list party) :
  ∀ s out s' out' stop,
    shareLoop takes r vssKey ps s out = (s', out', stop) ->
    ∃ more,
      out' = out ++ more
      ∧ Forall (fun m => ∃ j body, m = Direct j body ∧ j ∈ ps ∧ j ≠ SelfID r) more.
Proof.
  induction ps as [|j ps IH]; intros s out s' out' stop Hloop; simpl in Hloop.
  - injection Hloop as _ <- _. exists []. rewrite app_nil_r. split; [reflexivity|constructor].
  - destruct (Evaluate vssKey (PartyScalar j)) as [share|] eqn:Heval.
    2:{ injection Hloop as _ <- _. exists []. rewrite app_nil_r.
        split; [reflexivity|constructor]. }
    destruct (decide (j ≠ SelfID r)) as [Hother|Hself].
    + unfold send in Hloop. destruct (takes out (Direct j (mkMessage3 share))).
      { injection Hloop as _ <- _. exists []. rewrite app_nil_r.
        split; [reflexivity|constructor]. }
      destruct (IH _ _ _ _ _ Hloop) as (more & -> & Hall).
      exists (Direct j (mkMessage3 share) :: more). split.
      * rewrite <- app_assoc. reflexivity.
      * constructor.
        -- exists j, (mkMessage3 share). repeat split; [left|exact Hother].
        -- eapply Forall_impl; [exact Hall|].
           intros m (j' & body & -> & Hin & Hne). exists j', body.
           repeat split; [right; exact Hin|exact Hne].
    + destruct (ec_vss_ImportKey share (ActOnBase share) _ s) as [s1 [e|]].
      { injection Hloop as _ <- _. exists []. rewrite app_nil_r.
        split; [reflexivity|constructor]. }
      destruct (IH _ _ _ _ _ Hloop) as (more & -> & Hall).
      exists more. split; [reflexivity|].
      eapply Forall_impl; [exact Hall|].
      intros m (j' & body & -> & Hin & Hne). exists j', body.
      repeat split; [right; exact Hin|exact Hne].
Qed.

(** X19. On every path, failing or not, [Finalize] only adds to the channel:
    what was there stays in front, and each added message is a broadcast or
    a direct message to a listed party other than the local one.  No path
    sends the local party its own share. *)
Theorem frost_keygen_round2_Finalize_never_sends_to_self
    (r : round2) (out : list sent) :
  ∃ more,
    (Finalize_sending takes r out).2.2 = out ++ more
    ∧ Forall (fun m => match m with
                       | Broadcast _ => True
                       | Direct j _ => j ∈ PartyIDs r ∧ j ≠ SelfID r
                       end) more.
Proof.
  unfold Finalize_sending.
  destruct (CanFinalize r); simpl.
  2:{ exists []. rewrite app_nil_r. split; [reflexivity|constructor]. }
  destruct (chainKey_GetKey (st r) _) as [chainKey|].
  2:{ exists []. rewrite app_nil_r. split; [reflexivity|constructor]. }
  destruct (commit_Get (st r) _) as [cmt|].
  2:{ exists []. rewrite app_nil_r. split; [reflexivity|constructor]. }
  unfold send at 1.
  destruct (takes out _).
  { exists []. rewrite app_nil_r. split; [reflexivity|constructor]. }
  destruct (vss_GetSecrets (st r) _) as [vssKey|].
  2:{ eexists [_]. split; [reflexivity|]. repeat constructor. }
  destruct (shareLoop takes r vssKey (PartyIDs r) (st r) _) as [[s out2] stop] eqn:Hloop.
  destruct (shareLoop_appends _ _ _ _ _ _ _ _ Hloop) as (more & -> & Hall).
  assert (Hdone : ∃ more0,
    (out ++ [Broadcast (mkBroadcast3 (Raw chainKey) (Commitment_Decommitment cmt))]) ++ more
      = out ++ more0
    ∧ Forall (fun m => match m with
                       | Broadcast _ => True
                       | Direct j _ => j ∈ PartyIDs r ∧ j ≠ SelfID r
                       end) more0).
  { eexists (_ :: more). split; [rewrite <- app_assoc; reflexivity|].
    constructor; [exact I|].
    eapply Forall_impl; [exact Hall|].
    intros m (j & body & -> & Hin & Hne). split; assumption. }
  destruct stop as [[n e]|]; [exact Hdone|].
  destruct (statemgr_SetLastRound (ID r) Number s) as [s2 [e|]]; exact Hdone.
Qed.

End FrostKeygenRound2Finalize.

(** ** FROST signing, round 2: what [StoreBroadcastMessage] leaves alone and
    what [Finalize] returns *)
Section FrostSignRound2Finalize.
Import curve keyopts frost_sign_round2.
Context `{Curve} {KM MM : Type} `{!ECDSAKeyManager KM} `{!message.MessageManager MM}
  `{!Signing}.
Variable takes : list broadcast3 -> broadcast3 -> option error.

(** X20. [StoreBroadcastMessage] writes to the two nonce key managers only:
    whatever the message and whether or not it is accepted, the session, the
    parties and both message trackers are as before, so the broadcast
    tracker's answer about the other parties never changes in this round. *)
Theorem frost_sign_StoreBroadcastMessage_leaves_trackers
    (r : round2 (KM := KM) (MM := MM)) (msg : round.Message content) :
  let r' := (StoreBroadcastMessage r msg).1 in
  ID r' = ID r ∧ SelfID r' = SelfID r ∧ PartyIDs r' = PartyIDs r
  ∧ msgmgr r' = msgmgr r ∧ bcstmgr r' = bcstmgr r
  ∧ all_broadcasts_delivered r' = all_broadcasts_delivered r.
Proof.
  cbn zeta. unfold StoreBroadcastMessage, all_broadcasts_delivered.
  destruct (round.Content msg) as [[body|]|]; try (simpl; tauto).
  eff_unfold. unfold storeNonces, on_sign_d, on_sign_e. eff_unfold.
  destruct (IsIdentity (D body) || IsIdentity (E body)); [simpl; tauto|].
  simpl.
  destruct (ImportKey (NewKey None (D body)) _ (sign_d r)) as [kd [dk|e]]; simpl;
    [|tauto].
  destruct (ImportKey (NewKey None (E body)) _ (sign_e r)) as [ke [ek|e]]; simpl; tauto.
Qed.

Lemma fetchNonces_keys (r : round2 (KM := KM) (MM := MM)) (ps : list party) :
  ∀ Ds Es Ds' Es',
    fetchNonces r ps Ds Es = Ok (Ds', Es') ->
    ∀ l, l ∈ ps ∨ (is_Some (Ds !! l) ∧ is_Some (Es !! l)) ->
         is_Some (Ds' !! l) ∧ is_Some (Es' !! l).
Proof.
  induction ps as [|p ps IH]; intros Ds Es Ds' Es' Hfetch l Hl; simpl in Hfetch.
  - injection Hfetch as <- <-. destruct Hl as [Hin|Hl]; [|exact Hl].
    apply elem_of_nil in Hin. contradiction.
  - destruct (GetKey (sign_d r) _) as [dk|]; [|discriminate]. simpl in Hfetch.
    destruct (GetKey (sign_e r) _) as [ek|]; [|discriminate]. simpl in Hfetch.
    apply (IH _ _ _ _ Hfetch). destruct (decide (l = p)) as [->|Hne].
    + right. rewrite !lookup_insert_eq. split; eexists; reflexivity.
    + destruct Hl as [Hin|Hl].
      * left. apply elem_of_cons in Hin. destruct Hin as [Heq|Hin]; [contradiction|exact Hin].
      * right. rewrite !lookup_insert_ne by congruence. exact Hl.
Qed.

Lemma writeNonces_returns (Ds Es : gmap party Point) (ps : list party) :
  (∀ l, l ∈ ps -> is_Some (Ds !! l) ∧ is_Some (Es !! l)) ->
  ∀ h, ∃ h', writeNonces Ds Es h ps = Return h'.
Proof.
  induction ps as [|p ps IH]; intros Hall h; simpl.
  - eexists. reflexivity.
  - destruct (Hall p) as [[d Hd] [e He]]; [left|].
    unfold entry. rewrite Hd, He. simpl.
    apply IH. intros l Hl. apply Hall. right. exact Hl.
Qed.

Lemma bindingFactors_keys (h : Hash) (ps : list party) :
  ∀ rho l, l ∈ ps ∨ is_Some (rho !! l) -> is_Some (bindingFactors h ps rho !! l).
Proof.
  induction ps as [|p ps IH]; intros rho l Hl; simpl.
  - destruct Hl as [Hin|Hl]; [|exact Hl]. apply elem_of_nil in Hin. contradiction.
  - apply IH. destruct (decide (l = p)) as [->|Hne].
    + right. rewrite lookup_insert_eq. eexists. reflexivity.
    + destruct Hl as [Hin|Hl].
      * left. apply elem_of_cons in Hin. destruct Hin as [Heq|Hin]; [contradiction|exact Hin].
      * right. rewrite lookup_insert_ne by congruence. exact Hl.
Qed.

Lemma groupCommitment_returns (rho : gmap party Scalar) (Ds Es : gmap party Point)
    (ps : list party) :
  (∀ l, l ∈ ps -> is_Some (rho !! l) ∧ is_Some (Ds !! l) ∧ is_Some (Es !! l)) ->
  ∀ R, ∃ R', groupCommitment rho Ds Es R ps = Return R'.
Proof.
  induction ps as [|p ps IH]; intros Hall R; simpl.
  - eexists. reflexivity.
  - destruct (Hall p) as [[rl Hrl] [[d Hd] [e He]]]; [left|].
    unfold entry. rewrite Hrl, He, Hd. simpl.
    apply IH. intros l Hl. apply Hall. right. exact Hl.
Qed.

(** X21. With the local party among the participants, [Finalize] always
    returns, in one of two ways: with an error, handing back the round
    itself and leaving the channel as it was; or without one, handing back a
    nil session after putting exactly one round-3 broadcast on the channel. *)
Theorem frost_sign_round2_Finalize_outcomes (s : signer (KM := KM) (MM := MM)) (out : list broadcast3) :
  SelfID (base s) ∈ PartyIDs (base s) ->
  (∃ e, Finalize takes s out = Return ((Some ThisRound, Some e), out))
  ∨ (∃ z, Finalize takes s out = Return ((None, None), out ++ [z])).
Proof.
  intros Hself. unfold Finalize.
  destruct (fetchNonces (base s) (PartyIDs (base s)) ∅ ∅) as [[Ds Es]|e] eqn:Hfetch;
    [|left; eexists; reflexivity].
  pose proof (fetchNonces_keys _ _ _ _ _ _ Hfetch) as Hkeys.
  destruct (writeNonces_returns Ds Es (PartyIDs (base s))
              (fun l Hl => Hkeys l (or_introl Hl))
              (WriteMessage hash_New (cfg_Message s))) as [h ->].
  simpl.
  destruct (groupCommitment_returns (bindingFactors h (PartyIDs (base s)) ∅) Ds Es
              (PartyIDs (base s))
              (fun l Hl => conj (bindingFactors_keys h _ ∅ l (or_introl Hl))
                                (Hkeys l (or_introl Hl)))
              NewPoint) as [R ->].
  simpl.
  destruct (GetKey (ecdsa_km s) _) as [ecKey|e]; [|left; eexists; reflexivity].
  destruct (GetKey (sign_e (base s)) _) as [ek|e]; [|left; eexists; reflexivity].
  destruct (GetKey (sign_d (base s)) _) as [dk|e]; [|left; eexists; reflexivity].
  destruct (bindingFactors_keys h (PartyIDs (base s)) ∅ _ (or_introl Hself)) as [rhoSelf Hrho].
  unfold entry. rewrite Hrho. simpl.
  destruct (GetKey (ec_sign_km s) _) as [signKey|e]; [|left; eexists; reflexivity].
  unfold send. destruct (takes out _) as [e|].
  - left. eexists. reflexivity.
  - right. eexists. reflexivity.
Qed.

Lemma fetchNonces_missing (r : round2 (KM := KM) (MM := MM)) (ps : list party)
    (l : party) :
  l ∈ ps ->
  (∃ e, GetKey (sign_d r) (session_party (ID r) l) = Err e)
  ∨ (∃ e, GetKey (sign_e r) (session_party (ID r) l) = Err e) ->
  ∀ Ds Es, ∃ e, fetchNonces r ps Ds Es = Err e.
Proof.
  intros Hin Hmiss. induction ps as [|p ps IH]; intros Ds Es; simpl.
  - apply elem_of_nil in Hin. contradiction.
  - destruct (GetKey (sign_d r) (session_party (ID r) p)) as [dk|e] eqn:Hd; simpl;
      [|eexists; reflexivity].
    destruct (GetKey (sign_e r) (session_party (ID r) p)) as [ek|e] eqn:He; simpl;
      [|eexists; reflexivity].
    apply elem_of_cons in Hin. destruct Hin as [->|Hin].
    + destruct Hmiss as [[e Hm]|[e Hm]]; congruence.
    + apply (IH Hin).
Qed.

(** X22. If for some participant either nonce commitment cannot be read from
    its key manager, [Finalize] hands back the round itself with an error and
    sends nothing: no response is broadcast before every participant's pair
    of commitments is on file. *)
Theorem frost_sign_round2_Finalize_needs_every_nonce
    (s : signer (KM := KM) (MM := MM)) (out : list broadcast3) (l : party) :
  l ∈ PartyIDs (base s) ->
  (∃ e, GetKey (sign_d (base s)) (session_party (ID (base s)) l) = Err e)
  ∨ (∃ e, GetKey (sign_e (base s)) (session_party (ID (base s)) l) = Err e) ->
  ∃ e, Finalize takes s out = Return ((Some ThisRound, Some e), out).
Proof.
  intros Hin Hmiss. unfold Finalize.
  destruct (fetchNonces_missing (base s) _ l Hin Hmiss ∅ ∅) as [e ->].
  exists e. reflexivity.
Qed.

End FrostSignRound2Finalize.

(** ** The Ed25519 key manager: a filed key is the key read back *)
Section Ed25519Manager.
Import keyopts ed25519.
Context {KS : Type} `{!Keys KS}.

Lemma fileKey_then_GetKey (ks ks' : KS) (k : Ed25519Impl) (opts : Options) :
  (∀ id kb o s s', keystore_Import id kb o s = (s', None) -> keystore_Get s' o = Ok kb) ->
  (∀ key kb, Bytes key = Ok kb -> FromBytes kb = Ok key) ->
  fileKey k opts ks = (ks', Ok k) ->
  GetKey ks' opts = Ok k.
Proof.
  intros Hstore Hcodec. unfold fileKey, GetKey.
  destruct (Bytes k) as [kb|e] eqn:Hkb; [|discriminate].
  destruct (keystore_Import _ kb opts ks) as [s' [e|]] eqn:Himp; [discriminate|].
  intros [= <-]. rewrite (Hstore _ _ _ _ _ Himp), (Hcodec _ _ Hkb). reflexivity.
Qed.

Lemma fileKey_returns_its_key (ks ks' : KS) (k k' : Ed25519Impl) (opts : Options) :
  fileKey k opts ks = (ks', Ok k') -> k' = k.
Proof.
  unfold fileKey. destruct (Bytes k); [|discriminate].
  destruct (keystore_Import _ _ opts ks) as [s' [e|]]; [discriminate|].
  intros [= _ <-]. reflexivity.
Qed.

(** X23. Over a keystore that hands back under an options key the bytes last
    filed there, and a key encoding that [FromBytes] inverts, a key that
    [ImportKey] or [GenerateKey] returned is the key [GetKey] then returns
    under the same options, whether it was imported as a key or as bytes. *)
Theorem Ed25519KeyManagerImpl_filed_key_is_read_back
    (ks ks' : KS) (k : Ed25519Impl) (opts : Options) :
  (∀ id kb o s s', keystore_Import id kb o s = (s', None) -> keystore_Get s' o = Ok kb) ->
  (∀ key kb, Bytes key = Ok kb -> FromBytes kb = Ok key) ->
  (∀ r, ImportKey ks r opts = Return (ks', Ok k) -> GetKey ks' opts = Ok k)
  ∧ (∀ seed, GenerateKey ks seed opts = (ks', Ok k) -> GetKey ks' opts = Ok k).
Proof.
  intros Hstore Hcodec. split.
  - intros r. unfold ImportKey. destruct r as [data|k0| |].
    + destruct (FromBytes data) as [k0|e]; [|discriminate].
      intros [= Hfile]. pose proof (fileKey_returns_its_key _ _ _ _ _ Hfile) as ->.
      exact (fileKey_then_GetKey _ _ _ _ Hstore Hcodec Hfile).
    + intros [= Hfile]. pose proof (fileKey_returns_its_key _ _ _ _ _ Hfile) as ->.
      exact (fileKey_then_GetKey _ _ _ _ Hstore Hcodec Hfile).
    + discriminate.
    + discriminate.
  - intros seed. unfold GenerateKey. destruct (pkg_GenerateKey seed) as [k0|e]; [|discriminate].
    intros Hfile. pose proof (fileKey_returns_its_key _ _ _ _ _ Hfile) as ->.
    exact (fileKey_then_GetKey _ _ _ _ Hstore Hcodec Hfile).
Qed.

End Ed25519Manager.

(** ** The further properties at work on the in-memory instances *)
Section FurtherRuns.
Import curve memory.

(** The in-memory stores obey the laws the managers' theorems ask for. *)
Lemma map_keystore_gives_back (ks : gmap string (list Z)) (id : string) (b : list Z)
    (ks' : gmap string (list Z)) :
  keystore.Import ks id b = (ks', None) -> keystore.Get ks' id = Ok b.
Proof. simpl. intros [= <-]. rewrite lookup_insert_eq. reflexivity. Qed.

Lemma map_keystore_keeps_others (ks : gmap string (list Z)) (id : string) (b : list Z)
    (ks' : gmap string (list Z)) (id' : string) :
  keystore.Import ks id b = (ks', None) -> id' ≠ id ->
  keystore.Get ks' id' = keystore.Get ks id'.
Proof.
  simpl. intros [= <-] Hne. rewrite lookup_insert_ne by congruence. reflexivity.
Qed.

Lemma paillier_fromBytes_inverts_Key_Bytes (k : paillier.PaillierKey) (kb : list Z) :
  paillier.Key_Bytes k = Ok kb -> paillier_fromBytes kb = Ok k.
Proof.
  destruct k as [[[p q]|] [n|]]; simpl; try discriminate.
  destruct (Z.eqb_spec n (p * q)) as [->|]; [|discriminate].
  intros [= <-]. reflexivity.
Qed.

Lemma map_state_store_gives_back (ss : gmap string session_state) (id : string)
    (s : session_state) (ss' : gmap string session_state) :
  state.store_Import id s ss = (ss', None) -> state.store_Get ss' id = Ok s.
Proof. simpl. intros [= <-]. rewrite lookup_insert_eq. reflexivity. Qed.

Lemma map_state_store_keeps_others (ss : gmap string session_state) (id : string)
    (s : session_state) (ss' : gmap string session_state) (id' : string) :
  state.store_Import id s ss = (ss', None) -> id' ≠ id ->
  state.store_Get ss' id' = state.store_Get ss id'.
Proof.
  simpl. intros [= <-] Hne. rewrite lookup_insert_ne by congruence. reflexivity.
Qed.

Lemma Z11_Add_swap (a b c : Z) : Add (Add a b) c = Add (Add a c) b.
Proof.
  simpl. rewrite !Zplus_mod_idemp_l. f_equal. lia.
Qed.

Lemma ed25519_keystore_gives_back (id : string) (kb : list Z) (o : keyopts.Options)
    (s s' : gmap (gmap string string) (list Z)) :
  ed25519.keystore_Import id kb o s = (s', None) -> ed25519.keystore_Get s' o = Ok kb.
Proof. simpl. intros [= <-]. rewrite lookup_insert_eq. reflexivity. Qed.

Lemma ed25519_FromBytes_inverts_Bytes (key : ed25519.Ed25519Impl) (kb : list Z) :
  ed25519.Bytes key = Ok kb -> ed25519.FromBytes kb = Ok key.
Proof. destruct key as [[s|] p]; simpl; intros [= <-]; reflexivity. Qed.

(** Witness of X1: the encoding of the private key with scalar 7 on the
    point 5. *)
Lemma fromBytes_returns_private_secp256k1_witness :
  ecdsa.Private private_key = true ∧ ecdsa.group private_key = ecdsa.Secp256k1.
Proof.
  apply (fromBytes_returns_private_secp256k1 (name_prefix ++ [1; 5; 1; 7]) private_key).
  vm_compute. reflexivity.
Defined.

(** Witness of X2: the same key. *)
Lemma fromBytes_private_secp256k1_round_trip_witness :
  ∃ data, ecdsa.Bytes private_key = Ok data ∧ ecdsa.fromBytes data = Return private_key.
Proof.
  apply (fromBytes_private_secp256k1_round_trip private_key 7 [5] [7]);
    reflexivity.
Defined.

(** Witness of X3: the same key and the encoding of its public part. *)
Lemma Bytes_private_extends_public_witness :
  ecdsa.Bytes private_key = Ok ((name_prefix ++ [1; 5]) ++ [uint8 (len [7])] ++ [7]).
Proof.
  apply (Bytes_private_extends_public private_key 7 [7] (name_prefix ++ [1; 5]));
    reflexivity.
Defined.

(** Witness of X4: the encoding of the public-only key ends right after the
    point. *)
Lemma fromBytes_panics_only_on_nil_group_or_missing_private_length_witness :
  "index out of range" = "nil pointer dereference"
  ∨ ("index out of range" = "index out of range"
     ∧ ∃ gnLen pkLen,
         index (name_prefix ++ [1; 5]) 0 = Return gnLen
         ∧ index (name_prefix ++ [1; 5]) (1 + gnLen) = Return pkLen
         ∧ len (name_prefix ++ [1; 5]) = 2 + gnLen + pkLen).
Proof.
  apply (fromBytes_panics_only_on_nil_group_or_missing_private_length
           (name_prefix ++ [1; 5]) "index out of range").
  - repeat (constructor; [lia|]). constructor.
  - vm_compute. reflexivity.
Defined.

(** Witness of X5: a private key on the other curve of the two-curve
    encoding. *)
Lemma fromBytes_other_curve_panics_witness :
  @ecdsa.fromBytes Z11 two_curve_encoding
    (7 :: bytes_of_string "ed25519" ++ [1; 5; 1; 7]) = Panic "nil pointer dereference".
Proof.
  apply (@fromBytes_other_curve_panics Z11 two_curve_encoding other_curve_key [5]).
  - simpl. discriminate.
  - reflexivity.
  - reflexivity.
  - reflexivity.
  - reflexivity.
Defined.

(** Witness of X6: the private length byte 1 replaced by 0. *)
Lemma fromBytes_private_length_is_a_lower_bound_witness :
  ecdsa.fromBytes ([len (bytes_of_string "secp256k1")] ++ bytes_of_string "secp256k1"
                   ++ [len [5]] ++ [5] ++ 1 :: [7]) =
  ecdsa.fromBytes ([len (bytes_of_string "secp256k1")] ++ bytes_of_string "secp256k1"
                   ++ [len [5]] ++ [5] ++ 0 :: [7]).
Proof.
  apply (fromBytes_private_length_is_a_lower_bound
           (bytes_of_string "secp256k1") [5] [7] 1 0);
    unfold len; simpl; lia.
Defined.

(** Witness of X7: the key with factors 3 and 7 imported into an empty
    manager. *)
Lemma PaillierKeyManager_ImportKey_then_GetKey_witness :
  paillier.GetKey paillier_fromBytes
    (paillier.ImportKey empty_paillier_manager paillier_key_21).1
    (paillier.Key_SKI paillier_key_21) = (paillier_key_21, None).
Proof.
  apply (PaillierKeyManager_ImportKey_then_GetKey paillier_fromBytes
           empty_paillier_manager _ paillier_key_21 [3; 7]).
  - exact map_keystore_gives_back.
  - reflexivity.
  - reflexivity.
  - reflexivity.
Defined.

(** Witness of X8: a key generated from the seed (3, 7) by a manager built
    over a pool. *)
Lemma PaillierKeyManager_GenerateKey_then_GetKey_witness :
  paillier_key_21 =
    paillier.mkPaillierKey (Some (paillier.KeyGen None seed_3_7).2)
      (Some (paillier.KeyGen None seed_3_7).1)
  ∧ paillier.GetKey paillier_fromBytes
      (paillier.GenerateKey (paillier.NewPaillierKeyManager ∅ (Some tt)) seed_3_7).1
      (paillier.Key_SKI paillier_key_21) = (paillier_key_21, None).
Proof.
  apply (PaillierKeyManager_GenerateKey_then_GetKey paillier_fromBytes ∅ (Some tt) seed_3_7).
  - exact map_keystore_gives_back.
  - exact paillier_fromBytes_inverts_Key_Bytes.
  - reflexivity.
Defined.

(** Witness of X9: decryption under an SKI the empty manager does not
    know. *)
Lemma PaillierKeyManager_failed_lookup_reaches_primitives_witness :
  paillier.Decode paillier_fromBytes empty_paillier_manager [171; 205] ciphertext_4 =
    Panic "nil pointer dereference".
Proof.
  assert (Hunknown :
    (∃ e, keystore.Get (paillier.store empty_paillier_manager)
            (hex_EncodeToString [171; 205]) = Err e)
    ∨ (∃ decoded e, keystore.Get (paillier.store empty_paillier_manager)
                      (hex_EncodeToString [171; 205]) = Ok decoded
                    ∧ paillier_fromBytes decoded = Err e)).
  { left. exists (ErrorsNew "key not found"). reflexivity. }
  exact (proj1 (proj2 (proj2 (PaillierKeyManager_failed_lookup_reaches_primitives
                                paillier_fromBytes empty_paillier_manager [171; 205]
                                Hunknown)))
           ciphertext_4).
Defined.

(** Witness of X10: importing the key with SKI [21] leaves the lookup of
    SKI [171; 205] as it was. *)
Lemma PaillierKeyManager_ImportKey_keeps_other_keys_witness :
  paillier.GetKey paillier_fromBytes
    (paillier.ImportKey empty_paillier_manager paillier_key_21).1 [171; 205] =
  paillier.GetKey paillier_fromBytes empty_paillier_manager [171; 205].
Proof.
  apply (PaillierKeyManager_ImportKey_keeps_other_keys paillier_fromBytes
           empty_paillier_manager _ paillier_key_21 [171; 205]).
  - exact map_keystore_keeps_others.
  - repeat (constructor; [lia|]). constructor.
  - constructor; [|constructor]. change (0 <= 21 mod 256 < 256).
    split; [discriminate|reflexivity].
  - discriminate.
  - reflexivity.
Defined.

(** Witness of X11: round 3 recorded for session ["keygen-1"]. *)
Lemma MPCStateManager_SetLastRound_then_Get_witness :
  state.Get (state.SetLastRound state_manager_1 "keygen-1" 3).1 "keygen-1" =
    Ok (state.State_SetLastRound 3 fresh_state_1)
  ∧ ∀ other, other ≠ "keygen-1" ->
      state.Get (state.SetLastRound state_manager_1 "keygen-1" 3).1 other =
      state.Get state_manager_1 other.
Proof.
  apply (MPCStateManager_SetLastRound_then_Get state_manager_1 _ "keygen-1" 3
           fresh_state_1).
  - exact map_state_store_gives_back.
  - exact map_state_store_keeps_others.
  - reflexivity.
  - reflexivity.
  - reflexivity.
  - reflexivity.
Defined.

(** Witness of X13: the share 5 of ["b"] is a valid ciphertext with a proof
    that verifies. *)
Lemma round4_VerifyMessage_accepts_only_verified_witness :
  ∃ body paillierKey ped paillierj,
    round.Content (share_message 5) = cmp_keygen_round4.ContentMessage4 (Some body)
    ∧ cmp_keygen_round4.paillier_GetKey (cmp_keygen_round4.paillier_km round4_at_a)
        (cmp_keygen_round4.KeyID round4_at_a) (cmp_keygen_round4.SelfID round4_at_a) =
      Ok paillierKey
    ∧ cmp_keygen_round4.ValidateCiphertexts paillierKey (cmp_keygen_round4.Share body) = true
    ∧ cmp_keygen_round4.pedersen_GetKey (cmp_keygen_round4.KeyID round4_at_a)
        (cmp_keygen_round4.SelfID round4_at_a) = Ok ped
    ∧ cmp_keygen_round4.paillier_GetKey (cmp_keygen_round4.paillier_km round4_at_a)
        (cmp_keygen_round4.KeyID round4_at_a) (round.From (share_message 5)) = Ok paillierj
    ∧ cmp_keygen_round4.VerifyZKFAC paillierKey (cmp_keygen_round4.Fac body) paillierj ped
        (cmp_keygen_round4.HashForID (round.From (share_message 5))) = true.
Proof.
  apply (round4_VerifyMessage_accepts_only_verified round4_at_a (share_message 5)).
  reflexivity.
Defined.

(** Witness of X14: the share 5 of ["b"] delivered to party ["a"] a second time. *)
Lemma round4_StoreMessage_replay_keeps_readiness_witness :
  ∃ r',
    cmp_keygen_round4.StoreMessage round4_counted_b (share_message 5) = Return (r', None)
    ∧ cmp_keygen_round4.MessageBroadcasted r' =
        cmp_keygen_round4.MessageBroadcasted round4_counted_b
    ∧ cmp_keygen_round4.MessagesForwarded r' =
        <[round.From (share_message 5) := true]>
          (cmp_keygen_round4.MessagesForwarded round4_counted_b)
    ∧ (is_Some (cmp_keygen_round4.MessagesForwarded round4_counted_b
                  !! round.From (share_message 5)) ->
       cmp_keygen_round4.CanFinalize r' = cmp_keygen_round4.CanFinalize round4_counted_b).
Proof.
  eexists. split; [reflexivity|].
  apply (round4_StoreMessage_replay_keeps_readiness round4_counted_b _ (share_message 5)).
  reflexivity.
Defined.

(** Witness of X16: ["b"] broadcasts the sigma share 4, then 9. *)
Lemma round5_StoreBroadcastMessage_last_share_wins_witness :
  ∃ r1 r2,
    cmp_sign_round5.StoreBroadcastMessage round5_at_a (sigma_broadcast 9) = (r2, None)
    ∧ cmp_sign_round5.CanFinalize r2 = cmp_sign_round5.CanFinalize r1.
Proof.
  do 2 eexists.
  apply (round5_StoreBroadcastMessage_last_share_wins round5_at_a _ _ "b"
           (sigma_body 4) (sigma_body 9));
    reflexivity.
Defined.

(** Witness of X17: the parties of [round5_at_a] walked as c, a, b. *)
Lemma round5_Finalize_order_independent_witness :
  cmp_sign_round5.Finalize
    (cmp_sign_round5.mkRound5 ["c"; "a"; "b"]
       (cmp_sign_round5.PublicKey round5_at_a) (cmp_sign_round5.Message round5_at_a)
       (cmp_sign_round5.SigmaShares round5_at_a) (cmp_sign_round5.BigR round5_at_a)
       (cmp_sign_round5.MessageBroadcasted round5_at_a)) =
  cmp_sign_round5.Finalize round5_at_a.
Proof.
  apply (round5_Finalize_order_independent round5_at_a ["c"; "a"; "b"]).
  - exact Z11_Add_swap.
  - simpl. apply perm_trans with (l' := ["a"; "c"; "b"]).
    + apply perm_skip. apply perm_swap.
    + apply perm_swap.
Defined.

(** Witness of X18: party ["a"] with both broadcasts counted sends its
    broadcast, then the shares 7 and 9 to ["b"] and ["c"]. *)
Lemma frost_keygen_round2_Finalize_sends_every_share_witness :
  Some frost_keygen_round2.NextRound = Some frost_keygen_round2.NextRound
  ∧ ∃ chainKey cmt vssKey shares,
      let opts := keyopts.session_party (frost_keygen_round2.ID frost_round2_ready)
                    (frost_keygen_round2.SelfID frost_round2_ready) in
      frost_keygen_round2.chainKey_GetKey (frost_keygen_round2.st frost_round2_ready) opts =
        Ok chainKey
      ∧ frost_keygen_round2.commit_Get (frost_keygen_round2.st frost_round2_ready) opts =
          Ok cmt
      ∧ frost_keygen_round2.vss_GetSecrets (frost_keygen_round2.st frost_round2_ready) opts =
          Ok vssKey
      ∧ frost_round2_sent =
          [] ++ frost_keygen_round2.Broadcast
                  (frost_keygen_round2.mkBroadcast3 (frost_keygen_round2.Raw chainKey)
                     (frost_keygen_round2.Commitment_Decommitment cmt))
                :: shares
      ∧ Forall2 (fun j m => ∃ share,
                   frost_keygen_round2.Evaluate vssKey (PartyScalar j) = Ok share
                   ∧ m = frost_keygen_round2.Direct j (frost_keygen_round2.mkMessage3 share))
          (round.OtherPartyIDs (frost_keygen_round2.SelfID frost_round2_ready)
             (frost_keygen_round2.PartyIDs frost_round2_ready)) shares.
Proof.
  apply (frost_keygen_round2_Finalize_sends_every_share open_channel frost_round2_ready
           [] frost_round2_sent (Some frost_keygen_round2.NextRound)
           (frost_keygen_round2.st frost_round2_ready)).
  reflexivity.
Defined.

(** Witness of X21: party ["a"] is among the signers. *)
Lemma frost_sign_round2_Finalize_outcomes_witness :
  (∃ e, frost_sign_round2.Finalize open_channel signer_at_a [] =
          Return ((Some frost_sign_round2.ThisRound, Some e), []))
  ∨ (∃ z, frost_sign_round2.Finalize open_channel signer_at_a [] =
            Return ((None, None), [] ++ [z])).
Proof.
  apply (frost_sign_round2_Finalize_outcomes open_channel signer_at_a []).
  simpl. constructor.
Defined.

(** Witness of X22: no nonce of ["b"] is on file. *)
Lemma frost_sign_round2_Finalize_needs_every_nonce_witness :
  ∃ e, frost_sign_round2.Finalize open_channel signer_at_a [] =
         Return ((Some frost_sign_round2.ThisRound, Some e), []).
Proof.
  apply (frost_sign_round2_Finalize_needs_every_nonce open_channel signer_at_a [] "b").
  - simpl. constructor. constructor.
  - left. exists (ErrorsNew "key not found"). reflexivity.
Defined.

(** Witness of X23: the key (5, 5) imported as a key into an empty
    keystore. *)
Lemma Ed25519KeyManagerImpl_filed_key_is_read_back_witness :
  ed25519.GetKey (<[keyopts.session_party "1" "a" := [5; 5]]> ∅)
    (keyopts.session_party "1" "a") = Ok ed25519_key_5.
Proof.
  apply (proj1 (Ed25519KeyManagerImpl_filed_key_is_read_back
                  ∅ (<[keyopts.session_party "1" "a" := [5; 5]]> ∅) ed25519_key_5
                  (keyopts.session_party "1" "a")
                  ed25519_keystore_gives_back ed25519_FromBytes_inverts_Bytes)
           ed25519_raw_key_5).
  reflexivity.
Defined.

End FurtherRuns.
